(** * AssignFlow: the task ledger, the tool dispatcher and the assistant session

    A shallow embedding of [assignflow.py]: the SQLite store behind
    [DatabaseManager], the tool dispatcher [AIChatWidget._execute_tool] and
    the streaming loop [AIChatWidget._call_deepseek_api], followed by the
    properties of the ledger and of the session that are proved about them.

    Conventions.
    - A Python [str] is a [string] holding its UTF-8 bytes; SQLite compares
      TEXT with the BINARY collation, i.e. bytewise, which is [String.compare].
    - A Python exception is a value of [exn]; a method that can raise returns
      [exn + A], and state survives an exception as it does in Python.
    - Floating point is outside the model: a float is kept as its lexeme. *)

From Stdlib Require Import ZArith List String Ascii Bool Lia.
From Stdlib Require Import Sorting.Sorted Sorting.Permutation.
From Stdlib Require Import DecimalString.
Import ListNotations.

Set Warnings "-register-all".

Local Open Scope string_scope.
Local Open Scope list_scope.
Local Open Scope Z_scope.

(* ================================================================== *)
(** ** Python values and exceptions *)
(* ================================================================== *)

Inductive exn_kind :=
| JSONDecodeError | ValueError | KeyError | TypeError | AttributeError
| OverflowError | IntegrityError | ProgrammingError | OtherError.

(** [str(e)] is [exn_msg]. *)
Record exn := mkExn { exn_kind_of : exn_kind; exn_msg : string }.

(** The values [json.loads] produces and the handlers pass around. *)
Inductive pyval :=
| PNone
| PBool (b : bool)
| PInt (z : Z)
| PFloat (lexeme : string)
| PStr (s : string)
| PList (l : list pyval)
| PDict (kvs : list (string * pyval)).

Definition Z_to_string (z : Z) : string := NilZero.string_of_int (Z.to_int z).

Definition ascii_lt (a : ascii) (n : N) : bool := N.ltb (N_of_ascii a) n.

Definition is_digit (a : ascii) : bool :=
  N.leb 48 (N_of_ascii a) && N.leb (N_of_ascii a) 57.

Definition digit_val (a : ascii) : Z := Z.of_N (N_of_ascii a) - 48.

(** [sep.join(l)] *)
Fixpoint join (sep : string) (l : list string) : string :=
  match l with
  | [] => ""
  | [s] => s
  | s :: r => (s ++ sep ++ join sep r)%string
  end.

Fixpoint str_contains (c : ascii) (s : string) : bool :=
  match s with
  | EmptyString => false
  | String a r => Ascii.eqb a c || str_contains c r
  end.

(** The double quote. *)
Definition dquote : ascii := "034"%char.

Definition hex_digit (n : N) : ascii :=
  ascii_of_N (if N.ltb n 10 then 48 + n else 87 + n).

(** *** [str] and [repr]

    [repr] of a [str] picks the quote as CPython does and escapes the
    backslash, the quote, the ASCII control characters; bytes above 127 are
    copied (CPython escapes the few non-printable ones among them). *)

Fixpoint repr_chars (q : ascii) (s : string) : string :=
  match s with
  | EmptyString => ""
  | String a r =>
      let n := N_of_ascii a in
      let rest := repr_chars q r in
      if Ascii.eqb a "\" then String "\" (String "\" rest)
      else if Ascii.eqb a q then String "\" (String q rest)
      else if N.eqb n 10 then String "\" (String "n" rest)
      else if N.eqb n 13 then String "\" (String "r" rest)
      else if N.eqb n 9 then String "\" (String "t" rest)
      else if N.ltb n 32 || N.eqb n 127 then
        String "\" (String "x" (String (hex_digit (N.div n 16))
                                  (String (hex_digit (N.modulo n 16)) rest)))
      else String a rest
  end.

Definition repr_str (s : string) : string :=
  let q := if str_contains "'" s && negb (str_contains dquote s)
           then dquote else "'"%char in
  String q (repr_chars q s ++ String q "")%string.

Fixpoint py_repr (v : pyval) : string :=
  match v with
  | PNone => "None"
  | PBool true => "True"
  | PBool false => "False"
  | PInt z => Z_to_string z
  | PFloat x => x
  | PStr s => repr_str s
  | PList l => ("[" ++ join ", " (map py_repr l) ++ "]")%string
  | PDict kvs =>
      ("{" ++ join ", " (map (fun kv => (repr_str (fst kv) ++ ": " ++ py_repr (snd kv))%string) kvs)
           ++ "}")%string
  end.

(** [str(v)], which an f-string applies to an interpolated value. *)
Definition py_str (v : pyval) : string :=
  match v with
  | PStr s => s
  | _ => py_repr v
  end.

(** Truth value of an object, as [if x:] and [not x] test it. *)
Definition truthy (v : pyval) : bool :=
  match v with
  | PNone => false
  | PBool b => b
  | PInt z => negb (Z.eqb z 0)
  | PFloat x => negb (String.eqb x "0.0" || String.eqb x "-0.0")
  | PStr s => negb (String.eqb s "")
  | PList l => match l with [] => false | _ => true end
  | PDict kvs => match kvs with [] => false | _ => true end
  end.

Definition type_name (v : pyval) : string :=
  match v with
  | PNone => "NoneType" | PBool _ => "bool" | PInt _ => "int"
  | PFloat _ => "float" | PStr _ => "str" | PList _ => "list" | PDict _ => "dict"
  end.

Fixpoint assoc {A} (k : string) (kvs : list (string * A)) : option A :=
  match kvs with
  | [] => None
  | (k', v) :: r => if String.eqb k k' then Some v else assoc k r
  end.

(** [d[k] = v] on a dict: the first position of the key is kept. *)
Fixpoint dict_set {A} (k : string) (v : A) (kvs : list (string * A)) : list (string * A) :=
  match kvs with
  | [] => [(k, v)]
  | (k', v') :: r => if String.eqb k k' then (k, v) :: r else (k', v') :: dict_set k v r
  end.

(** [args[k]] *)
Definition getitem (args : pyval) (k : string) : exn + pyval :=
  match args with
  | PDict kvs =>
      match assoc k kvs with
      | Some v => inr v
      | None => inl (mkExn KeyError (repr_str k))
      end
  | PStr _ => inl (mkExn TypeError "string indices must be integers, not 'str'")
  | PList _ => inl (mkExn TypeError "list indices must be integers or slices, not str")
  | _ => inl (mkExn TypeError ("'" ++ type_name args ++ "' object is not subscriptable"))
  end.

(** [args.get(k)] *)
Definition dict_get (args : pyval) (k : string) : exn + pyval :=
  match args with
  | PDict kvs => inr (match assoc k kvs with Some v => v | None => PNone end)
  | _ => inl (mkExn AttributeError ("'" ++ type_name args ++ "' object has no attribute 'get'"))
  end.

(* ================================================================== *)
(** ** [int(s)], [json.loads], [json.dumps] *)
(* ================================================================== *)

(** ASCII white space, which [int] strips and SQLite skips before a number. *)
Definition is_space (a : ascii) : bool :=
  let n := N_of_ascii a in (N.leb 9 n && N.leb n 13) || N.eqb n 32.

Fixpoint lstrip (s : string) : string :=
  match s with
  | String a r => if is_space a then lstrip r else s
  | EmptyString => s
  end.

Fixpoint all_space (s : string) : bool :=
  match s with
  | EmptyString => true
  | String a r => is_space a && all_space r
  end.

(** Digits with single underscores between them, then white space up to the
    end: the value read so far and the number of digits. *)
Fixpoint int_digits (s : string) (acc : Z) (n : nat) (after_digit : bool) : option (Z * nat) :=
  match s with
  | EmptyString => if after_digit then Some (acc, n) else None
  | String a r =>
      if is_digit a then int_digits r (10 * acc + digit_val a) (S n) true
      else if Ascii.eqb a "_" then
        (if after_digit then
           match r with
           | String b _ => if is_digit b then int_digits r acc n false else None
           | EmptyString => None
           end
         else None)
      else if after_digit && all_space s then Some (acc, n)
      else None
  end.

(** [sys.int_info.default_max_str_digits] *)
Definition max_str_digits : nat := 4300.

(** [int(s)] for a [str] in base 10; [None] is the [ValueError]. Unicode
    digits and Unicode white space, which CPython also accepts, are not
    recognised. *)
Definition py_int (s : string) : option Z :=
  let body := lstrip s in
  let '(neg, body) :=
    match body with
    | String "-" r => (true, r)
    | String "+" r => (false, r)
    | _ => (false, body)
    end in
  match int_digits body 0 0 false with
  | Some (v, n) =>
      if Nat.leb n max_str_digits then Some (if neg then - v else v) else None
  | None => None
  end.

Definition decode_error (msg : string) : exn := mkExn JSONDecodeError msg.

Definition is_json_ws (a : ascii) : bool :=
  let n := N_of_ascii a in N.eqb n 32 || N.eqb n 9 || N.eqb n 10 || N.eqb n 13.

Fixpoint skip_ws (s : string) : string :=
  match s with
  | String a r => if is_json_ws a then skip_ws r else s
  | EmptyString => s
  end.

Definition hex_val (a : ascii) : option N :=
  let n := N_of_ascii a in
  if N.leb 48 n && N.leb n 57 then Some (n - 48)%N
  else if N.leb 97 n && N.leb n 102 then Some (n - 87)%N
  else if N.leb 65 n && N.leb n 70 then Some (n - 55)%N
  else None.

(** Four hexadecimal digits of a [\u] escape. *)
Definition hex4 (s : string) : option (N * string) :=
  match s with
  | String a (String b (String c (String d r))) =>
      match hex_val a, hex_val b, hex_val c, hex_val d with
      | Some x, Some y, Some z, Some w => Some (((x * 16 + y) * 16 + z) * 16 + w, r)%N
      | _, _, _, _ => None
      end
  | _ => None
  end.

(** UTF-8 encoding of a code point (a lone surrogate gets its three bytes). *)
Definition utf8_encode (cp : N) : string :=
  let b (n : N) := ascii_of_N n in
  (if N.ltb cp 128 then String (b cp) ""
   else if N.ltb cp 2048 then
     String (b (192 + N.div cp 64)) (String (b (128 + N.modulo cp 64)) "")
   else if N.ltb cp 65536 then
     String (b (224 + N.div cp 4096))
       (String (b (128 + N.modulo (N.div cp 64) 64)) (String (b (128 + N.modulo cp 64)) ""))
   else
     String (b (240 + N.div cp 262144))
       (String (b (128 + N.modulo (N.div cp 4096) 64))
          (String (b (128 + N.modulo (N.div cp 64) 64))
             (String (b (128 + N.modulo cp 64)) ""))))%N.

(** The characters of a JSON string after its opening quote. *)
Fixpoint scan_string (fuel : nat) (s : string) : exn + (string * string) :=
  match fuel with
  | O => inl (decode_error "Unterminated string starting at")
  | S fuel' =>
      match s with
      | EmptyString => inl (decode_error "Unterminated string starting at")
      | String a r =>
          if Ascii.eqb a dquote then inr ("", r)
          else if Ascii.eqb a "\" then
            match r with
            | EmptyString => inl (decode_error "Unterminated string starting at")
            | String e r' =>
                let simple (c : N) :=
                  match scan_string fuel' r' with
                  | inr (t, rest) => inr (String (ascii_of_N c) t, rest)
                  | inl x => inl x
                  end in
                if Ascii.eqb e dquote then simple 34%N
                else if Ascii.eqb e "\" then simple 92%N
                else if Ascii.eqb e "/" then simple 47%N
                else if Ascii.eqb e "b" then simple 8%N
                else if Ascii.eqb e "f" then simple 12%N
                else if Ascii.eqb e "n" then simple 10%N
                else if Ascii.eqb e "r" then simple 13%N
                else if Ascii.eqb e "t" then simple 9%N
                else if Ascii.eqb e "u" then
                  match hex4 r' with
                  | None => inl (decode_error "Invalid \uXXXX escape")
                  | Some (hi, r2) =>
                      let single :=
                        match scan_string fuel' r2 with
                        | inr (t, rest) => inr ((utf8_encode hi ++ t)%string, rest)
                        | inl x => inl x
                        end in
                      if N.leb 55296 hi && N.leb hi 56319 then
                        match r2 with
                        | String "\" (String "u" r3) =>
                            match hex4 r3 with
                            | Some (lo, r4) =>
                                if N.leb 56320 lo && N.leb lo 57343 then
                                  match scan_string fuel' r4 with
                                  | inr (t, rest) =>
                                      inr ((utf8_encode (65536 + (hi - 55296) * 1024 + (lo - 56320))%N
                                              ++ t)%string, rest)
                                  | inl x => inl x
                                  end
                                else single
                            | None => single
                            end
                        | _ => single
                        end
                      else single
                  end
                else inl (decode_error "Invalid \escape")
            end
          else if ascii_lt a 32 then inl (decode_error "Invalid control character at")
          else
            match scan_string fuel' r with
            | inr (t, rest) => inr (String a t, rest)
            | inl x => inl x
            end
      end
  end.

Fixpoint span_digits (s : string) : string * string :=
  match s with
  | String a r =>
      if is_digit a then let '(d, rest) := span_digits r in (String a d, rest)
      else ("", s)
  | EmptyString => ("", s)
  end.

Fixpoint digits_value (s : string) (acc : Z) : Z :=
  match s with
  | String a r => digits_value r (10 * acc + digit_val a)
  | EmptyString => acc
  end.

(** A JSON number: an optional minus sign, an integer part without a leading
    zero, an optional fraction and an optional exponent. It is an [int] when
    there is neither a fraction nor an exponent, a float otherwise. *)
Definition scan_number (s : string) : option (exn + pyval * string) :=
  let '(sign, body) := match s with String "-" r => ("-", r) | _ => ("", s) end in
  let '(ds, rest) := span_digits body in
  let '(int_part, rest) :=
    match ds with
    | String "0" (String _ _ as more) => ("0", (more ++ rest)%string)
    | _ => (ds, rest)
    end in
  match int_part with
  | EmptyString => None
  | _ =>
      let '(frac, rest1) :=
        match rest with
        | String "." r =>
            let '(fd, r') := span_digits r in
            match fd with
            | EmptyString => ("", rest)
            | _ => (("." ++ fd)%string, r')
            end
        | _ => ("", rest)
        end in
      let '(expo, rest2) :=
        match rest1 with
        | String e r =>
            if Ascii.eqb e "e" || Ascii.eqb e "E" then
              let '(sg, r1) :=
                match r with
                | String "+" r1 => ("+", r1)
                | String "-" r1 => ("-", r1)
                | _ => ("", r)
                end in
              let '(ed, r2) := span_digits r1 in
              match ed with
              | EmptyString => ("", rest1)
              | _ => ((String e sg ++ ed)%string, r2)
              end
            else ("", rest1)
        | EmptyString => ("", rest1)
        end in
      match frac, expo with
      | EmptyString, EmptyString =>
          if Nat.leb (String.length int_part) max_str_digits then
            let v := digits_value int_part 0 in
            Some (inr (PInt (if String.eqb sign "-" then - v else v), rest2))
          else
            Some (inl (mkExn ValueError "Exceeds the limit (4300 digits) for integer string conversion"))
      | _, _ => Some (inr (PFloat (sign ++ int_part ++ frac ++ expo)%string, rest2))
      end
  end.

Definition strip_prefix (p s : string) : option string :=
  if String.prefix p s
  then Some (String.substring (String.length p) (String.length s - String.length p) s)
  else None.

(** The scanner of [json.decoder]: a value at the head of [s], and what
    follows it. The caller has skipped white space. *)
Fixpoint parse_value (fuel : nat) (s : string) {struct fuel} : exn + (pyval * string) :=
  match fuel with
  | O => inl (decode_error "Expecting value")
  | S fuel' =>
      match s with
      | String "034" r =>
          match scan_string (String.length r) r with
          | inr (t, rest) => inr (PStr t, rest)
          | inl e => inl e
          end
      | String "{" r =>
          match skip_ws r with
          | String "}" rest => inr (PDict [], rest)
          | r' => parse_members fuel' r' []
          end
      | String "[" r =>
          match skip_ws r with
          | String "]" rest => inr (PList [], rest)
          | r' => parse_elements fuel' r' []
          end
      | _ =>
          match strip_prefix "null" s, strip_prefix "true" s, strip_prefix "false" s with
          | Some rest, _, _ => inr (PNone, rest)
          | _, Some rest, _ => inr (PBool true, rest)
          | _, _, Some rest => inr (PBool false, rest)
          | _, _, _ =>
              match scan_number s with
              | Some r => r
              | None =>
                  match strip_prefix "NaN" s, strip_prefix "Infinity" s,
                        strip_prefix "-Infinity" s with
                  | Some rest, _, _ => inr (PFloat "nan", rest)
                  | _, Some rest, _ => inr (PFloat "inf", rest)
                  | _, _, Some rest => inr (PFloat "-inf", rest)
                  | _, _, _ => inl (decode_error "Expecting value")
                  end
              end
          end
      end
  end

with parse_members (fuel : nat) (s : string) (acc : list (string * pyval)) {struct fuel}
  : exn + (pyval * string) :=
  match fuel with
  | O => inl (decode_error "Expecting value")
  | S fuel' =>
      match s with
      | String "034" r =>
          match scan_string (String.length r) r with
          | inl e => inl e
          | inr (key, r1) =>
              match skip_ws r1 with
              | String ":" r2 =>
                  match parse_value fuel' (skip_ws r2) with
                  | inl e => inl e
                  | inr (v, r3) =>
                      let acc' := dict_set key v acc in
                      match skip_ws r3 with
                      | String "}" rest => inr (PDict acc', rest)
                      | String "," r4 => parse_members fuel' (skip_ws r4) acc'
                      | _ => inl (decode_error "Expecting ',' delimiter")
                      end
                  end
              | _ => inl (decode_error "Expecting ':' delimiter")
              end
          end
      | _ => inl (decode_error "Expecting property name enclosed in double quotes")
      end
  end

with parse_elements (fuel : nat) (s : string) (acc : list pyval) {struct fuel}
  : exn + (pyval * string) :=
  match fuel with
  | O => inl (decode_error "Expecting value")
  | S fuel' =>
      match parse_value fuel' s with
      | inl e => inl e
      | inr (v, r1) =>
          match skip_ws r1 with
          | String "]" rest => inr (PList (acc ++ [v]), rest)
          | String "," r2 => parse_elements fuel' (skip_ws r2) (acc ++ [v])
          | _ => inl (decode_error "Expecting ',' delimiter")
          end
      end
  end.

(** [json.loads(s)] for a [str]: one value between optional white space.
    Every step of the scanner consumes a character, so the fuel, twice the
    length of the text, is never exhausted; CPython's recursion limit on the
    nesting depth is not modelled. *)
Definition json_loads (s : string) : exn + pyval :=
  match parse_value (2 * String.length s + 2) (skip_ws s) with
  | inl e => inl e
  | inr (v, rest) =>
      match skip_ws rest with
      | EmptyString => inr v
      | _ => inl (decode_error "Extra data")
      end
  end.

(** [json.dumps(v, ensure_ascii=False)] *)
Fixpoint json_chars (s : string) : string :=
  match s with
  | EmptyString => ""
  | String a r =>
      let n := N_of_ascii a in
      let rest := json_chars r in
      if Ascii.eqb a dquote then String "\" (String dquote rest)
      else if Ascii.eqb a "\" then String "\" (String "\" rest)
      else if N.eqb n 10 then String "\" (String "n" rest)
      else if N.eqb n 13 then String "\" (String "r" rest)
      else if N.eqb n 9 then String "\" (String "t" rest)
      else if N.eqb n 8 then String "\" (String "b" rest)
      else if N.eqb n 12 then String "\" (String "f" rest)
      else if N.ltb n 32 then
        ("\u00" ++ String (hex_digit (N.div n 16)) (String (hex_digit (N.modulo n 16)) rest))%string
      else String a rest
  end.

Definition json_str (s : string) : string :=
  String dquote (json_chars s ++ String dquote "")%string.

Fixpoint json_dumps (v : pyval) : string :=
  match v with
  | PNone => "null"
  | PBool true => "true"
  | PBool false => "false"
  | PInt z => Z_to_string z
  | PFloat x =>
      if String.eqb x "nan" then "NaN"
      else if String.eqb x "inf" then "Infinity"
      else if String.eqb x "-inf" then "-Infinity" else x
  | PStr s => json_str s
  | PList l => ("[" ++ join ", " (map json_dumps l) ++ "]")%string
  | PDict kvs =>
      ("{" ++ join ", " (map (fun kv => (json_str (fst kv) ++ ": " ++ json_dumps (snd kv))%string) kvs)
           ++ "}")%string
  end.

(** To write a JSON text: every apostrophe stands for a double quote. *)
Fixpoint json_text (s : string) : string :=
  match s with
  | EmptyString => ""
  | String a r => String (if Ascii.eqb a "'" then dquote else a) (json_text r)
  end.

Example json_loads_object :
  json_loads (json_text "{'student_id': '202301', 'grade': 95, 'x': [1.5, null, true]}")
  = inr (PDict [("student_id", PStr "202301"); ("grade", PInt 95);
                ("x", PList [PFloat "1.5"; PNone; PBool true])]).
Proof. reflexivity. Qed.

Example json_loads_unterminated :
  json_loads (json_text "{'student_id': '202301'")
  = inl (decode_error "Expecting ',' delimiter").
Proof. reflexivity. Qed.

Example json_loads_rejects :
  map (fun s => match json_loads s with inl _ => true | inr _ => false end)
      [""; "{"; "{'a':1}"; "01"; "1."; "[1,]"; "{}x"; "+1"; "nul"; json_text "{'a':1,}"]
  = [true; true; true; true; true; true; true; true; true; true].
Proof. reflexivity. Qed.

Example json_loads_accepts :
  (json_loads " {} ", json_loads (json_text "{'a':1,'a':2}"), json_loads "-0",
   json_loads "1E+2", json_loads (json_text "'é'"))
  = (inr (PDict []), inr (PDict [("a", PInt 2)]), inr (PInt 0), inr (PFloat "1E+2"),
     inr (PStr (String (ascii_of_N 195) (String (ascii_of_N 169) "")))).
Proof. reflexivity. Qed.

Example json_dumps_row :
  json_dumps (PList [PDict [("a", PStr "x\y"); ("b", PNone); ("c", PInt 1)]])
  = json_text "[{'a': 'x\\y', 'b': null, 'c': 1}]".
Proof. reflexivity. Qed.

Example py_int_examples :
  map py_int ["12"; " 12 "; "+5"; "-5"; "1_0"; "1__0"; "_1"; ""; "0x10"; "- 5"; "007"; "1.9"]
  = [Some 12; Some 12; Some 5; Some (-5); Some 10; None; None; None; None; None; Some 7; None].
Proof. reflexivity. Qed.

(* ================================================================== *)
(** ** The SQLite store *)
(* ================================================================== *)

(** A value as SQLite stores it. A REAL is kept as its lexeme: two REALs are
    equal when their lexemes are, and a REAL of integral value, which an
    INTEGER column would store as an INTEGER, stays a REAL. *)
Inductive sqlval :=
| SqlNull
| SqlInt (z : Z)
| SqlReal (lexeme : string)
| SqlText (s : string).

Definition int64 (z : Z) : bool := (- 2 ^ 63 <=? z) && (z <? 2 ^ 63).

(** Binding of a Python value to a [?] of a statement by the [sqlite3] module. *)
Definition bind_param (v : pyval) : exn + sqlval :=
  match v with
  | PNone => inr SqlNull
  | PBool b => inr (SqlInt (if b then 1 else 0))
  | PInt z =>
      if int64 z then inr (SqlInt z)
      else inl (mkExn OverflowError "Python int too large to convert to SQLite INTEGER")
  | PFloat x => inr (if String.eqb x "nan" then SqlNull else SqlReal x)
  | PStr s => inr (SqlText s)
  | PList _ | PDict _ =>
      inl (mkExn ProgrammingError
             ("Error binding parameter: type '" ++ type_name v ++ "' is not supported"))
  end.

Fixpoint bind_params (vs : list pyval) : exn + list sqlval :=
  match vs with
  | [] => inr []
  | v :: r =>
      match bind_param v, bind_params r with
      | inl e, _ => inl e
      | _, inl e => inl e
      | inr x, inr xs => inr (x :: xs)
      end
  end.

(** TEXT affinity: a number is stored as its text. [None] is NULL. *)
Definition text_affinity (v : sqlval) : option string :=
  match v with
  | SqlNull => None
  | SqlInt z => Some (Z_to_string z)
  | SqlReal x => Some x
  | SqlText s => Some s
  end.

Fixpoint rstrip_spaces (s : string) : string :=
  match s with
  | EmptyString => s
  | String a r => if all_space s then "" else String a (rstrip_spaces r)
  end.

Fixpoint all_digits (s : string) : bool :=
  match s with
  | EmptyString => true
  | String a r => is_digit a && all_digits r
  end.

Definition unsign (s : string) : bool * string :=
  match s with
  | String "-" r => (true, r)
  | String "+" r => (false, r)
  | _ => (false, s)
  end.

(** A text that reads as a number with a fraction or an exponent. *)
Definition real_literal (s : string) : bool :=
  let '(_, body) := unsign (rstrip_spaces (lstrip s)) in
  let '(ip, r) := span_digits body in
  let '(fp, r) :=
    match r with
    | String "." r' => span_digits r'
    | _ => ("", r)
    end in
  let mantissa := negb (String.eqb ip "" && String.eqb fp "") in
  match r with
  | EmptyString => mantissa
  | String e r' =>
      let '(_, ex) := unsign r' in
      mantissa && (Ascii.eqb e "e" || Ascii.eqb e "E")
      && negb (String.eqb ex "") && all_digits ex
  end.

(** INTEGER (and NUMERIC) affinity: a text that reads as an integer of 64
    bits is stored as that integer, another number as a REAL, anything else
    as it is. *)
Definition integer_affinity (v : sqlval) : sqlval :=
  match v with
  | SqlText s =>
      let '(neg, body) := unsign (rstrip_spaces (lstrip s)) in
      if negb (String.eqb body "") && all_digits body then
        let z := if neg then - digits_value body 0 else digits_value body 0 in
        if int64 z then SqlInt z else SqlReal s
      else if real_literal s then SqlReal s
      else v
  | _ => v
  end.

(** [=] of SQL: NULL equals nothing. *)
Definition sql_eqb (a b : sqlval) : bool :=
  match a, b with
  | SqlInt x, SqlInt y => Z.eqb x y
  | SqlReal x, SqlReal y => String.eqb x y
  | SqlText x, SqlText y => String.eqb x y
  | _, _ => false
  end.

(** [column = ?] for a TEXT column that is NOT NULL. *)
Definition text_eqb (col : string) (param : option string) : bool :=
  match param with
  | Some p => String.eqb col p
  | None => false
  end.

(** [CAST(s AS INTEGER)] of a TEXT: leading white space is skipped, the
    longest prefix that reads as an integer is taken, 0 when there is none,
    and the result is clamped to 64 bits. *)
Definition cast_integer (s : string) : Z :=
  let '(neg, body) := unsign (lstrip s) in
  let '(ds, _) := span_digits body in
  let v := digits_value ds 0 in
  let z := if neg then - v else v in
  Z.max (- 2 ^ 63) (Z.min (2 ^ 63 - 1) z).

Example cast_integer_examples :
  map cast_integer ["202301"; "12abc"; " 12"; "-5"; "+5"; "abc"; ""; "- 5"; "007"; "1.9";
                    "99999999999999999999"]
  = [202301; 12; 12; -5; 5; 0; 0; 0; 7; 1; 9223372036854775807].
Proof. reflexivity. Qed.

Example integer_affinity_examples :
  map integer_affinity [SqlText "1"; SqlText " 1"; SqlText "+1"; SqlText "abc"; SqlText "1_0";
                        SqlText ""; SqlText "007"; SqlText "1e"; SqlText "1.5"; SqlInt 3]
  = [SqlInt 1; SqlInt 1; SqlInt 1; SqlText "abc"; SqlText "1_0";
     SqlText ""; SqlInt 7; SqlText "1e"; SqlReal "1.5"; SqlInt 3].
Proof. reflexivity. Qed.

(** *** Tables

    The three tables of [init_db], each a list of rows in rowid order, and
    the counters that [sqlite_sequence] keeps for the AUTOINCREMENT keys. *)

Record student_row := mkStudent {
  st_id : Z;
  st_student_id : string;
  st_name : string;
  st_class : string;
  st_created_at : string }.

Record task_row := mkTask {
  tk_id : Z;
  tk_name : string;
  tk_date : string;
  tk_created_at : string }.

Record detail_row := mkDetail {
  td_id : Z;
  td_task_id : sqlval;
  td_student_id : string;
  td_status : option string;
  td_grade : option string;
  td_updated_at : string }.

Record db := mkDb {
  students : list student_row;
  tasks : list task_row;
  task_details : list detail_row;
  seq_students : Z;
  seq_tasks : Z;
  seq_task_details : Z }.

(** The rowid an AUTOINCREMENT insert takes. *)
Definition next_rowid (seq : Z) (ids : list Z) : Z :=
  Z.max seq (fold_right Z.max 0 ids) + 1.

(** *** ORDER BY: a stable sort *)

Fixpoint insert_by {A} (le : A -> A -> bool) (x : A) (l : list A) : list A :=
  match l with
  | [] => [x]
  | y :: r => if le x y then x :: l else y :: insert_by le x r
  end.

Definition order_by {A} (le : A -> A -> bool) (l : list A) : list A :=
  fold_right (insert_by le) [] l.

(** [ORDER BY class, student_id] on the pair of keys. *)
Definition class_id_le (c1 s1 c2 s2 : string) : bool :=
  match String.compare c1 c2 with
  | Lt => true
  | Gt => false
  | Eq => String.leb s1 s2
  end.

(** *** The clock and the state

    [CURRENT_TIMESTAMP] and [datetime.date.today()] read a clock the program
    does not control: reading number [k] returns [current_timestamp k], or
    [date_today k], an ISO date. *)

Record clock := mkClock {
  current_timestamp : nat -> string;
  date_today : nat -> string }.

Record world := mkWorld {
  w_db : db;
  w_tick : nat }.

(** A method: it returns a value or raises, and leaves a state either way. *)
Definition M (A : Type) : Type := world -> (exn + A) * world.

Definition ret {A} (a : A) : M A := fun w => (inr a, w).

Definition raise {A} (e : exn) : M A := fun w => (inl e, w).

Definition bind {A B} (m : M A) (k : A -> M B) : M B :=
  fun w =>
    match m w with
    | (inr a, w') => k a w'
    | (inl e, w') => (inl e, w')
    end.

Declare Scope method_scope.
Delimit Scope method_scope with method.
Notation "x <- m ;; k" := (bind m (fun x => k))
  (at level 100, m at next level, right associativity) : method_scope.
Notation "m ;;; k" := (bind m (fun _ => k))
  (at level 100, right associativity) : method_scope.
Local Open Scope method_scope.

Definition lift {A} (r : exn + A) : M A :=
  match r with
  | inl e => raise e
  | inr a => ret a
  end.

Definition get_db : M db := fun w => (inr (w_db w), w).

Definition put_db (d : db) : M unit := fun w => (inr tt, mkWorld d (w_tick w)).

(** [with self.get_connection() as conn]: commit when the body returns, roll
    the tables back and raise again when it raises. *)
Definition get_connection {A} (body : M A) : M A :=
  fun w =>
    match body w with
    | (inl e, w') => (inl e, mkWorld (w_db w) (w_tick w'))
    | r => r
    end.

Definition integrity_error {A} (msg : string) : M A := raise (mkExn IntegrityError msg).

(** The NOT NULL constraint of a column. *)
Definition not_null {A} (column : string) (v : option A) : M A :=
  match v with
  | Some a => ret a
  | None => integrity_error ("NOT NULL constraint failed: " ++ column)
  end.

Definition not_null_val (column : string) (v : sqlval) : M sqlval :=
  match v with
  | SqlNull => integrity_error ("NOT NULL constraint failed: " ++ column)
  | _ => ret v
  end.

(* ================================================================== *)
(** ** [DatabaseManager] *)
(* ================================================================== *)

(** What the queries return: [dict(row)] with the selected columns. *)

Record student_view := mkStudentView {
  sv_student_id : string;
  sv_name : string;
  sv_class : string }.

Record detail_view := mkDetailView {
  dv_student_id : string;
  dv_name : string;
  dv_class : string;
  dv_status : string;
  dv_grade : option string }.

Record history_view := mkHistoryView {
  hv_task_id : Z;
  hv_date : string;
  hv_task_name : string;
  hv_status : option string;
  hv_grade : option string }.

(** A task as a dict: [created_at] is present when the dict comes from a row. *)
Record task_dict := mkTaskDict {
  task_id_of : Z;
  task_name_of : string;
  task_date_of : string;
  task_created_at_of : option string }.

Definition task_of_row (t : task_row) : task_dict :=
  mkTaskDict (tk_id t) (tk_name t) (tk_date t) (Some (tk_created_at t)).

Definition set_students (d : db) (sts : list student_row) (seq : Z) : db :=
  mkDb sts (tasks d) (task_details d) seq (seq_tasks d) (seq_task_details d).

Definition set_tasks (d : db) (tks : list task_row) (seq : Z) : db :=
  mkDb (students d) tks (task_details d) (seq_students d) seq (seq_task_details d).

Definition set_task_details (d : db) (tds : list detail_row) (seq : Z) : db :=
  mkDb (students d) (tasks d) tds (seq_students d) (seq_tasks d) seq.

(** [task_id = ? AND student_id = ?] on a row of [task_details]. *)
Definition same_key (tid : sqlval) (sid : string) (r : detail_row) : bool :=
  sql_eqb (td_task_id r) tid && String.eqb (td_student_id r) sid.

Definition of_task (tid : sqlval) (r : detail_row) : bool := sql_eqb (td_task_id r) tid.

Definition detail_unique_msg : string :=
  "UNIQUE constraint failed: task_details.task_id, task_details.student_id".

(** [FROM students s LEFT JOIN task_details td ON s.student_id = td.student_id
    AND td.task_id = ?] *)
Definition left_join_details (tid : sqlval) (d : db) : list (student_row * option detail_row) :=
  flat_map
    (fun s =>
       match filter (fun r => String.eqb (st_student_id s) (td_student_id r) && of_task tid r)
                    (task_details d) with
       | [] => [(s, None)]
       | ms => map (fun r => (s, Some r)) ms
       end)
    (students d).

Definition joined_status (j : student_row * option detail_row) : option string :=
  match snd j with
  | Some r => td_status r
  | None => None
  end.

Definition joined_grade (j : student_row * option detail_row) : option string :=
  match snd j with
  | Some r => td_grade r
  | None => None
  end.

Definition view_of_student (s : student_row) : student_view :=
  mkStudentView (st_student_id s) (st_name s) (st_class s).

Definition student_le (a b : student_row) : bool :=
  class_id_le (st_class a) (st_student_id a) (st_class b) (st_student_id b).

Definition student_id_le (a b : student_row) : bool :=
  String.leb (st_student_id a) (st_student_id b).

(** [td.status IS NULL OR td.status = 'missing'] *)
Definition is_missing (j : student_row * option detail_row) : bool :=
  match joined_status j with
  | None => true
  | Some st => String.eqb st "missing"
  end.

Section DatabaseManager.

Context (clk : clock).

(** One execution of a statement that writes reads [CURRENT_TIMESTAMP] once. *)
Definition statement_time : M string :=
  fun w => (inr (current_timestamp clk (w_tick w)), mkWorld (w_db w) (S (w_tick w))).

(** [datetime.date.today().isoformat()] *)
Definition today_iso : M string :=
  fun w => (inr (date_today clk (w_tick w)), mkWorld (w_db w) (S (w_tick w))).

(** [INSERT INTO task_details (task_id, student_id, status) VALUES (?, ?, ?)] *)
Definition insert_detail (tid : sqlval) (sid : option string) (status : option string)
  : M unit :=
  now <- statement_time ;;
  tid' <- not_null_val "task_details.task_id" tid ;;
  sid' <- not_null "task_details.student_id" sid ;;
  d <- get_db ;;
  if existsb (same_key tid' sid') (task_details d)
  then integrity_error detail_unique_msg
  else
    let id := next_rowid (seq_task_details d) (map td_id (task_details d)) in
    put_db (set_task_details d (task_details d ++ [mkDetail id tid' sid' status None now]) id).

(** [INSERT INTO task_details ... ON CONFLICT(task_id, student_id) DO UPDATE
    SET ...]: the row of the key is updated by [on_conflict], or a new row is
    appended. The AUTOINCREMENT counter advances in both cases. *)
Definition upsert_detail (tid : sqlval) (sid : option string)
    (status grade : option string) (on_conflict : string -> detail_row -> detail_row)
  : M unit :=
  now <- statement_time ;;
  tid' <- not_null_val "task_details.task_id" tid ;;
  sid' <- not_null "task_details.student_id" sid ;;
  d <- get_db ;;
  let id := next_rowid (seq_task_details d) (map td_id (task_details d)) in
  if existsb (same_key tid' sid') (task_details d)
  then put_db (set_task_details d
                 (map (fun r => if same_key tid' sid' r then on_conflict now r else r)
                      (task_details d)) id)
  else put_db (set_task_details d
                 (task_details d ++ [mkDetail id tid' sid' status grade now]) id).

Definition add_student (student_id name class_ : pyval) : M Z :=
  get_connection (
    ps <- lift (bind_params [student_id; name; class_]) ;;
    now <- statement_time ;;
    sid <- not_null "students.student_id" (text_affinity (nth 0 ps SqlNull)) ;;
    nm <- not_null "students.name" (text_affinity (nth 1 ps SqlNull)) ;;
    cl <- not_null "students.class" (text_affinity (nth 2 ps SqlNull)) ;;
    d <- get_db ;;
    let id := next_rowid (seq_students d) (map st_id (students d)) in
    if existsb (fun s => String.eqb (st_student_id s) sid) (students d)
    then
      put_db (set_students d
                (map (fun s => if String.eqb (st_student_id s) sid
                               then mkStudent (st_id s) (st_student_id s) nm cl (st_created_at s)
                               else s) (students d)) id) ;;;
      ret 0
    else
      put_db (set_students d (students d ++ [mkStudent id sid nm cl now]) id) ;;;
      ret id).

Definition get_student (student_id : pyval) : M (option student_row) :=
  get_connection (
    p <- lift (bind_param student_id) ;;
    d <- get_db ;;
    ret (find (fun s => text_eqb (st_student_id s) (text_affinity p)) (students d))).

Definition get_all_students : M (list student_row) :=
  get_connection (d <- get_db ;; ret (order_by student_le (students d))).

Definition get_students_by_class (class_name : pyval) : M (list student_row) :=
  get_connection (
    p <- lift (bind_param class_name) ;;
    d <- get_db ;;
    ret (order_by student_id_le
           (filter (fun s => text_eqb (st_class s) (text_affinity p)) (students d)))).

(** [int(x)] on an argument. A float is truncated on its lexeme when that is a
    plain decimal, and is a [ValueError] otherwise. *)
Definition int_of (v : pyval) : exn + Z :=
  match v with
  | PInt z => inr z
  | PBool b => inr (if b then 1 else 0)
  | PStr s =>
      match py_int s with
      | Some z => inr z
      | None => inl (mkExn ValueError ("invalid literal for int() with base 10: " ++ repr_str s))
      end
  | PFloat x =>
      let '(neg, body) := unsign x in
      let '(ip, r) := span_digits body in
      match ip, r with
      | String _ _, String "." fr =>
          if all_digits fr then inr (if neg then - digits_value ip 0 else digits_value ip 0)
          else inl (mkExn ValueError "cannot convert float to integer")
      | _, _ => inl (mkExn ValueError "cannot convert float to integer")
      end
  | _ => inl (mkExn TypeError
                ("int() argument must be a string, a bytes-like object or a real number, not '"
                   ++ type_name v ++ "'"))
  end.

Definition in_id_range (lo hi : Z) (s : student_row) : bool :=
  (lo <=? cast_integer (st_student_id s)) && (cast_integer (st_student_id s) <=? hi).

Definition get_students_by_id_range (start_id end_id : pyval) : M (list student_row) :=
  get_connection (
    lo <- lift (int_of start_id) ;;
    hi <- lift (int_of end_id) ;;
    ps <- lift (bind_params [PInt lo; PInt hi]) ;;
    d <- get_db ;;
    ret (order_by student_id_le (filter (in_id_range lo hi) (students d)))).

Fixpoint distinct (l : list string) : list string :=
  match l with
  | [] => []
  | x :: r => x :: filter (fun y => negb (String.eqb x y)) (distinct r)
  end.

Definition get_all_classes : M (list string) :=
  get_connection (
    d <- get_db ;;
    ret (order_by String.leb (distinct (map st_class (students d))))).

Definition delete_student (student_id : pyval) : M unit :=
  get_connection (
    p <- lift (bind_param student_id) ;;
    d <- get_db ;;
    put_db (set_task_details d
              (filter (fun r => negb (text_eqb (td_student_id r) (text_affinity p)))
                      (task_details d))
              (seq_task_details d)) ;;;
    d <- get_db ;;
    put_db (set_students d
              (filter (fun s => negb (text_eqb (st_student_id s) (text_affinity p)))
                      (students d))
              (seq_students d))).

Definition is_none (v : pyval) : bool :=
  match v with
  | PNone => true
  | _ => false
  end.

(** [UPDATE students SET column = ? WHERE student_id = ?] *)
Definition update_column (set : string -> student_row -> student_row)
    (column : string) (value student_id : pyval) : M unit :=
  ps <- lift (bind_params [value; student_id]) ;;
  d <- get_db ;;
  if existsb (fun s => text_eqb (st_student_id s) (text_affinity (nth 1 ps SqlNull))) (students d)
  then
    v <- not_null column (text_affinity (nth 0 ps SqlNull)) ;;
    put_db (set_students d
              (map (fun s => if text_eqb (st_student_id s) (text_affinity (nth 1 ps SqlNull))
                             then set v s else s) (students d))
              (seq_students d))
  else ret tt.

Definition update_student (student_id name class_ : pyval) : M unit :=
  get_connection (
    (if is_none name then ret tt
     else update_column
            (fun v s => mkStudent (st_id s) (st_student_id s) v (st_class s) (st_created_at s))
            "students.name" name student_id) ;;;
    (if is_none class_ then ret tt
     else update_column
            (fun v s => mkStudent (st_id s) (st_student_id s) (st_name s) v (st_created_at s))
            "students.class" class_ student_id)).

Definition get_or_create_today_task : M task_dict :=
  today <- today_iso ;;
  get_connection (
    d <- get_db ;;
    match find (fun t => String.eqb (tk_date t) today) (tasks d) with
    | Some t => ret (task_of_row t)
    | None =>
        now <- statement_time ;;
        let id := next_rowid (seq_tasks d) (map tk_id (tasks d)) in
        let name := ("作业-" ++ today)%string in
        put_db (set_tasks d (tasks d ++ [mkTask id name today now]) id) ;;;
        ret (mkTaskDict id name today None)
    end).

Fixpoint insert_missing (tid : sqlval) (sids : list string) : M unit :=
  match sids with
  | [] => ret tt
  | sid :: r => insert_detail tid (Some sid) (Some "missing") ;;; insert_missing tid r
  end.

Definition ensure_task_students (task_id : pyval) : M unit :=
  get_connection (
    p <- lift (bind_param task_id) ;;
    let tid := integer_affinity p in
    d <- get_db ;;
    let total_students := List.length (students d) in
    let existing := List.length (filter (of_task tid) (task_details d)) in
    if Nat.ltb existing total_students then
      let all_ids := map st_student_id (students d) in
      let existing_ids := map td_student_id (filter (of_task tid) (task_details d)) in
      let missing_ids :=
        filter (fun sid => negb (existsb (String.eqb sid) existing_ids)) all_ids in
      match missing_ids with
      | [] => ret tt
      | _ => insert_missing tid missing_ids
      end
    else ret tt).

Definition task_date_ge (a b : task_row) : bool := String.leb (tk_date b) (tk_date a).

Definition get_current_task : M task_dict :=
  get_connection (
    d <- get_db ;;
    match order_by task_date_ge (tasks d) with
    | t :: _ => ret (task_of_row t)
    | [] => get_or_create_today_task
    end).

Definition submit_student (task_id student_id : pyval) : M unit :=
  get_connection (
    ps <- lift (bind_params [task_id; student_id]) ;;
    upsert_detail (integer_affinity (nth 0 ps SqlNull)) (text_affinity (nth 1 ps SqlNull))
      (Some "submitted") None
      (fun now r => mkDetail (td_id r) (td_task_id r) (td_student_id r)
                      (Some "submitted") (td_grade r) now)).

Definition set_grade (task_id student_id grade : pyval) : M unit :=
  get_connection (
    ps <- lift (bind_params [task_id; student_id; grade]) ;;
    let g := text_affinity (nth 2 ps SqlNull) in
    upsert_detail (integer_affinity (nth 0 ps SqlNull)) (text_affinity (nth 1 ps SqlNull))
      (Some "submitted") g
      (fun now r => mkDetail (td_id r) (td_task_id r) (td_student_id r)
                      (Some "submitted") g now)).


Definition detail_view_of (j : student_row * option detail_row) : detail_view :=
  mkDetailView (st_student_id (fst j)) (st_name (fst j)) (st_class (fst j))
    (match joined_status j with Some st => st | None => "missing" end)
    (joined_grade j).

Definition joined_le (a b : student_row * option detail_row) : bool :=
  student_le (fst a) (fst b).

Definition joined_id_le (a b : student_row * option detail_row) : bool :=
  student_id_le (fst a) (fst b).

Definition get_task_details (task_id : pyval) : M (list detail_view) :=
  ensure_task_students task_id ;;;
  get_connection (
    p <- lift (bind_param task_id) ;;
    d <- get_db ;;
    ret (map detail_view_of (order_by joined_le (left_join_details (integer_affinity p) d)))).

(** [FROM task_details td JOIN students s ON td.student_id = s.student_id
    WHERE td.task_id = ? AND td.status = 'submitted'] *)
Definition submitted_join (tid : sqlval) (d : db) : list student_row :=
  flat_map
    (fun r =>
       if of_task tid r
          && match td_status r with Some st => String.eqb st "submitted" | None => false end
       then filter (fun s => String.eqb (td_student_id r) (st_student_id s)) (students d)
       else [])
    (task_details d).

Definition get_submitted_students (task_id : pyval) : M (list student_view) :=
  ensure_task_students task_id ;;;
  get_connection (
    p <- lift (bind_param task_id) ;;
    d <- get_db ;;
    ret (map view_of_student (order_by student_le (submitted_join (integer_affinity p) d)))).

Definition get_missing_students (task_id class_name : pyval) : M (list student_view) :=
  ensure_task_students task_id ;;;
  get_connection (
    if truthy class_name then
      ps <- lift (bind_params [task_id; class_name]) ;;
      d <- get_db ;;
      ret (map (fun j => view_of_student (fst j))
             (order_by joined_id_le
                (filter (fun j => is_missing j
                                  && text_eqb (st_class (fst j)) (text_affinity (nth 1 ps SqlNull)))
                        (left_join_details (integer_affinity (nth 0 ps SqlNull)) d))))
    else
      p <- lift (bind_param task_id) ;;
      d <- get_db ;;
      ret (map (fun j => view_of_student (fst j))
             (order_by joined_le
                (filter is_missing (left_join_details (integer_affinity p) d))))).

(** [FROM tasks t LEFT JOIN task_details td ON t.id = td.task_id AND
    td.student_id = ?] *)
Definition history_join (sid : option string) (d : db) : list (task_row * option detail_row) :=
  flat_map
    (fun t =>
       match filter (fun r => sql_eqb (SqlInt (tk_id t)) (td_task_id r)
                              && text_eqb (td_student_id r) sid) (task_details d) with
       | [] => [(t, None)]
       | ms => map (fun r => (t, Some r)) ms
       end)
    (tasks d).

Definition history_view_of (j : task_row * option detail_row) : history_view :=
  mkHistoryView (tk_id (fst j)) (tk_date (fst j)) (tk_name (fst j))
    (match snd j with Some r => td_status r | None => None end)
    (match snd j with Some r => td_grade r | None => None end).

Definition get_student_history (student_id : pyval) : M (list history_view) :=
  get_connection (
    p <- lift (bind_param student_id) ;;
    d <- get_db ;;
    ret (map history_view_of
           (order_by (fun a b => task_date_ge (fst a) (fst b))
              (history_join (text_affinity p) d)))).

Definition get_all_tasks : M (list task_row) :=
  get_connection (d <- get_db ;; ret (order_by task_date_ge (tasks d))).

Definition get_today_stats : M (nat * nat * Z) :=
  task <- get_current_task ;;
  details <- get_task_details (PInt (task_id_of task)) ;;
  let total := List.length details in
  let submitted := List.length (filter (fun v => String.eqb (dv_status v) "submitted") details) in
  ret (total, submitted, Z.of_nat total - Z.of_nat submitted).

End DatabaseManager.

(* ================================================================== *)
(** ** The tool dispatcher: [AIChatWidget._execute_tool] *)
(* ================================================================== *)

(** A tool call as the stream delivers it ([ChoiceDeltaToolCall]): every
    field may be absent. *)
Record function_call := mkFunction {
  fn_name : option string;
  fn_arguments : option string }.

Record tool_call := mkToolCall {
  tc_index : Z;
  tc_id : option string;
  tc_function : option function_call }.

Definition opt_str (o : option string) : pyval :=
  match o with
  | Some s => PStr s
  | None => PNone
  end.

(** [dict(row)] for the rows the handlers serialise. *)
Definition student_to_dict (s : student_row) : pyval :=
  PDict [("id", PInt (st_id s)); ("student_id", PStr (st_student_id s));
         ("name", PStr (st_name s)); ("class", PStr (st_class s));
         ("created_at", PStr (st_created_at s))].

Definition task_to_dict (t : task_row) : pyval :=
  PDict [("id", PInt (tk_id t)); ("name", PStr (tk_name t)); ("date", PStr (tk_date t));
         ("created_at", PStr (tk_created_at t))].

Definition detail_to_dict (v : detail_view) : pyval :=
  PDict [("student_id", PStr (dv_student_id v)); ("name", PStr (dv_name v));
         ("class", PStr (dv_class v)); ("status", PStr (dv_status v));
         ("grade", opt_str (dv_grade v))].

Definition history_to_dict (h : history_view) : pyval :=
  PDict [("task_id", PInt (hv_task_id h)); ("date", PStr (hv_date h));
         ("task_name", PStr (hv_task_name h)); ("status", opt_str (hv_status h));
         ("grade", opt_str (hv_grade h))].

Definition is_continuation (a : ascii) : bool :=
  let n := N_of_ascii a in N.leb 128 n && N.ltb n 192.

(** [s[:n]]: the first [n] characters, each with its continuation bytes. *)
Fixpoint take_chars (n : nat) (s : string) : string :=
  match s with
  | EmptyString => ""
  | String a r =>
      if is_continuation a then String a (take_chars n r)
      else match n with
           | O => ""
           | S n' => String a (take_chars n' r)
           end
  end.

(** [s.isdigit()], on the ASCII digits. *)
Definition isdigit (s : string) : bool := negb (String.eqb s "") && all_digits s.

(** [student_id[:4]] followed by the test and the concatenation of
    [add_student]: only a [str] supports both. *)
Definition class_from_id (student_id : pyval) : exn + string :=
  match student_id with
  | PStr s =>
      inr (if isdigit (take_chars 4 s) then (take_chars 4 s ++ "班")%string else "未知")
  | PList _ => inl (mkExn AttributeError "'list' object has no attribute 'isdigit'")
  | PDict _ => inl (mkExn TypeError "unhashable type: 'slice'")
  | _ => inl (mkExn TypeError ("'" ++ type_name student_id ++ "' object is not subscriptable"))
  end.

Definition name_is (name : pyval) (s : string) : bool :=
  match name with
  | PStr n => String.eqb n s
  | _ => false
  end.

(** [except Exception as e: return f"执行工具 {name} 时出错: {str(e)}"], with the
    value [name] has when the exception is raised. *)
Definition on_error (name : pyval) (body : M string) : M string :=
  fun w =>
    match body w with
    | (inl e, w') => (inr ("执行工具 " ++ py_str name ++ " 时出错: " ++ exn_msg e)%string, w')
    | r => r
    end.

Section Dispatcher.

Context (clk : clock).

(** [self.main.refresh_all_pages()], the notification of the views, and
    [self.main.current_task]. *)
Context (refresh_all_pages : M unit).
Context (current_task : option task_dict).

Definition no_current_task : string := "无当前任务，请先新建作业".

(** The body of the [try]. *)
Definition dispatch (name args : pyval) : M string :=
  if name_is name "get_student_info" then
    sid <- lift (getitem args "student_id") ;;
    student <- get_student sid ;;
    ret (match student with
         | Some s => json_dumps (student_to_dict s)
         | None => "未找到"
         end)
  else if name_is name "get_students_by_class" then
    cl <- lift (getitem args "class_name") ;;
    sts <- get_students_by_class cl ;;
    ret (json_dumps (PList (map student_to_dict sts)))
  else if name_is name "get_students_by_id_range" then
    lo <- lift (getitem args "start_id") ;;
    hi <- lift (getitem args "end_id") ;;
    sts <- get_students_by_id_range lo hi ;;
    ret (json_dumps (PList (map student_to_dict sts)))
  else if name_is name "get_all_classes" then
    classes <- get_all_classes ;;
    ret (json_dumps (PList (map PStr classes)))
  else if name_is name "get_today_stats" then
    stats <- get_today_stats clk ;;
    let '(total, submitted, missing) := stats in
    ret ("总人数:" ++ Z_to_string (Z.of_nat total) ++ ", 已交:"
           ++ Z_to_string (Z.of_nat submitted) ++ ", 未交:" ++ Z_to_string missing)%string
  else if name_is name "mark_student_submitted" then
    match current_task with
    | Some task =>
        sid <- lift (getitem args "student_id") ;;
        submit_student clk (PInt (task_id_of task)) sid ;;;
        refresh_all_pages ;;;
        sid' <- lift (getitem args "student_id") ;;
        ret ("学生 " ++ py_str sid' ++ " 已标记为已交")%string
    | None => ret no_current_task
    end
  else if name_is name "set_student_grade" then
    match current_task with
    | Some task =>
        sid <- lift (getitem args "student_id") ;;
        grade <- lift (getitem args "grade") ;;
        set_grade clk (PInt (task_id_of task)) sid grade ;;;
        refresh_all_pages ;;;
        ret ("学生 " ++ py_str sid ++ " 成绩已设置为 " ++ py_str grade)%string
    | None => ret no_current_task
    end
  else if name_is name "add_student" then
    student_id <- lift (getitem args "student_id") ;;
    name' <- lift (getitem args "name") ;;
    on_error name' (
      class_ <- lift (dict_get args "class") ;;
      class_ <- (if truthy class_ then ret class_
                 else c <- lift (class_from_id student_id) ;; ret (PStr c)) ;;
      add_student clk student_id name' class_ ;;;
      refresh_all_pages ;;;
      ret ("学生 " ++ py_str name' ++ " (学号 " ++ py_str student_id ++ ") 已添加到班级 "
             ++ py_str class_)%string)
  else if name_is name "update_student" then
    student_id <- lift (getitem args "student_id") ;;
    name' <- lift (dict_get args "name") ;;
    on_error name' (
      class_ <- lift (dict_get args "class") ;;
      update_student student_id name' class_ ;;;
      refresh_all_pages ;;;
      ret ("学生 " ++ py_str student_id ++ " 信息已更新")%string)
  else if name_is name "delete_student" then
    student_id <- lift (getitem args "student_id") ;;
    delete_student student_id ;;;
    refresh_all_pages ;;;
    ret ("学生 " ++ py_str student_id ++ " 已删除")%string
  else if name_is name "get_all_tasks" then
    tks <- get_all_tasks ;;
    ret (json_dumps (PList (map task_to_dict tks)))
  else if name_is name "get_task_details" then
    task_id <- lift (getitem args "task_id") ;;
    details <- get_task_details clk task_id ;;
    ret (json_dumps (PList (map detail_to_dict details)))
  else if name_is name "get_student_history" then
    sid <- lift (getitem args "student_id") ;;
    history <- get_student_history sid ;;
    ret (json_dumps (PList (map history_to_dict history)))
  else if name_is name "export_current_class" then
    ret "请手动前往导出报告页面进行导出操作。"
  else
    ret ("未知工具: " ++ py_str name)%string.

(** [name] and [args] are computed before the [try]; the handlers run inside. *)
Definition _execute_tool (tc : tool_call) : M string :=
  fn <- lift (match tc_function tc with
              | Some f => inr f
              | None => inl (mkExn AttributeError "'NoneType' object has no attribute 'name'")
              end) ;;
  let name := opt_str (fn_name fn) in
  args <- lift (match fn_arguments fn with
                | Some a => json_loads a
                | None => inl (mkExn TypeError
                                 "the JSON object must be str, bytes or bytearray, not NoneType")
                end) ;;
  on_error name (dispatch name args).

End Dispatcher.

(** [AIChatWidget._get_tools]: for each tool its name, its parameters with
    their JSON types, and the parameters listed as required (none when the
    key is absent). The descriptions, which are texts for the assistant, are
    left out. *)
Record tool_schema := mkTool {
  tool_name : string;
  tool_properties : list (string * string);
  tool_required : list string }.

Definition _get_tools : list tool_schema :=
  [mkTool "get_student_info" [("student_id", "string")] ["student_id"];
   mkTool "get_students_by_class" [("class_name", "string")] ["class_name"];
   mkTool "get_students_by_id_range" [("start_id", "string"); ("end_id", "string")]
     ["start_id"; "end_id"];
   mkTool "get_all_classes" [] [];
   mkTool "get_today_stats" [] [];
   mkTool "mark_student_submitted" [("student_id", "string")] ["student_id"];
   mkTool "set_student_grade" [("student_id", "string"); ("grade", "string")]
     ["student_id"; "grade"];
   mkTool "add_student" [("student_id", "string"); ("name", "string"); ("class", "string")]
     ["student_id"; "name"];
   mkTool "update_student" [("student_id", "string"); ("name", "string"); ("class", "string")]
     ["student_id"];
   mkTool "delete_student" [("student_id", "string")] ["student_id"];
   mkTool "get_all_tasks" [] [];
   mkTool "get_task_details" [("task_id", "integer")] ["task_id"];
   mkTool "get_student_history" [("student_id", "string")] ["student_id"];
   mkTool "export_current_class" [] []].

(* ================================================================== *)
(** ** The assistant session: [send_message], [_call_deepseek_api],
       [cancel_generation] *)
(* ================================================================== *)

(** The turns of [self.messages]. *)
Inductive message :=
| UserMsg (content : string)
| SystemMsg (content : string)
| AssistantToolCalls (tool_calls : list tool_call)
| ToolMsg (tool_call_id : option string) (content : string)
| AssistantMsg (content : string).

(** What the streamed response yields. *)
Record delta := mkDelta {
  delta_content : option string;
  delta_tool_calls : option (list tool_call) }.

Record choice := mkChoice {
  choice_delta : option delta;
  choice_finish_reason : option string }.

Record chunk := mkChunk { choices : list choice }.

(** An item of the stream: a chunk, or the fault the iteration raises. *)
Inductive stream_item :=
| Chunk (c : chunk)
| StreamError (e : exn).

Inductive signal :=
| UpdateMessage (text : string)
| FinishMessage (text : string) (is_system : bool).

(** The fields of the widget the protocol uses; the Qt widgets themselves
    are left out. [requests] logs what was sent to the endpoint, [emitted]
    the signals, [flag_reads] how often the worker has read [cancelled]. *)
Record session := mkSession {
  messages : list message;
  cancelled : bool;
  is_generating : bool;
  emitted : list signal;
  requests : list (list message);
  flag_reads : nat }.

Inductive outcome :=
| NotStarted
| ImportFailed
| Completed
| Cancelled
| Crashed (e : exn)
| Blocked.

Definition set_messages (s : session) (ms : list message) : session :=
  mkSession ms (cancelled s) (is_generating s) (emitted s) (requests s) (flag_reads s).

(** [self.cancelled = True; self.is_generating = False] (and the buttons). *)
Definition cancel_generation (s : session) : session :=
  mkSession (messages s) true false (emitted s) (requests s) (flag_reads s).

(** The slot [_finish_message_ui], run for a [finish_message_signal]. *)
Definition _finish_message_ui (s : session) : session :=
  mkSession (messages s) (cancelled s) false (emitted s) (requests s) (flag_reads s).

Definition emit (sg : signal) (s : session) : session :=
  let s' := mkSession (messages s) (cancelled s) (is_generating s) (emitted s ++ [sg])
              (requests s) (flag_reads s) in
  match sg with
  | FinishMessage _ _ => _finish_message_ui s'
  | UpdateMessage _ => s'
  end.

(** [send_message] up to the start of the worker thread; [api_key] is what
    [load_config] has read. *)
Definition send_message (api_key user_input : string) (s : session) : option session :=
  if String.eqb api_key "" then None
  else Some (mkSession (messages s ++ [UserMsg user_input]) false true (emitted s)
               (requests s) 0).

(** The tool calls of one response, keyed by index, in order of arrival. *)
Record stream_acc := mkAcc {
  full_response : string;
  acc_tool_calls : list (Z * tool_call);
  acc_finish_reason : option string }.

Fixpoint lookup_index (idx : Z) (tcs : list (Z * tool_call)) : option tool_call :=
  match tcs with
  | [] => None
  | (i, tc) :: r => if Z.eqb i idx then Some tc else lookup_index idx r
  end.

Fixpoint set_index (idx : Z) (tc : tool_call) (tcs : list (Z * tool_call))
  : list (Z * tool_call) :=
  match tcs with
  | [] => []
  | (i, old) :: r => if Z.eqb i idx then (i, tc) :: r else (i, old) :: set_index idx tc r
  end.

(** The body of [for tc in delta.tool_calls]. *)
Definition merge_tool_call (tcs : list (Z * tool_call)) (tc : tool_call)
  : exn + list (Z * tool_call) :=
  match lookup_index (tc_index tc) tcs with
  | None => inr (tcs ++ [(tc_index tc, tc)])
  | Some stored =>
      match tc_function tc with
      | Some (mkFunction _ (Some a)) =>
          if String.eqb a "" then inr tcs
          else
            match tc_function stored with
            | None => inl (mkExn AttributeError "'NoneType' object has no attribute 'arguments'")
            | Some (mkFunction n None) =>
                inl (mkExn TypeError "unsupported operand type(s) for +=: 'NoneType' and 'str'")
            | Some (mkFunction n (Some sa)) =>
                inr (set_index (tc_index tc)
                       (mkToolCall (tc_index stored) (tc_id stored)
                          (Some (mkFunction n (Some (sa ++ a)%string)))) tcs)
            end
      | _ => inr tcs
      end
  end.

Fixpoint merge_tool_calls (tcs : list (Z * tool_call)) (l : list tool_call)
  : exn + list (Z * tool_call) :=
  match l with
  | [] => inr tcs
  | tc :: r =>
      match merge_tool_call tcs tc with
      | inl e => inl e
      | inr tcs' => merge_tool_calls tcs' r
      end
  end.

(** The body of [for chunk in response], after the test of the flag. *)
Definition process_chunk (c : chunk) (acc : stream_acc) (s : session)
  : (exn + stream_acc) * session :=
  match choices c with
  | [] => (inr acc, s)
  | ch :: _ =>
      let finish (a : stream_acc) :=
        match choice_finish_reason ch with
        | Some r => if String.eqb r "" then a
                    else mkAcc (full_response a) (acc_tool_calls a) (Some r)
        | None => a
        end in
      match choice_delta ch with
      | None => (inr (finish acc), s)
      | Some d =>
          let '(acc1, s1) :=
            match delta_content d with
            | Some t =>
                if String.eqb t "" then (acc, s)
                else
                  let full := (full_response acc ++ t)%string in
                  (mkAcc full (acc_tool_calls acc) (acc_finish_reason acc),
                   emit (UpdateMessage full) s)
            | None => (acc, s)
            end in
          match delta_tool_calls d with
          | Some (tc :: l) =>
              match merge_tool_calls (acc_tool_calls acc1) (tc :: l) with
              | inl e => (inl e, s1)
              | inr tcs =>
                  (inr (finish (mkAcc (full_response acc1) tcs (acc_finish_reason acc1))), s1)
              end
          | _ => (inr (finish acc1), s1)
          end
      end
  end.

Section Session.

Context (clk : clock).
Context (refresh_all_pages : M unit).
Context (current_task : option task_dict).

(** [_get_system_prompt()], and whether the context box is checked. *)
Context (system_prompt : string).
Context (include_context : bool).

(** The user presses the cancel button just before the worker reads the flag
    for the [k]-th time ([Some k]), or never ([None]). *)
Context (cancel_at : option nat).

(** A read of [self.cancelled] by the worker. *)
Definition read_cancelled (s : session) : bool * session :=
  let s1 :=
    match cancel_at with
    | Some k => if Nat.eqb k (flag_reads s) then cancel_generation s else s
    | None => s
    end in
  (cancelled s1,
   mkSession (messages s1) (cancelled s1) (is_generating s1) (emitted s1) (requests s1)
     (S (flag_reads s1))).

(** [for chunk in response: if self.cancelled: break ...] *)
Fixpoint consume (items : list stream_item) (acc : stream_acc) (s : session)
  : (exn + stream_acc) * session :=
  match items with
  | [] => (inr acc, s)
  | StreamError e :: _ => (inl e, s)
  | Chunk c :: rest =>
      let '(stop, s1) := read_cancelled s in
      if stop then (inr acc, s1)
      else
        match process_chunk c acc s1 with
        | (inl e, s2) => (inl e, s2)
        | (inr acc', s2) => consume rest acc' s2
        end
  end.

(** [for tool_call in tool_calls_list: result = self._execute_tool(tool_call)] *)
Fixpoint run_tools (tcs : list tool_call) : M (list message) :=
  match tcs with
  | [] => ret []
  | tc :: r =>
      result <- _execute_tool clk refresh_all_pages current_task tc ;;
      rest <- run_tools r ;;
      ret (ToolMsg (tc_id tc) result :: rest)
  end.

Definition send_request (s : session) : session :=
  let messages_copy :=
    if include_context then SystemMsg system_prompt :: messages s else messages s in
  mkSession (messages s) (cancelled s) (is_generating s) (emitted s)
    (requests s ++ [messages_copy]) (flag_reads s).

(** The [while True] of [_call_deepseek_api]. Each call of the endpoint takes
    the next element of [responses]: the stream it returns or the fault it
    raises; when there is none the worker is blocked in the call. *)
Fixpoint rounds (responses : list (exn + list stream_item)) (s : session) (w : world)
  : outcome * session * world :=
  let s1 := send_request s in
  match responses with
  | [] => (Blocked, s1, w)
  | inl e :: _ => (Crashed e, s1, w)
  | inr items :: more =>
      match consume items (mkAcc "" [] None) s1 with
      | (inl e, s2) => (Crashed e, s2, w)
      | (inr acc, s2) =>
          let '(stop, s3) := read_cancelled s2 in
          if stop then (Cancelled, emit (FinishMessage "[已取消]" true) s3, w)
          else
            match acc_tool_calls acc with
            | [] =>
                let s4 := emit (FinishMessage (full_response acc) false) s3 in
                (Completed, set_messages s4 (messages s4 ++ [AssistantMsg (full_response acc)]), w)
            | tcs =>
                let tool_calls_list := map snd tcs in
                let s4 := set_messages s3 (messages s3 ++ [AssistantToolCalls tool_calls_list]) in
                match run_tools tool_calls_list w with
                | (inl e, w') => (Crashed e, s4, w')
                | (inr tool_messages, w') =>
                    rounds more (set_messages s4 (messages s4 ++ tool_messages)) w'
                end
            end
      end
  end.

(** [openai_available]: whether [from openai import OpenAI] succeeds. *)
Definition _call_deepseek_api (openai_available : bool)
    (responses : list (exn + list stream_item)) (s : session) (w : world)
  : outcome * session * world :=
  if openai_available then rounds responses s w
  else (ImportFailed, emit (FinishMessage "请安装openai库: pip install openai" true) s, w).

(** A whole request: [send_message] and the worker it starts. *)
Definition request (api_key user_input : string) (openai_available : bool)
    (responses : list (exn + list stream_item)) (s : session) (w : world)
  : outcome * session * world :=
  match send_message api_key user_input s with
  | None => (NotStarted, s, w)
  | Some s1 => _call_deepseek_api openai_available responses s1 w
  end.

End Session.

(* ================================================================== *)
(** ** [DatabaseManager]: the remaining methods *)
(* ================================================================== *)

Definition empty_db : db := mkDb [] [] [] 0 0 0.

(** [DELETE FROM task_details], [tasks], [students], then
    [DELETE FROM sqlite_sequence], which forgets the AUTOINCREMENT counters. *)
Definition clear_all_data : M unit :=
  get_connection (
    d <- get_db ;;
    put_db (set_task_details d [] (seq_task_details d)) ;;;
    d <- get_db ;;
    put_db (set_tasks d [] (seq_tasks d)) ;;;
    d <- get_db ;;
    put_db (set_students d [] (seq_students d)) ;;;
    d <- get_db ;;
    put_db (mkDb (students d) (tasks d) (task_details d) 0 0 0)).

(** [date >= ?] and [date <= ?] for a stored date, which is a text: in the
    order of SQLite every number comes before every text, and NULL compares
    to nothing. *)
Definition date_ge (date : string) (p : sqlval) : bool :=
  match p with
  | SqlNull => false
  | SqlInt _ | SqlReal _ => true
  | SqlText t => String.leb t date
  end.

Definition date_le (date : string) (p : sqlval) : bool :=
  match p with
  | SqlNull => false
  | SqlInt _ | SqlReal _ => false
  | SqlText t => String.leb date t
  end.

Definition task_date_le (a b : task_row) : bool := String.leb (tk_date a) (tk_date b).

(** [SELECT * FROM tasks WHERE date BETWEEN ? AND ? ORDER BY date]; the
    column [date] has NUMERIC affinity, which is applied to the bounds. *)
Definition get_tasks_in_date_range (start_date end_date : pyval) : M (list task_row) :=
  get_connection (
    ps <- lift (bind_params [start_date; end_date]) ;;
    d <- get_db ;;
    ret (order_by task_date_le
           (filter (fun t => date_ge (tk_date t) (integer_affinity (nth 0 ps SqlNull))
                             && date_le (tk_date t) (integer_affinity (nth 1 ps SqlNull)))
                   (tasks d)))).

Definition get_task_by_id (task_id : pyval) : M (option task_row) :=
  get_connection (
    p <- lift (bind_param task_id) ;;
    d <- get_db ;;
    ret (find (fun t => sql_eqb (SqlInt (tk_id t)) (integer_affinity p)) (tasks d))).

(* ================================================================== *)
(** ** [MainWindow.compare_versions] *)
(* ================================================================== *)

(** [v.split('.')]: the pieces between the dots, [cur] being the piece that
    is being read. *)
Fixpoint split_dots (v cur : string) : list string :=
  match v with
  | EmptyString => [cur]
  | String a r =>
      if Ascii.eqb a "." then cur :: split_dots r ""
      else split_dots r (cur ++ String a "")%string
  end.

Fixpoint ints_of (parts : list string) : exn + list Z :=
  match parts with
  | [] => inr []
  | x :: r =>
      match int_of (PStr x) with
      | inl e => inl e
      | inr z =>
          match ints_of r with
          | inl e => inl e
          | inr zs => inr (z :: zs)
          end
      end
  end.

(** [normalize(v)]: [[int(x) for x in v.split('.')]] *)
Definition normalize (v : string) : exn + list Z := ints_of (split_dots v "").

(** [for i in range(n)], started at [i]: the first difference of the parts,
    a missing part counting as 0. *)
Fixpoint first_difference (n i : nat) (p1 p2 : list Z) : Z :=
  match n with
  | O => 0
  | S n' =>
      let a := nth i p1 0 in
      let b := nth i p2 0 in
      if Z.eqb a b then first_difference n' (S i) p1 p2 else a - b
  end.

Definition compare_versions (v1 v2 : string) : exn + Z :=
  match normalize v1 with
  | inl e => inl e
  | inr p1 =>
      match normalize v2 with
      | inl e => inl e
      | inr p2 => inr (first_difference (Nat.max (List.length p1) (List.length p2)) 0 p1 p2)
      end
  end.

Example compare_versions_examples :
  map (fun p => compare_versions (fst p) (snd p))
      [("1.0.0", "1.0"); ("1.2.0", "1.10"); ("2.0", "1.9.9"); ("1.0", "1.0.1")]
  = [inr 0; inr (-8); inr 1; inr (-1)].
Proof. reflexivity. Qed.

(* ================================================================== *)
(** ** The pages: [SubmitPage], [GradePage], [ExportPage] *)
(* ================================================================== *)

(** A handler of a page works on the fields of the page and on the store;
    what it has assigned to the fields stays when it raises. The list and
    table widgets are left out, the texts of the labels and of the status bar
    ([self.main.set_status(text, is_error)]) are kept. *)
Definition Page (S A : Type) : Type := S -> world -> (exn + A) * S * world.

Definition page_ret {S A} (a : A) : Page S A := fun p w => (inr a, p, w).

Definition page_bind {S A B} (m : Page S A) (k : A -> Page S B) : Page S B :=
  fun p w =>
    match m p w with
    | (inr a, p', w') => k a p' w'
    | (inl e, p', w') => (inl e, p', w')
    end.

(** A call of a method of [self.db]. *)
Definition call {S A} (m : M A) : Page S A :=
  fun p w => let '(r, w') := m w in (r, p, w').

Definition field {S A} (f : S -> A) : Page S A := fun p w => (inr (f p), p, w).

Definition assign {S} (f : S -> S) : Page S unit := fun p w => (inr tt, f p, w).

Declare Scope page_scope.
Delimit Scope page_scope with page.
Notation "x <- m ;; k" := (page_bind m (fun x => k))
  (at level 100, m at next level, right associativity) : page_scope.
Notation "m ;;; k" := (page_bind m (fun _ => k))
  (at level 100, right associativity) : page_scope.

Definition no_task_status : string * bool := ("请先点击上方“新建作业”开始录入", true).

Module SubmitPage.

(** [labels]: the numbers shown as total, submitted, missing and unknown.
    [display_classes] is a set: the model keeps its elements in the order
    they were added; the order in which Python iterates over it only shows in
    the order of the rows of the tree of missing students. [unknown_items] is
    the list [MainWindow.unknown_list] itself. *)
Record page := mkPage {
  task_id : pyval;
  display_classes : list string;
  unknown_items : list string;
  labels : nat * nat * nat * nat;
  status_bar : option (string * bool) }.

Definition set_task_id (v : pyval) (p : page) : page :=
  mkPage v (display_classes p) (unknown_items p) (labels p) (status_bar p).

Definition set_display_classes (l : list string) (p : page) : page :=
  mkPage (task_id p) l (unknown_items p) (labels p) (status_bar p).

Definition set_unknown_items (l : list string) (p : page) : page :=
  mkPage (task_id p) (display_classes p) l (labels p) (status_bar p).

Definition set_labels (n : nat * nat * nat * nat) (p : page) : page :=
  mkPage (task_id p) (display_classes p) (unknown_items p) n (status_bar p).

Definition set_status (text : string) (is_error : bool) (p : page) : page :=
  mkPage (task_id p) (display_classes p) (unknown_items p) (labels p) (Some (text, is_error)).

(** [self.display_classes.add(c)] *)
Definition add_class (c : string) (classes : list string) : list string :=
  if existsb (String.eqb c) classes then classes else classes ++ [c].

Section Handlers.

Context (clk : clock).

(** [self.main.current_task] *)
Context (current_task : option task_dict).

(** [for cls in self.display_classes: missing.extend(...)] *)
Fixpoint missing_of (tid : pyval) (classes : list string) (missing : list student_view)
  : M (list student_view) :=
  match classes with
  | [] => ret missing
  | cls :: r =>
      l <- get_missing_students clk tid (PStr cls) ;;
      missing_of tid r (missing ++ l)
  end%method.

(** [for cls in self.display_classes: total += len(...)] *)
Fixpoint total_of (classes : list string) (total : nat) : M nat :=
  match classes with
  | [] => ret total
  | cls :: r =>
      students_in_cls <- get_students_by_class (PStr cls) ;;
      total_of r (total + List.length students_in_cls)%nat
  end%method.

Local Open Scope page_scope.

Definition clear_all_lists : Page page unit :=
  assign (set_labels (0, 0, 0, 0)%nat) ;;;
  assign (set_display_classes []).

Definition refresh_data : Page page unit :=
  match current_task with
  | None =>
      assign (set_task_id PNone) ;;;
      clear_all_lists
  | Some task =>
      assign (set_task_id (PInt (task_id_of task))) ;;;
      classes <- field display_classes ;;
      match classes with
      | [] =>
          unknown <- field unknown_items ;;
          assign (set_labels (0, 0, 0, List.length unknown)%nat)
      | _ =>
          tid <- field task_id ;;
          submitted_all <- call (get_submitted_students clk tid) ;;
          let submitted :=
            filter (fun s => existsb (String.eqb (sv_class s)) classes) submitted_all in
          missing <- call (missing_of tid classes []) ;;
          total <- call (total_of classes 0) ;;
          unknown <- field unknown_items ;;
          assign (set_labels (total, List.length submitted, List.length missing,
                              List.length unknown))
      end
  end.

Definition handle_input (student_id : string) : Page page unit :=
  match current_task with
  | None => assign (set_status (fst no_task_status) (snd no_task_status))
  | Some _ =>
      student <- call (get_student (PStr student_id)) ;;
      match student with
      | Some student =>
          classes <- field display_classes ;;
          assign (set_display_classes (add_class (st_class student) classes)) ;;;
          tid <- field task_id ;;
          call (submit_student clk tid (PStr student_id)) ;;;
          assign (set_status ("已记录: " ++ st_name student) false) ;;;
          refresh_data
      | None =>
          unknown <- field unknown_items ;;
          (if existsb (String.eqb student_id) unknown then page_ret tt
           else assign (set_unknown_items (unknown ++ [student_id]))) ;;;
          assign (set_status ("学号 " ++ student_id ++ " 不在花名册") true) ;;;
          refresh_data
      end
  end.



End Handlers.

End SubmitPage.

Module GradePage.

(** [table]: the rows of the table of grades, as student id, name, class and
    grade. *)
Record page := mkPage {
  task_id : pyval;
  custom_grade : string;
  current_class : option string;
  table : list (string * string * string * string);
  status_bar : option (string * bool) }.

Definition set_task_id (v : pyval) (p : page) : page :=
  mkPage v (custom_grade p) (current_class p) (table p) (status_bar p).

Definition set_current_class (c : option string) (p : page) : page :=
  mkPage (task_id p) (custom_grade p) c (table p) (status_bar p).

Definition set_table (t : list (string * string * string * string)) (p : page) : page :=
  mkPage (task_id p) (custom_grade p) (current_class p) t (status_bar p).

Definition set_status (text : string) (is_error : bool) (p : page) : page :=
  mkPage (task_id p) (custom_grade p) (current_class p) (table p) (Some (text, is_error)).

(** [not self.current_class]: [None] or the empty string. *)
Definition no_class (c : option string) : bool :=
  match c with
  | Some s => String.eqb s ""
  | None => true
  end.

(** [d['grade'] and d['class'] == self.current_class] *)
Definition is_graded (c : option string) (d : detail_view) : bool :=
  match dv_grade d with
  | Some g => negb (String.eqb g "") && match c with
                                       | Some s => String.eqb (dv_class d) s
                                       | None => false
                                       end
  | None => false
  end.

Definition table_row (d : detail_view) : string * string * string * string :=
  (dv_student_id d, dv_name d, dv_class d,
   match dv_grade d with Some g => g | None => "" end).

Section Handlers.

Context (clk : clock).
Context (current_task : option task_dict).

Local Open Scope page_scope.

Definition clear_table : Page page unit := assign (set_table []).

Definition refresh_data : Page page unit :=
  match current_task with
  | None => clear_table
  | Some task =>
      c <- field current_class ;;
      if no_class c then clear_table
      else
        assign (set_task_id (PInt (task_id_of task))) ;;;
        tid <- field task_id ;;
        details <- call (get_task_details clk tid) ;;
        assign (set_table (map table_row (filter (is_graded c) details)))
  end.

Definition handle_input (student_id : string) : Page page unit :=
  match current_task with
  | None => assign (set_status (fst no_task_status) (snd no_task_status))
  | Some _ =>
      student <- call (get_student (PStr student_id)) ;;
      match student with
      | None => assign (set_status ("学号 " ++ student_id ++ " 不存在") true)
      | Some student =>
          c <- field current_class ;;
          (if no_class c then assign (set_current_class (Some (st_class student)))
           else page_ret tt) ;;;
          c <- field current_class ;;
          if negb (match c with
                   | Some s => String.eqb (st_class student) s
                   | None => false
                   end)
          then assign (set_status ("学号 " ++ student_id ++ " 不属于当前班级 "
                                     ++ match c with Some s => s | None => "None" end) true)
          else
            grade <- field custom_grade ;;
            tid <- field task_id ;;
            call (set_grade clk tid (PStr student_id) (PStr grade)) ;;;
            assign (set_status ("学生 " ++ st_name student ++ " 成绩 " ++ grade) false) ;;;
            refresh_data
      end
  end.

End Handlers.

End GradePage.

Module ExportPage.

Record page := mkPage {
  preview_headers : list string;
  preview_data : list (list string) }.

(** [history = {h['task_id']: h for h in ...}] and [history.get(id)]: the
    last entry of the key wins. *)
Definition history_get (history : list history_view) (id : Z) : option history_view :=
  fold_left (fun found h => if Z.eqb (hv_task_id h) id then Some h else found) history None.

(** The text of a cell, from [rec = history.get(task['id'], {})]. *)
Definition cell_text (rec : option history_view) : string :=
  let status := match rec with Some h => hv_status h | None => Some "missing" end in
  let grade := match rec with Some h => hv_grade h | None => Some "" end in
  if match status with Some s => String.eqb s "missing" | None => false end then "未交"
  else
    match grade with
    | Some g => if String.eqb g "" then "已交" else g
    | None => "已交"
    end.

Section Handlers.

(** The items of [self.class_combo], its current text, and what
    [get_date_range] returns. *)
Context (class_combo : list string) (class_name : string) (date_range : string * string).

Local Open Scope page_scope.

(** [for row, stu in enumerate(students)] *)
Fixpoint fill_rows (tasks : list task_row) (students : list student_row) : Page page unit :=
  match students with
  | [] => page_ret tt
  | stu :: r =>
      history <- call (get_student_history (PStr (st_student_id stu))) ;;
      let row_data :=
        [st_student_id stu; st_name stu]
          ++ map (fun t => cell_text (history_get history (tk_id t))) tasks in
      assign (fun p => mkPage (preview_headers p) (preview_data p ++ [row_data])) ;;;
      fill_rows tasks r
  end.

Definition update_preview : Page page unit :=
  match class_combo with
  | [] => page_ret tt
  | _ =>
      tasks <- call (get_tasks_in_date_range (PStr (fst date_range)) (PStr (snd date_range))) ;;
      students <- call (get_students_by_class (PStr class_name)) ;;
      assign (fun p => mkPage ("学号" :: "姓名" :: map tk_date tasks) (preview_data p)) ;;;
      assign (fun p => mkPage (preview_headers p) []) ;;;
      fill_rows tasks students
  end.

End Handlers.

End ExportPage.

(* ================================================================== *)
(** ** Properties *)
(* ================================================================== *)

(** *** Lists, strings and ORDER BY *)

Ltac unfold_method :=
  unfold bind, ret, raise, lift, get_db, put_db, get_connection, not_null, not_null_val,
    integrity_error, statement_time, today_iso in *.

Ltac run_method :=
  cbv beta iota zeta
      delta [bind ret raise lift get_db put_db get_connection not_null not_null_val
             integrity_error statement_time today_iso].

Lemma sql_eqb_refl (v : sqlval) : v <> SqlNull -> sql_eqb v v = true.
Proof.
  destruct v; simpl; intros H.
  - congruence.
  - apply Z.eqb_refl.
  - apply String.eqb_refl.
  - apply String.eqb_refl.
Qed.

Lemma sql_eqb_eq (a b : sqlval) : sql_eqb a b = true -> a = b.
Proof.
  destruct a, b; simpl; intros H; try discriminate.
  - apply Z.eqb_eq in H. congruence.
  - apply String.eqb_eq in H. congruence.
  - apply String.eqb_eq in H. congruence.
Qed.

Lemma same_key_eq tid sid r :
  same_key tid sid r = true -> td_task_id r = tid /\ td_student_id r = sid.
Proof.
  unfold same_key. intros H. apply andb_true_iff in H. destruct H as [H1 H2].
  split; [now apply sql_eqb_eq | now apply String.eqb_eq].
Qed.

Lemma set_task_details_id (d : db) :
  set_task_details d (task_details d ++ []) (seq_task_details d) = d.
Proof. destruct d. unfold set_task_details. simpl. now rewrite app_nil_r. Qed.

Lemma insert_by_perm {A} (le : A -> A -> bool) x l : Permutation (x :: l) (insert_by le x l).
Proof.
  induction l as [|y l IH]; simpl.
  - apply Permutation_refl.
  - destruct (le x y).
    + apply Permutation_refl.
    + eapply perm_trans; [apply perm_swap|]. now apply perm_skip.
Qed.

Lemma order_by_perm {A} (le : A -> A -> bool) l : Permutation l (order_by le l).
Proof.
  induction l as [|x l IH]; simpl.
  - apply perm_nil.
  - eapply perm_trans; [apply perm_skip, IH|]. apply insert_by_perm.
Qed.

Lemma order_by_In {A} (le : A -> A -> bool) l x : In x (order_by le l) <-> In x l.
Proof.
  split; intros H.
  - eapply Permutation_in; [apply Permutation_sym, order_by_perm|exact H].
  - eapply Permutation_in; [apply order_by_perm|exact H].
Qed.

Lemma insert_by_map {A B} (f : A -> B) (le : A -> A -> bool) (le' : B -> B -> bool) :
  (forall a b, le' (f a) (f b) = le a b) ->
  forall x l, insert_by le' (f x) (map f l) = map f (insert_by le x l).
Proof.
  intros Hle x l. induction l as [|y l IH]; simpl.
  - reflexivity.
  - rewrite Hle. destruct (le x y); simpl; [reflexivity|now rewrite IH].
Qed.

Lemma order_by_map {A B} (f : A -> B) (le : A -> A -> bool) (le' : B -> B -> bool) :
  (forall a b, le' (f a) (f b) = le a b) ->
  forall l, order_by le' (map f l) = map f (order_by le l).
Proof.
  intros Hle l. unfold order_by. induction l as [|x l IH]; simpl.
  - reflexivity.
  - rewrite IH. now apply insert_by_map.
Qed.

Lemma insert_by_sorted {A} (le : A -> A -> bool) :
  (forall a b, le a b = false -> le b a = true) ->
  forall x l, Sorted (fun a b => le a b = true) l ->
              Sorted (fun a b => le a b = true) (insert_by le x l).
Proof.
  intros Htot x l Hs. induction Hs as [|y l Hs IH Hhd]; simpl.
  - repeat constructor.
  - destruct (le x y) eqn:E.
    + constructor; [now constructor|now constructor].
    + constructor; [exact IH|].
      destruct Hhd as [|z l' Hyz]; simpl.
      * constructor. now apply Htot.
      * destruct (le x z); constructor; [now apply Htot|exact Hyz].
Qed.

Lemma order_by_sorted {A} (le : A -> A -> bool) :
  (forall a b, le a b = false -> le b a = true) ->
  forall l, Sorted (fun a b => le a b = true) (order_by le l).
Proof.
  intros Htot l. induction l as [|x l IH]; simpl.
  - constructor.
  - now apply insert_by_sorted.
Qed.

(** *** The backfill *)

(** A row as [ensure_task_students] inserts it. *)
Definition backfill_row (tid : sqlval) (r : detail_row) : Prop :=
  td_task_id r = tid /\ td_status r = Some "missing" /\ td_grade r = None.

Lemma insert_detail_ok clk tid sid st w w' :
  insert_detail clk tid (Some sid) st w = (inr tt, w') ->
  tid <> SqlNull /\
  existsb (same_key tid sid) (task_details (w_db w)) = false /\
  w' = mkWorld
         (set_task_details (w_db w)
            (task_details (w_db w)
               ++ [mkDetail (next_rowid (seq_task_details (w_db w)) (map td_id (task_details (w_db w))))
                     tid sid st None (current_timestamp clk (w_tick w))])
            (next_rowid (seq_task_details (w_db w)) (map td_id (task_details (w_db w)))))
         (S (w_tick w)).
Proof.
  unfold insert_detail. unfold_method. simpl.
  destruct tid; simpl; try discriminate;
    (destruct (existsb _ _) eqn:E; simpl; [discriminate|]);
    intros H; inversion H; subst; clear H;
    (split; [discriminate|split; reflexivity]).
Qed.

Lemma insert_missing_ok clk tid sids : forall w w',
  insert_missing clk tid sids w = (inr tt, w') ->
  exists rows seq',
    w_db w' = set_task_details (w_db w) (task_details (w_db w) ++ rows) seq' /\
    map td_student_id rows = sids /\
    Forall (backfill_row tid) rows /\
    (forall sid, In sid sids -> existsb (same_key tid sid) (task_details (w_db w)) = false) /\
    (sids <> [] -> tid <> SqlNull).
Proof.
  induction sids as [|sid sids IH]; intros w w' H; simpl in H.
  - unfold ret in H. inversion H; subst.
    exists [], (seq_task_details (w_db w')). rewrite set_task_details_id.
    repeat split; auto. intros sid [].
  - unfold bind in H.
    destruct (insert_detail clk tid (Some sid) (Some "missing") w) as [[e|[]] w1] eqn:E1;
      [discriminate|].
    apply insert_detail_ok in E1. destruct E1 as (Hnn & Hfresh & ->).
    apply IH in H. simpl in H. destruct H as (rows & seq' & Hdb & Hids & Hrows & Hnot & _).
    eexists (_ :: rows), seq'. split; [|split; [|split; [|split]]].
    + rewrite Hdb. unfold set_task_details. simpl. now rewrite <- app_assoc.
    + simpl. now rewrite Hids.
    + constructor; [|exact Hrows]. repeat split.
    + intros s [<-|Hs]; [exact Hfresh|].
      specialize (Hnot s Hs). rewrite existsb_app in Hnot.
      now apply orb_false_iff in Hnot.
    + intros _. exact Hnn.
Qed.

(** What a call of [ensure_task_students] does to the tables, whether it
    returns or raises. *)
Lemma ensure_task_students_frame clk task_id w :
  exists rows seq',
    w_db (snd (ensure_task_students clk task_id w))
    = set_task_details (w_db w) (task_details (w_db w) ++ rows) seq' /\
    Forall (fun r =>
              (exists p, bind_param task_id = inr p /\ backfill_row (integer_affinity p) r) /\
              In (td_student_id r) (map st_student_id (students (w_db w))) /\
              existsb (same_key (td_task_id r) (td_student_id r)) (task_details (w_db w)) = false)
           rows.
Proof.
  assert (Hsame : exists rows seq',
             w_db w = set_task_details (w_db w) (task_details (w_db w) ++ rows) seq' /\
             Forall (fun r =>
               (exists p, bind_param task_id = inr p /\ backfill_row (integer_affinity p) r) /\
               In (td_student_id r) (map st_student_id (students (w_db w))) /\
               existsb (same_key (td_task_id r) (td_student_id r)) (task_details (w_db w)) = false)
               rows).
  { exists [], (seq_task_details (w_db w)). now rewrite set_task_details_id. }
  unfold ensure_task_students. unfold_method.
  destruct (bind_param task_id) as [e|p] eqn:Ep; simpl; [exact Hsame|].
  destruct (Nat.ltb _ _); simpl; [|exact Hsame].
  set (missing_ids := filter _ (map st_student_id (students (w_db w)))).
  assert (Hsub : forall s, In s missing_ids -> In s (map st_student_id (students (w_db w)))).
  { intros s Hs. unfold missing_ids in Hs. now apply filter_In in Hs. }
  destruct missing_ids as [|m ms] eqn:Em; [exact Hsame|]. cbv beta iota.
  destruct (insert_missing clk (integer_affinity p) (m :: ms) w) as [[e|[]] w1] eqn:E1;
    cbv beta iota; [exact Hsame|]. unfold snd.
  apply insert_missing_ok in E1.
  destruct E1 as (rows & seq' & Hdb & Hids & Hrows & Hnot & _).
  exists rows, seq'. split; [exact Hdb|].
  rewrite Forall_forall in *. intros r Hr.
  assert (Hin : In (td_student_id r) (m :: ms)).
  { rewrite <- Hids. now apply in_map. }
  destruct (Hrows r Hr) as (Ht & Hst & Hg).
  split; [|split].
  - exists p. split; [reflexivity|]. repeat split; assumption.
  - now apply Hsub.
  - rewrite Ht. now apply Hnot.
Qed.

Definition detail_key (r : detail_row) : sqlval * string := (td_task_id r, td_student_id r).

Definition succeeds {A} (r : (exn + A) * world) : bool :=
  match fst r with
  | inr _ => true
  | inl _ => false
  end.

Lemma existsb_same_key_keys tid sid l1 l2 :
  map detail_key l1 = map detail_key l2 ->
  existsb (same_key tid sid) l1 = existsb (same_key tid sid) l2.
Proof.
  revert l2. induction l1 as [|a l1 IH]; intros [|b l2] H; simpl in *; try discriminate.
  - reflexivity.
  - inversion H as [[Ht Hs Hl]]. unfold same_key at 1 3. rewrite Ht, Hs. f_equal. now apply IH.
Qed.

(** Whether the inserts of a backfill go through depends on the keys the
    table holds, not on the clock. *)
Lemma insert_missing_succeeds_keys clk tid sids : forall w1 w2,
  map detail_key (task_details (w_db w1)) = map detail_key (task_details (w_db w2)) ->
  succeeds (insert_missing clk tid sids w1) = succeeds (insert_missing clk tid sids w2).
Proof.
  induction sids as [|sid sids IH]; intros w1 w2 Hk; simpl.
  - reflexivity.
  - unfold bind, insert_detail. unfold_method. simpl.
    destruct tid; simpl; try reflexivity;
      rewrite (existsb_same_key_keys _ _ _ _ Hk);
      (destruct (existsb _ (task_details (w_db w2))); simpl; [reflexivity|]);
      apply IH; simpl; rewrite !map_app, Hk; reflexivity.
Qed.

Lemma existsb_eqb_In (s : string) (l : list string) : existsb (String.eqb s) l = true <-> In s l.
Proof.
  rewrite existsb_exists. split.
  - intros (x & Hx & E). apply String.eqb_eq in E. now subst.
  - intros H. exists s. split; [exact H|apply String.eqb_refl].
Qed.

Lemma filter_covered (old l : list string) : forall l',
  (forall s, In s l' -> In s l) ->
  filter (fun sid =>
            negb (existsb (String.eqb sid)
                    (old ++ filter (fun x => negb (existsb (String.eqb x) old)) l))) l' = [].
Proof.
  induction l' as [|s l' IH]; intros Hsub; simpl; [reflexivity|].
  assert (E : existsb (String.eqb s)
                (old ++ filter (fun x => negb (existsb (String.eqb x) old)) l) = true).
  { rewrite existsb_app. destruct (existsb (String.eqb s) old) eqn:Eo; [reflexivity|]. simpl.
    apply existsb_eqb_In. apply filter_In. split; [apply Hsub; now left|].
    now rewrite Eo. }
  rewrite E. simpl. apply IH. intros x Hx. apply Hsub. now right.
Qed.

(** Once every student has a row under the task, nobody is missing. *)
Lemma no_missing_ids_after tid (sts : list student_row) (tds rows : list detail_row) :
  tid <> SqlNull ->
  Forall (backfill_row tid) rows ->
  map td_student_id rows
  = filter (fun sid => negb (existsb (String.eqb sid)
                               (map td_student_id (filter (of_task tid) tds))))
           (map st_student_id sts) ->
  filter (fun sid => negb (existsb (String.eqb sid)
                             (map td_student_id (filter (of_task tid) (tds ++ rows)))))
         (map st_student_id sts) = [].
Proof.
  intros Hnn Hrows Hids.
  assert (Hall : filter (of_task tid) rows = rows).
  { clear Hids. induction Hrows as [|r rows [Ht _] _ IH]; simpl; [reflexivity|].
    unfold of_task at 1. rewrite Ht, (sql_eqb_refl _ Hnn). now rewrite IH. }
  rewrite filter_app, map_app, Hall, Hids.
  apply filter_covered. auto.
Qed.

(** C10 ([ensure_task_students] only inserts). For every state and every
    [task_id], the call leaves [students] and [tasks] as they are and keeps
    every row of [task_details] in place; what it adds at the end are rows of
    status [missing] without a grade, under this task, each for a student of
    the roster that had no row under the task. *)
Theorem ensure_task_students_only_inserts (clk : clock) (task_id : pyval) (w : world) :
  let d := w_db w in
  let d' := w_db (snd (ensure_task_students clk task_id w)) in
  students d' = students d /\ tasks d' = tasks d /\
  exists added,
    task_details d' = task_details d ++ added /\
    Forall (fun r =>
              td_status r = Some "missing" /\ td_grade r = None /\
              (exists p, bind_param task_id = inr p /\ td_task_id r = integer_affinity p) /\
              In (td_student_id r) (map st_student_id (students d)) /\
              (forall r0, In r0 (task_details d) ->
                          same_key (td_task_id r) (td_student_id r) r0 = false))
           added.
Proof.
  intros d d'.
  destruct (ensure_task_students_frame clk task_id w) as (rows & seq' & Hdb & Hrows).
  subst d d'. rewrite Hdb. simpl. split; [reflexivity|split; [reflexivity|]].
  exists rows. split; [reflexivity|].
  rewrite Forall_forall in *. intros r Hr.
  destruct (Hrows r Hr) as ((p & Hp & Ht & Hst & Hg) & Hin & Hfresh).
  repeat split; try assumption.
  - exists p. now split.
  - intros r0 Hr0. destruct (same_key _ _ r0) eqn:E; [|reflexivity].
    rewrite <- Hfresh. symmetry. apply existsb_exists. now exists r0.
Qed.

(** The students without a row under the task: [missing_ids] of the source. *)
Definition missing_ids_of (tid : sqlval) (d : db) : list string :=
  filter (fun sid => negb (existsb (String.eqb sid)
                             (map td_student_id (filter (of_task tid) (task_details d)))))
         (map st_student_id (students d)).

Lemma ensure_task_students_unfold clk task_id w :
  ensure_task_students clk task_id w =
  match bind_param task_id with
  | inl e => (inl e, w)
  | inr p =>
      let tid := integer_affinity p in
      if Nat.ltb (List.length (filter (of_task tid) (task_details (w_db w))))
                 (List.length (students (w_db w)))
      then match missing_ids_of tid (w_db w) with
           | [] => (inr tt, w)
           | ids =>
               match insert_missing clk tid ids w with
               | (inl e, w') => (inl e, mkWorld (w_db w) (w_tick w'))
               | r => r
               end
           end
      else (inr tt, w)
  end.
Proof.
  unfold ensure_task_students, missing_ids_of. run_method.
  destruct (bind_param task_id) as [e|p]; [now destruct w|]. run_method.
  destruct (Nat.ltb _ _); [|reflexivity].
  destruct (filter _ (map st_student_id (students (w_db w)))) as [|m ms]; [reflexivity|].
  run_method.
  destruct (insert_missing clk (integer_affinity p) (m :: ms) w) as [[e|[]] w1]; reflexivity.
Qed.

(** C8 ([ensure_task_students] is idempotent). For every state and every
    [task_id], a second call right after the first leaves the database as the
    first call left it: the same rows of [task_details], and the same
    [students], [tasks] and counters. *)
Theorem ensure_task_students_idempotent (clk : clock) (task_id : pyval) (w : world) :
  let once := snd (ensure_task_students clk task_id w) in
  let twice := snd (ensure_task_students clk task_id once) in
  w_db twice = w_db once.
Proof.
  intros once twice. subst once twice.
  rewrite (ensure_task_students_unfold clk task_id w).
  destruct (bind_param task_id) as [e|p] eqn:Ep.
  { simpl. rewrite ensure_task_students_unfold, Ep. reflexivity. }
  cbv zeta. set (tid := integer_affinity p).
  destruct (Nat.ltb _ _) eqn:Elt.
  2:{ simpl. rewrite ensure_task_students_unfold, Ep. cbv zeta. fold tid. now rewrite Elt. }
  destruct (missing_ids_of tid (w_db w)) as [|m ms] eqn:Em.
  { simpl. rewrite ensure_task_students_unfold, Ep. cbv zeta. fold tid. now rewrite Elt, Em. }
  destruct (insert_missing clk tid (m :: ms) w) as [[e|[]] w1] eqn:E1; unfold snd at 2 3.
  - (* the backfill raised: the tables are rolled back, and it raises again *)
    rewrite ensure_task_students_unfold, Ep. cbv zeta. fold tid.
    change (w_db (mkWorld (w_db w) (w_tick w1))) with (w_db w). rewrite Elt, Em.
    pose proof (insert_missing_succeeds_keys clk tid (m :: ms) w
                  (mkWorld (w_db w) (w_tick w1)) eq_refl) as Hs.
    rewrite E1 in Hs.
    destruct (insert_missing clk tid (m :: ms) (mkWorld (w_db w) (w_tick w1)))
      as [[e'|[]] w2]; [reflexivity|discriminate Hs].
  - (* the backfill went through: nobody is missing any more *)
    apply insert_missing_ok in E1.
    destruct E1 as (rows & seq' & Hdb & Hids & Hrows & _ & Hnn).
    assert (Hnull : tid <> SqlNull) by (apply Hnn; discriminate).
    rewrite ensure_task_students_unfold, Ep. cbv zeta. fold tid.
    destruct (Nat.ltb _ (List.length (students (w_db w1)))); [|reflexivity].
    assert (Hnone : missing_ids_of tid (w_db w1) = []).
    { unfold missing_ids_of. rewrite Hdb. simpl.
      apply no_missing_ids_after; [exact Hnull|exact Hrows|].
      rewrite Hids. symmetry. exact Em. }
    now rewrite Hnone.
Qed.

(** *** The queries and the backfill *)

(** How a query may change the database: [students] and every existing row
    of [task_details] stay, rows of status [missing] without a grade may be
    appended. *)
Definition only_backfilled (d d' : db) : Prop :=
  students d' = students d /\
  exists added,
    task_details d' = task_details d ++ added /\
    Forall (fun r => td_status r = Some "missing" /\ td_grade r = None) added.

Lemma ensure_only_backfilled clk task_id w :
  tasks (w_db (snd (ensure_task_students clk task_id w))) = tasks (w_db w) /\
  only_backfilled (w_db w) (w_db (snd (ensure_task_students clk task_id w))).
Proof.
  destruct (ensure_task_students_frame clk task_id w) as (rows & seq' & Hdb & Hrows).
  rewrite Hdb. split; [reflexivity|]. split; [reflexivity|].
  exists rows. split; [reflexivity|].
  rewrite Forall_forall in *. intros r Hr.
  destruct (Hrows r Hr) as ((p & _ & _ & Hst & Hg) & _). now split.
Qed.

(** A query that starts with the backfill and then only reads. *)
Lemma backfill_then_read {A} clk task_id (read : M A) w :
  (forall w0, w_db (snd (read w0)) = w_db w0) ->
  w_db (snd ((ensure_task_students clk task_id ;;; read) w))
  = w_db (snd (ensure_task_students clk task_id w)).
Proof.
  intros Hread. unfold bind.
  destruct (ensure_task_students clk task_id w) as [[e|[]] w1]; simpl; [reflexivity|].
  apply Hread.
Qed.

Lemma get_connection_read {A} (body : M A) w :
  (forall w0, w_db (snd (body w0)) = w_db w0) ->
  w_db (snd (get_connection body w)) = w_db w.
Proof.
  intros H. unfold get_connection. specialize (H w).
  destruct (body w) as [[e|a] w1]; simpl in *; [reflexivity|exact H].
Qed.

Lemma get_student_history_pure student_id w : snd (get_student_history student_id w) = w.
Proof.
  unfold get_student_history. run_method.
  destruct (bind_param student_id); destruct w; reflexivity.
Qed.

Lemma get_task_details_db clk task_id w :
  w_db (snd (get_task_details clk task_id w))
  = w_db (snd (ensure_task_students clk task_id w)).
Proof.
  unfold get_task_details. apply backfill_then_read. intros w0.
  apply get_connection_read. intros w1. run_method. now destruct (bind_param task_id).
Qed.

Lemma get_submitted_students_db clk task_id w :
  w_db (snd (get_submitted_students clk task_id w))
  = w_db (snd (ensure_task_students clk task_id w)).
Proof.
  unfold get_submitted_students. apply backfill_then_read. intros w0.
  apply get_connection_read. intros w1. run_method. now destruct (bind_param task_id).
Qed.

Lemma get_missing_students_db clk task_id class_name w :
  w_db (snd (get_missing_students clk task_id class_name w))
  = w_db (snd (ensure_task_students clk task_id w)).
Proof.
  unfold get_missing_students. apply backfill_then_read. intros w0.
  apply get_connection_read. intros w1.
  destruct (truthy class_name); run_method.
  - now destruct (bind_params [task_id; class_name]).
  - now destruct (bind_param task_id).
Qed.

(** [get_current_task] creates the task of today when there is no task, and
    writes nothing otherwise. *)
Lemma get_current_task_db clk w :
  let d' := w_db (snd (get_current_task clk w)) in
  students d' = students (w_db w) /\
  task_details d' = task_details (w_db w) /\
  exists new_tasks,
    tasks d' = tasks (w_db w) ++ new_tasks /\ (tasks (w_db w) <> [] -> new_tasks = []).
Proof.
  unfold get_current_task, get_or_create_today_task. run_method.
  destruct (order_by task_date_ge (tasks (w_db w))) as [|t ts] eqn:E; simpl.
  - assert (Hnil : tasks (w_db w) = []).
    { destruct (tasks (w_db w)) as [|x l] eqn:Et; [reflexivity|].
      exfalso. pose proof (order_by_perm task_date_ge (x :: l)) as Hp. rewrite E in Hp.
      apply Permutation_sym, Permutation_nil in Hp. discriminate. }
    rewrite Hnil. simpl. repeat split. eexists. split; [reflexivity|]. congruence.
  - repeat split. exists []. split; [now rewrite app_nil_r|reflexivity].
Qed.

Lemma get_today_stats_db clk w :
  exists w1,
    (students (w_db w1) = students (w_db w) /\
     task_details (w_db w1) = task_details (w_db w) /\
     exists new_tasks,
       tasks (w_db w1) = tasks (w_db w) ++ new_tasks /\ (tasks (w_db w) <> [] -> new_tasks = [])) /\
    (w_db (snd (get_today_stats clk w)) = w_db w1 \/
     exists task_id,
       w_db (snd (get_today_stats clk w)) = w_db (snd (ensure_task_students clk task_id w1))).
Proof.
  pose proof (get_current_task_db clk w) as Hcur. cbv zeta in Hcur.
  unfold get_today_stats, bind, ret.
  destruct (get_current_task clk w) as [[e|task] w1]; simpl in Hcur |- *; exists w1;
    (split; [exact Hcur|]).
  - now left.
  - right. exists (PInt (task_id_of task)).
    pose proof (get_task_details_db clk (PInt (task_id_of task)) w1) as H.
    destruct (get_task_details clk (PInt (task_id_of task)) w1) as [[e|l] w2]; exact H.
Qed.

(** *** A small roster, used to run the definitions *)

Definition example_clock : clock :=
  mkClock (fun _ => "2024-03-01 08:00:00") (fun _ => "2024-03-01").

Definition zhang : student_row := mkStudent 1 "202301" "Zhang" "2023班" "2024-02-01 09:00:00".
Definition li : student_row := mkStudent 2 "202302" "Li" "2023班" "2024-02-01 09:00:01".
Definition wang : student_row := mkStudent 3 "202210" "Wang" "2022班" "2024-02-01 09:00:02".

Definition task1 : task_row := mkTask 1 "作业-2024-03-01" "2024-03-01" "2024-03-01 07:00:00".

(** Three students, one task, no submission record yet. *)
Definition example_db : db := mkDb [zhang; li; wang] [task1] [] 3 1 0.

Definition example_world : world := mkWorld example_db 0.

Example example_task_details :
  fst (get_task_details example_clock (PInt 1) example_world)
  = inr [mkDetailView "202210" "Wang" "2022班" "missing" None;
         mkDetailView "202301" "Zhang" "2023班" "missing" None;
         mkDetailView "202302" "Li" "2023班" "missing" None].
Proof. reflexivity. Qed.

(** C1, as stated, fails: on a roster without records, [get_task_details]
    inserts a row for each student. *)
Lemma get_task_details_writes :
  task_details (w_db (snd (get_task_details example_clock (PInt 1) example_world)))
  <> task_details (w_db example_world).
Proof. vm_compute. discriminate. Qed.

(** C1, amended (the queries write nothing but the backfill).
    [get_student_history] leaves the state as it is. [get_task_details],
    [get_submitted_students] and [get_missing_students] leave the database as
    [ensure_task_students] of the same task does, and that call keeps
    [students], [tasks] and every existing row of [task_details], and appends
    only rows of status [missing] without a grade. [get_today_stats] keeps
    [students] and the existing rows likewise, and adds a task only when
    there was none. *)
Theorem queries_only_backfill (clk : clock) (w : world) :
  (forall student_id, snd (get_student_history student_id w) = w) /\
  (forall task_id,
      w_db (snd (get_task_details clk task_id w))
      = w_db (snd (ensure_task_students clk task_id w)) /\
      w_db (snd (get_submitted_students clk task_id w))
      = w_db (snd (ensure_task_students clk task_id w)) /\
      (forall class_name,
          w_db (snd (get_missing_students clk task_id class_name w))
          = w_db (snd (ensure_task_students clk task_id w))) /\
      tasks (w_db (snd (ensure_task_students clk task_id w))) = tasks (w_db w) /\
      only_backfilled (w_db w) (w_db (snd (ensure_task_students clk task_id w)))) /\
  (only_backfilled (w_db w) (w_db (snd (get_today_stats clk w))) /\
   exists new_tasks,
     tasks (w_db (snd (get_today_stats clk w))) = tasks (w_db w) ++ new_tasks /\
     (tasks (w_db w) <> [] -> new_tasks = [])).
Proof.
  split; [|split].
  - intros sid. apply get_student_history_pure.
  - intros task_id. split; [|split; [|split]].
    + apply get_task_details_db.
    + apply get_submitted_students_db.
    + intros c. apply get_missing_students_db.
    + apply ensure_only_backfilled.
  - destruct (get_today_stats_db clk w) as (w1 & (Hs & Hd & nt & Ht & Hnt) & [Hdb|(t & Hdb)]);
      rewrite Hdb.
    + split; [|exists nt; now split].
      split; [exact Hs|]. exists []. rewrite app_nil_r. now split.
    + destruct (ensure_only_backfilled clk t w1) as (Htk & Hst & added & Hadd & Hrows).
      split.
      * split; [congruence|]. exists added. split; [congruence|exact Hrows].
      * exists nt. split; [congruence|exact Hnt].
Qed.

(** *** Deleting a student *)

Lemma filter_none {A} (f : A -> bool) (l : list A) :
  (forall x, In x l -> f x = false) -> filter f l = [].
Proof.
  induction l as [|x l IH]; intros H; simpl; [reflexivity|].
  rewrite (H x (or_introl eq_refl)). apply IH. intros y Hy. apply H. now right.
Qed.

Lemma history_join_no_record sid d :
  (forall r, In r (task_details d) -> td_student_id r <> sid) ->
  history_join (Some sid) d = map (fun t => (t, None)) (tasks d).
Proof.
  intros Hno. unfold history_join.
  induction (tasks d) as [|t ts IH]; [reflexivity|].
  cbn [flat_map]. rewrite IH, filter_none.
  - reflexivity.
  - intros r Hr. apply andb_false_iff. right. simpl.
    apply String.eqb_neq. now apply Hno.
Qed.

(** The state of the example after Zhang has handed in task 1. *)
Definition submitted_world : world :=
  snd (submit_student example_clock (PInt 1) (PStr "202301") example_world).

Example submitted_world_records :
  task_details (w_db submitted_world)
  = [mkDetail 1 (SqlInt 1) "202301" (Some "submitted") None "2024-03-01 08:00:00"].
Proof. reflexivity. Qed.

(** C4, as stated, fails: after the delete the history of the student still
    has an entry, the task without a record. *)
Lemma history_after_delete_not_empty :
  fst (get_student_history (PStr "202301")
         (snd (delete_student (PStr "202301") submitted_world)))
  = inr [mkHistoryView 1 "2024-03-01" "作业-2024-03-01" None None].
Proof. reflexivity. Qed.

(** C4, amended (delete removes the records; the history lists the tasks).
    After [delete_student(S)] no row of [task_details] refers to [S], and
    [get_student_history(S)] returns one entry for each task, latest date
    first, with neither status nor grade; it is empty only when there is no
    task. *)
Theorem delete_student_history (S : string) (w : world) :
  let w' := snd (delete_student (PStr S) w) in
  (forall r, In r (task_details (w_db w')) -> td_student_id r <> S) /\
  fst (get_student_history (PStr S) w')
  = inr (map (fun t => mkHistoryView (tk_id t) (tk_date t) (tk_name t) None None)
           (order_by task_date_ge (tasks (w_db w)))) /\
  (fst (get_student_history (PStr S) w') = inr [] <-> tasks (w_db w) = []).
Proof.
  intros w'.
  assert (Hdb : w_db w' = set_students
                  (set_task_details (w_db w)
                     (filter (fun r => negb (String.eqb (td_student_id r) S))
                        (task_details (w_db w)))
                     (seq_task_details (w_db w)))
                  (filter (fun s => negb (String.eqb (st_student_id s) S))
                     (students (w_db w)))
                  (seq_students (w_db w))).
  { subst w'. unfold delete_student. run_method. reflexivity. }
  assert (Hno : forall r, In r (task_details (w_db w')) -> td_student_id r <> S).
  { intros r Hr. rewrite Hdb in Hr. simpl in Hr. apply filter_In in Hr.
    destruct Hr as [_ Hr]. apply negb_true_iff in Hr. now apply String.eqb_neq. }
  assert (Hhist : fst (get_student_history (PStr S) w')
                  = inr (map (fun t => mkHistoryView (tk_id t) (tk_date t) (tk_name t) None None)
                           (order_by task_date_ge (tasks (w_db w))))).
  { unfold get_student_history. cbn [bind_param]. run_method. cbn [text_affinity fst].
    rewrite (history_join_no_record S (w_db w') Hno).
    rewrite (order_by_map (fun t : task_row => (t, @None detail_row)) task_date_ge
               (fun a b => task_date_ge (fst a) (fst b))) by reflexivity.
    rewrite map_map. rewrite Hdb. reflexivity. }
  split; [exact Hno|split; [exact Hhist|]].
  rewrite Hhist. split.
  - intros H. inversion H as [Hm].
    apply map_eq_nil in Hm.
    destruct (tasks (w_db w)) as [|t ts] eqn:Et; [reflexivity|].
    exfalso. pose proof (order_by_perm task_date_ge (t :: ts)) as Hp. rewrite Hm in Hp.
    apply Permutation_sym, Permutation_nil in Hp. discriminate.
  - intros ->. reflexivity.
Qed.

(** *** Upserts and the detail listing *)

Lemma upsert_detail_run clk tid sid st g f w :
  tid <> SqlNull ->
  upsert_detail clk tid (Some sid) st g f w
  = (inr tt,
     mkWorld
       (set_task_details (w_db w)
          (if existsb (same_key tid sid) (task_details (w_db w))
           then map (fun r => if same_key tid sid r
                              then f (current_timestamp clk (w_tick w)) r else r)
                    (task_details (w_db w))
           else task_details (w_db w)
                  ++ [mkDetail (next_rowid (seq_task_details (w_db w))
                                  (map td_id (task_details (w_db w))))
                        tid sid st g (current_timestamp clk (w_tick w))])
          (next_rowid (seq_task_details (w_db w)) (map td_id (task_details (w_db w)))))
       (S (w_tick w))).
Proof.
  intros Hnn. unfold upsert_detail. run_method.
  destruct tid; [congruence| | |]; cbn [w_db w_tick];
    destruct (existsb _ _); reflexivity.
Qed.

Lemma left_join_fst tid d j :
  In j (left_join_details tid d) -> In (fst j) (students d).
Proof.
  unfold left_join_details. intros H. apply in_flat_map in H. destruct H as (s & Hs & Hj).
  destruct (filter _ (task_details d)) as [|m ms].
  - destruct Hj as [<-|[]]. exact Hs.
  - apply in_map_iff in Hj. destruct Hj as (r & <- & _). exact Hs.
Qed.

Lemma left_join_snd tid d j :
  In j (left_join_details tid d) ->
  match snd j with
  | None => forall r, In r (task_details d) ->
                      same_key tid (st_student_id (fst j)) r = false
  | Some r => In r (task_details d) /\ same_key tid (st_student_id (fst j)) r = true
  end.
Proof.
  unfold left_join_details. intros H. apply in_flat_map in H. destruct H as (s & Hs & Hj).
  destruct (filter _ (task_details d)) as [|m ms] eqn:E.
  - destruct Hj as [<-|[]]. simpl. intros r Hr.
    destruct (same_key tid (st_student_id s) r) eqn:Ek; [|reflexivity].
    exfalso. assert (Hin : In r []); [|destruct Hin].
    rewrite <- E. apply filter_In. split; [exact Hr|].
    unfold same_key in Ek. apply andb_true_iff in Ek. destruct Ek as [E1 E2].
    unfold of_task. rewrite E1, String.eqb_sym, E2. reflexivity.
  - apply in_map_iff in Hj. destruct Hj as (r & <- & Hr). simpl.
    rewrite <- E in Hr. apply filter_In in Hr. destruct Hr as [Hr Hk]. split; [exact Hr|].
    apply andb_true_iff in Hk. destruct Hk as [E1 E2].
    unfold same_key, of_task in *. rewrite E2, String.eqb_sym, E1. reflexivity.
Qed.

Lemma left_join_covers tid d s :
  In s (students d) -> exists j, In j (left_join_details tid d) /\ fst j = s.
Proof.
  intros Hs. unfold left_join_details.
  destruct (filter (fun r => String.eqb (st_student_id s) (td_student_id r) && of_task tid r)
              (task_details d)) as [|m ms] eqn:E.
  - exists (s, None). split; [|reflexivity]. apply in_flat_map. exists s. split; [exact Hs|].
    rewrite E. now left.
  - exists (s, Some m). split; [|reflexivity]. apply in_flat_map. exists s. split; [exact Hs|].
    rewrite E. now left.
Qed.

Lemma existsb_same_key_ids tid sid (l : list detail_row) :
  existsb (same_key tid sid) l
  = existsb (String.eqb sid) (map td_student_id (filter (of_task tid) l)).
Proof.
  induction l as [|r l IH]; simpl; [reflexivity|].
  unfold same_key at 1. unfold of_task at 1.
  destruct (sql_eqb (td_task_id r) tid); simpl.
  - rewrite IH. now rewrite (String.eqb_sym (td_student_id r) sid).
  - exact IH.
Qed.

(** With distinct identifiers in the roster, the inserts of the backfill meet
    no conflict. *)
Lemma insert_missing_succeeds clk tid sids : forall w,
  tid <> SqlNull -> NoDup sids ->
  (forall sid, In sid sids -> existsb (same_key tid sid) (task_details (w_db w)) = false) ->
  fst (insert_missing clk tid sids w) = inr tt.
Proof.
  induction sids as [|sid sids IH]; intros w Hnn Hnd Hfresh; [reflexivity|].
  cbn [insert_missing]. unfold bind.
  assert (E : insert_detail clk tid (Some sid) (Some "missing") w
              = (inr tt,
                 mkWorld
                   (set_task_details (w_db w)
                      (task_details (w_db w)
                         ++ [mkDetail (next_rowid (seq_task_details (w_db w))
                                         (map td_id (task_details (w_db w))))
                               tid sid (Some "missing") None (current_timestamp clk (w_tick w))])
                      (next_rowid (seq_task_details (w_db w)) (map td_id (task_details (w_db w)))))
                   (S (w_tick w)))).
  { pose proof (Hfresh sid (or_introl eq_refl)) as Hf.
    unfold insert_detail. run_method.
    destruct tid; [congruence| | |]; cbn [w_db w_tick]; rewrite Hf; reflexivity. }
  rewrite E. inversion Hnd as [|x l Hnotin Hnd']; subst.
  apply IH; [exact Hnn|exact Hnd'|].
  intros s Hs. cbn [w_db set_task_details task_details]. rewrite existsb_app.
  rewrite (Hfresh s (or_intror Hs)). cbn [existsb]. rewrite orb_false_r.
  unfold same_key. cbn [td_task_id td_student_id].
  apply andb_false_iff. right. apply String.eqb_neq. intros ->. contradiction.
Qed.

Lemma ensure_task_students_succeeds clk T w :
  int64 T = true ->
  NoDup (map st_student_id (students (w_db w))) ->
  fst (ensure_task_students clk (PInt T) w) = inr tt.
Proof.
  intros HT Hnd. rewrite ensure_task_students_unfold. cbn [bind_param]. rewrite HT.
  cbv zeta. cbn [integer_affinity].
  destruct (Nat.ltb _ _); [|reflexivity].
  destruct (missing_ids_of (SqlInt T) (w_db w)) as [|m ms] eqn:Em; [reflexivity|].
  assert (H : fst (insert_missing clk (SqlInt T) (m :: ms) w) = inr tt).
  { rewrite <- Em. apply insert_missing_succeeds.
    - discriminate.
    - unfold missing_ids_of. now apply NoDup_filter.
    - intros sid Hs. unfold missing_ids_of in Hs. apply filter_In in Hs.
      destruct Hs as [_ Hs]. apply negb_true_iff in Hs.
      now rewrite existsb_same_key_ids. }
  destruct (insert_missing clk (SqlInt T) (m :: ms) w) as [[e|[]] w1]; simpl in H;
    [discriminate|reflexivity].
Qed.

(** The listing of a task for a student that has a record under it. *)
Lemma get_task_details_view clk T S w :
  int64 T = true ->
  NoDup (map st_student_id (students (w_db w))) ->
  In S (map st_student_id (students (w_db w))) ->
  (exists r0, In r0 (task_details (w_db w)) /\ same_key (SqlInt T) S r0 = true) ->
  exists details,
    fst (get_task_details clk (PInt T) w) = inr details /\
    (exists v, In v details /\ dv_student_id v = S) /\
    (forall v, In v details -> dv_student_id v = S ->
       exists r, In r (task_details (w_db w)) /\ same_key (SqlInt T) S r = true /\
                 dv_status v = match td_status r with Some st => st | None => "missing" end /\
                 dv_grade v = td_grade r).
Proof.
  intros HT Hnd HS (r0 & Hr0 & Hk0).
  pose proof (ensure_task_students_succeeds clk T w HT Hnd) as Hok.
  destruct (ensure_task_students_frame clk (PInt T) w) as (rows & seq' & Hdb & Hrows).
  unfold get_task_details, bind.
  destruct (ensure_task_students clk (PInt T) w) as [[e|[]] w1]; simpl in Hok, Hdb;
    [discriminate|].
  cbn [bind_param]. rewrite HT. run_method. cbn [integer_affinity fst].
  eexists. split; [reflexivity|]. split.
  - apply in_map_iff in HS. destruct HS as (s & Hs & Hin).
    assert (Hin1 : In s (students (w_db w1))) by (rewrite Hdb; exact Hin).
    destruct (left_join_covers (SqlInt T) (w_db w1) s Hin1) as (j & Hj & Hfst).
    exists (detail_view_of j). split.
    + apply in_map. now apply order_by_In.
    + simpl. now rewrite Hfst.
  - intros v Hv HvS. apply in_map_iff in Hv. destruct Hv as (j & <- & Hj).
    apply order_by_In in Hj. pose proof (left_join_snd _ _ _ Hj) as Hsnd.
    simpl in HvS. rewrite HvS in Hsnd.
    assert (Hsub : forall r, In r (task_details (w_db w)) -> In r (task_details (w_db w1))).
    { intros r Hr. rewrite Hdb. simpl. apply in_or_app. now left. }
    unfold detail_view_of, joined_status, joined_grade.
    destruct (snd j) as [r|].
    + destruct Hsnd as [Hr Hk]. exists r. split; [|split; [exact Hk|split; reflexivity]].
      rewrite Hdb in Hr. simpl in Hr. apply in_app_or in Hr. destruct Hr as [Hr|Hr]; [exact Hr|].
      exfalso. rewrite Forall_forall in Hrows. destruct (Hrows r Hr) as (_ & _ & Hfresh).
      apply same_key_eq in Hk. destruct Hk as [Ht Hs]. rewrite Ht, Hs in Hfresh.
      assert (Hex : existsb (same_key (SqlInt T) S) (task_details (w_db w)) = true).
      { apply existsb_exists. now exists r0. }
      congruence.
    + exfalso. specialize (Hsnd r0 (Hsub r0 Hr0)). congruence.
Qed.

(** What an upsert on the key [(T, S)] leaves in [task_details]. *)
Lemma upsert_detail_rows clk T S st g f w :
  (forall now r, td_task_id (f now r) = td_task_id r /\
                 td_student_id (f now r) = td_student_id r) ->
  let d0 := w_db w in
  let d1 := w_db (snd (upsert_detail clk (SqlInt T) (Some S) st g f w)) in
  fst (upsert_detail clk (SqlInt T) (Some S) st g f w) = inr tt /\
  students d1 = students d0 /\ tasks d1 = tasks d0 /\
  (exists r, In r (task_details d1) /\ same_key (SqlInt T) S r = true) /\
  (forall r, In r (task_details d1) -> same_key (SqlInt T) S r = true ->
     (exists r0, In r0 (task_details d0) /\ same_key (SqlInt T) S r0 = true /\
                 r = f (current_timestamp clk (w_tick w)) r0) \/
     ((forall r0, In r0 (task_details d0) -> same_key (SqlInt T) S r0 = false) /\
      r = mkDetail (next_rowid (seq_task_details d0) (map td_id (task_details d0)))
            (SqlInt T) S st g (current_timestamp clk (w_tick w)))) /\
  (forall r, same_key (SqlInt T) S r = false ->
     (In r (task_details d1) <-> In r (task_details d0))).
Proof.
  intros Hf d0 d1. subst d0 d1.
  rewrite upsert_detail_run by discriminate. cbn [fst snd w_db].
  assert (Hkey : forall now r, same_key (SqlInt T) S (f now r) = same_key (SqlInt T) S r).
  { intros now r. unfold same_key. destruct (Hf now r) as [-> ->]. reflexivity. }
  split; [reflexivity|split; [reflexivity|split; [reflexivity|]]].
  destruct (existsb (same_key (SqlInt T) S) (task_details (w_db w))) eqn:E;
    cbn [set_task_details task_details].
  - apply existsb_exists in E. destruct E as (r0 & Hr0 & Hk0). split; [|split].
    + exists (f (current_timestamp clk (w_tick w)) r0). split; [|now rewrite Hkey].
      apply in_map_iff. exists r0. now rewrite Hk0.
    + intros r Hr Hk. left. apply in_map_iff in Hr. destruct Hr as (r1 & Hr1 & Hin).
      destruct (same_key (SqlInt T) S r1) eqn:E1.
      * exists r1. now repeat split.
      * subst r. congruence.
    + intros r Hk. rewrite in_map_iff. split.
      * intros (r1 & Hr1 & Hin). destruct (same_key (SqlInt T) S r1) eqn:E1.
        -- subst r. rewrite Hkey in Hk. congruence.
        -- now subst r.
      * intros Hin. exists r. now rewrite Hk.
  - assert (Hnone : forall r0, In r0 (task_details (w_db w)) ->
                               same_key (SqlInt T) S r0 = false).
    { intros r0 Hr0. destruct (same_key (SqlInt T) S r0) eqn:E0; [|reflexivity].
      rewrite <- E. symmetry. apply existsb_exists. now exists r0. }
    split; [|split].
    + eexists. split; [apply in_or_app; right; now left|].
      unfold same_key. cbn [td_task_id td_student_id sql_eqb].
      now rewrite Z.eqb_refl, String.eqb_refl.
    + intros r Hr Hk. right. split; [exact Hnone|].
      apply in_app_or in Hr. destruct Hr as [Hr|[<-|[]]]; [|reflexivity].
      rewrite (Hnone r Hr) in Hk. discriminate.
    + intros r Hk. split.
      * intros Hr. apply in_app_or in Hr. destruct Hr as [Hr|[<-|[]]]; [exact Hr|].
        unfold same_key in Hk. cbn [td_task_id td_student_id sql_eqb] in Hk.
        rewrite Z.eqb_refl, String.eqb_refl in Hk. discriminate.
      * intros Hr. apply in_or_app. now left.
Qed.

Lemma submit_student_run clk T S w :
  int64 T = true ->
  submit_student clk (PInt T) (PStr S) w
  = upsert_detail clk (SqlInt T) (Some S) (Some "submitted") None
      (fun now r => mkDetail (td_id r) (td_task_id r) (td_student_id r)
                      (Some "submitted") (td_grade r) now) w.
Proof.
  intros HT. unfold submit_student. cbn [bind_params bind_param]. rewrite HT.
  run_method. cbn [nth integer_affinity text_affinity].
  rewrite upsert_detail_run by discriminate. reflexivity.
Qed.



(** C5 ([submit_student], then [get_task_details]). For a task id [T] (a
    64-bit integer) and a student [S] of a roster whose identifiers are
    distinct, [submit_student(T, S)] returns without raising and leaves
    [students] and [tasks] alone; afterwards a record of key [(T, S)] exists,
    every such record has status [submitted], and it is either a record that
    existed, with its grade as it was, or, when none existed, a new record
    without a grade; the records of other keys are untouched. Then
    [get_task_details(T)] lists [S], each entry for [S] has status
    [submitted], and its grade is null when no record of [(T, S)] had a grade
    before. *)
Theorem submit_student_then_task_details (clk : clock) (T : Z) (S : string) (w : world) :
  int64 T = true ->
  NoDup (map st_student_id (students (w_db w))) ->
  In S (map st_student_id (students (w_db w))) ->
  let d0 := w_db w in
  let w1 := snd (submit_student clk (PInt T) (PStr S) w) in
  fst (submit_student clk (PInt T) (PStr S) w) = inr tt /\
  students (w_db w1) = students d0 /\ tasks (w_db w1) = tasks d0 /\
  (exists r, In r (task_details (w_db w1)) /\ same_key (SqlInt T) S r = true) /\
  (forall r, In r (task_details (w_db w1)) -> same_key (SqlInt T) S r = true ->
     td_status r = Some "submitted" /\
     ((exists r0, In r0 (task_details d0) /\ same_key (SqlInt T) S r0 = true /\
                  td_id r = td_id r0 /\ td_grade r = td_grade r0) \/
      ((forall r0, In r0 (task_details d0) -> same_key (SqlInt T) S r0 = false) /\
       td_grade r = None))) /\
  (forall r, same_key (SqlInt T) S r = false ->
     (In r (task_details (w_db w1)) <-> In r (task_details d0))) /\
  exists details,
    fst (get_task_details clk (PInt T) w1) = inr details /\
    (exists v, In v details /\ dv_student_id v = S) /\
    (forall v, In v details -> dv_student_id v = S ->
       dv_status v = "submitted" /\
       ((forall r0, In r0 (task_details d0) -> same_key (SqlInt T) S r0 = true ->
                    td_grade r0 = None) ->
        dv_grade v = None)).
Proof.
  intros HT Hnd HS d0 w1. subst d0 w1. rewrite (submit_student_run clk T S w HT).
  set (f := fun (now : string) r =>
              mkDetail (td_id r) (td_task_id r) (td_student_id r)
                (Some "submitted") (td_grade r) now).
  destruct (upsert_detail_rows clk T S (Some "submitted") None f w)
    as (Hok & Hst & Htk & Hex & Hrows & Hother); [intros; now split|].
  cbv zeta in *.
  set (w1 := snd (upsert_detail clk (SqlInt T) (Some S) (Some "submitted") None f w)) in *.
  assert (Hrec : forall r, In r (task_details (w_db w1)) -> same_key (SqlInt T) S r = true ->
     td_status r = Some "submitted" /\
     ((exists r0, In r0 (task_details (w_db w)) /\ same_key (SqlInt T) S r0 = true /\
                  td_id r = td_id r0 /\ td_grade r = td_grade r0) \/
      ((forall r0, In r0 (task_details (w_db w)) -> same_key (SqlInt T) S r0 = false) /\
       td_grade r = None))).
  { intros r Hr Hk. destruct (Hrows r Hr Hk) as [(r0 & Hr0 & Hk0 & ->)|(Hnone & ->)].
    - split; [reflexivity|]. left. exists r0. now repeat split.
    - split; [reflexivity|]. right. now split. }
  repeat (split; [assumption|]).
  destruct (get_task_details_view clk T S w1 HT) as (details & Hd & Hlisted & Hview).
  - now rewrite Hst.
  - now rewrite Hst.
  - exact Hex.
  - exists details. split; [exact Hd|split; [exact Hlisted|]].
    intros v Hv HvS. destruct (Hview v Hv HvS) as (r & Hr & Hk & Hstatus & Hgrade).
    destruct (Hrec r Hr Hk) as (Hs & Hg). rewrite Hstatus, Hs. split; [reflexivity|].
    intros Hnograde. rewrite Hgrade.
    destruct Hg as [(r0 & Hr0 & Hk0 & _ & ->)|(_ & ->)]; [now apply Hnograde|reflexivity].
Qed.

Lemma example_roster_distinct : NoDup (map st_student_id (students (w_db example_world))).
Proof. simpl. repeat constructor; simpl; intuition discriminate. Defined.

Lemma submit_student_then_task_details_witness :
  exists details,
    fst (get_task_details example_clock (PInt 1)
           (snd (submit_student example_clock (PInt 1) (PStr "202301") example_world)))
    = inr details /\
    (exists v, In v details /\ dv_student_id v = "202301") /\
    (forall v, In v details -> dv_student_id v = "202301" ->
       dv_status v = "submitted" /\
       ((forall r0, In r0 (task_details (w_db example_world)) ->
                    same_key (SqlInt 1) "202301" r0 = true -> td_grade r0 = None) ->
        dv_grade v = None)).
Proof.
  apply (submit_student_then_task_details example_clock 1 "202301" example_world).
  - reflexivity.
  - exact example_roster_distinct.
  - simpl. auto.
Defined.






(** *** The range query *)

Lemma string_leb_total (a b : string) : String.leb a b = false -> String.leb b a = true.
Proof. intros H. destruct (String.leb_total a b) as [E|E]; [congruence|exact E]. Qed.











Example example_id_range :
  fst (get_students_by_id_range (PStr "202301") (PStr "202305") example_world)
  = inr [zhang; li].
Proof. reflexivity. Qed.


(** *** The dispatcher *)

Section DispatcherFacts.

Context (clk : clock) (refresh_all_pages : M unit) (current_task : option task_dict).

Lemma on_error_returns name body w : exists s w', on_error name body w = (inr s, w').
Proof. unfold on_error. destruct (body w) as [[e|s] w']; eauto. Qed.

(** Once [name] and [args] are there, every fault of a handler comes back as
    a text. *)
Lemma execute_tool_returns_when_parsed tc f a args w :
  tc_function tc = Some f ->
  fn_arguments f = Some a ->
  json_loads a = inr args ->
  exists s w', _execute_tool clk refresh_all_pages current_task tc w = (inr s, w').
Proof.
  intros Hf Ha Hj. unfold _execute_tool. rewrite Hf. run_method. rewrite Ha, Hj.
  apply on_error_returns.
Qed.

End DispatcherFacts.

(** A call whose arguments were cut off before the closing brace. *)
Definition truncated_call : tool_call :=
  mkToolCall 0 (Some "call_0")
    (Some (mkFunction (Some "get_student_info") (Some (json_text "{'student_id': '202301'")))).

Definition unknown_call : tool_call :=
  mkToolCall 0 (Some "call_1") (Some (mkFunction (Some "drop_table") (Some "{}"))).

Definition incomplete_call : tool_call :=
  mkToolCall 0 (Some "call_2") (Some (mkFunction (Some "set_student_grade")
                                        (Some (json_text "{'student_id': '202301'}")))).

(** C2 at its failing input. [json.loads] runs before the [try]: on
    arguments that are not JSON the dispatcher raises [JSONDecodeError] to its
    caller and returns no text, in any state and whatever the callbacks. An
    unknown name and a missing field, which are met inside the [try], do come
    back as texts. *)
Theorem execute_tool_raises_on_malformed_arguments
    (clk : clock) (refresh_all_pages : M unit) (current_task : option task_dict) (w : world) :
  _execute_tool clk refresh_all_pages current_task truncated_call w
  = (inl (mkExn JSONDecodeError "Expecting ',' delimiter"), w) /\
  _execute_tool clk refresh_all_pages current_task unknown_call w
  = (inr "未知工具: drop_table", w) /\
  _execute_tool clk refresh_all_pages (Some (task_of_row task1)) incomplete_call w
  = (inr "执行工具 set_student_grade 时出错: 'grade'", w).
Proof. repeat split. Qed.

(** *** The session *)


Definition content_chunk (text : string) : chunk :=
  mkChunk [mkChoice (Some (mkDelta (Some text) None)) None].

Lemma emit_messages sg s : messages (emit sg s) = messages s.
Proof. now destruct sg. Qed.

Lemma emit_cancelled sg s : cancelled (emit sg s) = cancelled s.
Proof. now destruct sg. Qed.

Lemma emit_flag_reads sg s : flag_reads (emit sg s) = flag_reads s.
Proof. now destruct sg. Qed.

Lemma process_chunk_session c acc s r s' :
  process_chunk c acc s = (r, s') ->
  messages s' = messages s /\ cancelled s' = cancelled s /\ flag_reads s' = flag_reads s.
Proof.
  unfold process_chunk. destruct (choices c) as [|ch l].
  - intros H. inversion H. now subst.
  - destruct (choice_delta ch) as [d|].
    + destruct (delta_content d) as [t|].
      * destruct (String.eqb t "");
          (destruct (delta_tool_calls d) as [[|tc tcs]|];
           [intros H; inversion H; subst; now rewrite ?emit_messages
           |destruct (merge_tool_calls _ _); intros H; inversion H; subst;
            now rewrite ?emit_messages
           |intros H; inversion H; subst; now rewrite ?emit_messages]).
      * destruct (delta_tool_calls d) as [[|tc tcs]|];
          [intros H; inversion H; now subst
          |destruct (merge_tool_calls _ _); intros H; inversion H; now subst
          |intros H; inversion H; now subst].
    + intros H. inversion H. now subst.
Qed.

Section SessionFacts.

Context (clk : clock) (refresh_all_pages : M unit) (current_task : option task_dict).
Context (system_prompt : string) (include_context : bool).

Lemma read_cancelled_messages cancel_at s :
  messages (snd (read_cancelled cancel_at s)) = messages s.
Proof. unfold read_cancelled. destruct cancel_at as [k|]; [destruct (Nat.eqb k _)|]; reflexivity. Qed.

Lemma consume_messages cancel_at items : forall acc s r s',
  consume cancel_at items acc s = (r, s') -> messages s' = messages s.
Proof.
  induction items as [|[c|e] items IH]; intros acc s r s' H; cbn [consume] in H.
  - inversion H. now subst.
  - pose proof (read_cancelled_messages cancel_at s) as Hm.
    destruct (read_cancelled cancel_at s) as [stop s1]. simpl in Hm.
    destruct stop.
    + inversion H. now subst.
    + destruct (process_chunk c acc s1) as [[e|acc'] s2] eqn:E;
        apply process_chunk_session in E; destruct E as (E & _).
      * inversion H. subst. congruence.
      * apply IH in H. congruence.
  - inversion H. now subst.
Qed.




End SessionFacts.

Definition idle_session : session := mkSession [] false false [] [] 0.

Definition two_chunks : list stream_item :=
  [Chunk (content_chunk "Hel"); Chunk (content_chunk "lo")].





(** *** The UNIQUE constraint of the roster

    The theorems about [get_task_details] assume that the identifiers of the
    roster are distinct. SQLite enforces it ([student_id TEXT UNIQUE]); in the
    model it holds of the empty store and every method that writes to
    [students] keeps it. *)

Definition roster_distinct (d : db) : Prop := NoDup (map st_student_id (students d)).

Lemma roster_distinct_empty : roster_distinct (mkDb [] [] [] 0 0 0).
Proof. constructor. Qed.

Lemma NoDup_map_filter {A B} (f : A -> B) (g : A -> bool) (l : list A) :
  NoDup (map f l) -> NoDup (map f (filter g l)).
Proof.
  induction l as [|x l IH]; simpl; intros H; [constructor|].
  inversion H as [|y l' Hnotin Hnd]; subst.
  destruct (g x); simpl; [|now apply IH].
  constructor; [|now apply IH].
  intros Hin. apply Hnotin. apply in_map_iff in Hin. destruct Hin as (z & Hz & Hin).
  apply filter_In in Hin. apply in_map_iff. exists z. tauto.
Qed.

Lemma map_id_update (upd : student_row -> student_row) (test : student_row -> bool) l :
  (forall s, st_student_id (upd s) = st_student_id s) ->
  map st_student_id (map (fun s => if test s then upd s else s) l) = map st_student_id l.
Proof.
  intros H. rewrite map_map. apply map_ext. intros s. destruct (test s); [apply H|reflexivity].
Qed.

Lemma existsb_id_In sid (l : list student_row) :
  existsb (fun s => String.eqb (st_student_id s) sid) l = true <->
  In sid (map st_student_id l).
Proof.
  rewrite existsb_exists, in_map_iff. split; intros (s & H1 & H2); exists s.
  - apply String.eqb_eq in H2. now split.
  - split; [exact H2|now apply String.eqb_eq].
Qed.

Lemma add_student_roster_distinct clk student_id name class_ w :
  roster_distinct (w_db w) ->
  roster_distinct (w_db (snd (add_student clk student_id name class_ w))).
Proof.
  intros Hnd. unfold add_student. run_method.
  destruct (bind_params [student_id; name; class_]) as [e|ps]; [exact Hnd|]. run_method.
  destruct (text_affinity (nth 0 ps SqlNull)) as [sid|]; [|exact Hnd]. run_method.
  destruct (text_affinity (nth 1 ps SqlNull)) as [nm|]; [|exact Hnd]. run_method.
  destruct (text_affinity (nth 2 ps SqlNull)) as [cl|]; [|exact Hnd]. run_method.
  cbn [w_db w_tick].
  destruct (existsb (fun s => String.eqb (st_student_id s) sid) (students (w_db w))) eqn:E;
    run_method; unfold roster_distinct, set_students; cbn [snd w_db students].
  - rewrite (map_id_update
               (fun s => mkStudent (st_id s) (st_student_id s) nm cl (st_created_at s))
               (fun s => String.eqb (st_student_id s) sid)); [exact Hnd|reflexivity].
  - rewrite map_app. cbn [map st_student_id].
    apply NoDup_app; [exact Hnd|repeat constructor; intros []|].
    intros x Hx [<-|[]]. apply existsb_id_In in Hx. congruence.
Qed.

Lemma delete_student_roster_distinct student_id w :
  roster_distinct (w_db w) ->
  roster_distinct (w_db (snd (delete_student student_id w))).
Proof.
  intros Hnd. unfold delete_student. run_method.
  destruct (bind_param student_id) as [e|p]; [exact Hnd|].
  unfold roster_distinct, set_students, set_task_details. cbn [snd w_db students].
  now apply NoDup_map_filter.
Qed.

Lemma update_column_roster_distinct set column value student_id w :
  (forall v s, st_student_id (set v s) = st_student_id s) ->
  roster_distinct (w_db w) ->
  roster_distinct (w_db (snd (update_column set column value student_id w))).
Proof.
  intros Hset Hnd. unfold update_column. run_method.
  destruct (bind_params [value; student_id]) as [e|ps]; [exact Hnd|]. run_method.
  destruct (existsb _ (students (w_db w))); [|exact Hnd]. run_method.
  destruct (text_affinity (nth 0 ps SqlNull)) as [v|]; [|exact Hnd].
  unfold roster_distinct, set_students. cbn [snd w_db students].
  rewrite (map_id_update (set v)
             (fun s => text_eqb (st_student_id s) (text_affinity (nth 1 ps SqlNull))));
    [exact Hnd|apply Hset].
Qed.

Lemma update_student_roster_distinct student_id name class_ w :
  roster_distinct (w_db w) ->
  roster_distinct (w_db (snd (update_student student_id name class_ w))).
Proof.
  intros Hnd. unfold update_student, get_connection, bind.
  set (first := if is_none name then ret tt else update_column _ _ name student_id).
  set (second := if is_none class_ then ret tt else update_column _ _ class_ student_id).
  assert (H1 : roster_distinct (w_db (snd (first w)))).
  { subst first. destruct (is_none name); [exact Hnd|].
    now apply update_column_roster_distinct. }
  destruct (first w) as [[e|[]] w1]; [exact Hnd|]. cbn [snd] in H1.
  assert (H2 : roster_distinct (w_db (snd (second w1)))).
  { subst second. destruct (is_none class_); [exact H1|].
    now apply update_column_roster_distinct. }
  destruct (second w1) as [[e|[]] w2]; [exact Hnd|exact H2].
Qed.

(** The ledger methods do not write to [students] at all. *)
Lemma ledger_roster_distinct clk task_id student_id grade w :
  roster_distinct (w_db w) ->
  roster_distinct (w_db (snd (ensure_task_students clk task_id w))) /\
  roster_distinct (w_db (snd (submit_student clk task_id student_id w))) /\
  roster_distinct (w_db (snd (set_grade clk task_id student_id grade w))).
Proof.
  intros Hnd. split; [|split].
  - destruct (ensure_task_students_frame clk task_id w) as (rows & seq' & -> & _). exact Hnd.
  - unfold submit_student, upsert_detail. run_method.
    destruct (bind_params [task_id; student_id]) as [e|ps]; [exact Hnd|]. run_method.
    destruct (integer_affinity (nth 0 ps SqlNull)); [exact Hnd| | |];
      (destruct (text_affinity (nth 1 ps SqlNull)); [|exact Hnd]);
      cbn [w_db w_tick]; (destruct (existsb _ _)); exact Hnd.
  - unfold set_grade, upsert_detail. run_method.
    destruct (bind_params [task_id; student_id; grade]) as [e|ps]; [exact Hnd|]. run_method.
    destruct (integer_affinity (nth 0 ps SqlNull)); [exact Hnd| | |];
      (destruct (text_affinity (nth 1 ps SqlNull)); [|exact Hnd]);
      cbn [w_db w_tick]; (destruct (existsb _ _)); exact Hnd.
Qed.

(* ================================================================== *)
(** ** Further properties of the roster *)
(* ================================================================== *)

(** [WHERE student_id = ?] for a [str]. *)
Definition has_id (sid : string) (s : student_row) : bool := String.eqb (st_student_id s) sid.


Lemma add_student_run clk sid name cls w :
  add_student clk (PStr sid) (PStr name) (PStr cls) w
  = let d := w_db w in
    let id := next_rowid (seq_students d) (map st_id (students d)) in
    if existsb (has_id sid) (students d)
    then (inr 0,
          mkWorld (set_students d
                     (map (fun s => if has_id sid s
                                    then mkStudent (st_id s) (st_student_id s) name cls
                                           (st_created_at s)
                                    else s) (students d)) id)
            (S (w_tick w)))
    else (inr id,
          mkWorld (set_students d
                     (students d ++ [mkStudent id sid name cls (current_timestamp clk (w_tick w))])
                     id)
            (S (w_tick w))).
Proof.
  unfold add_student. cbn [bind_params bind_param]. run_method.
  cbn [nth text_affinity w_db w_tick]. unfold has_id.
  destruct (existsb _ (students (w_db w))); reflexivity.
Qed.





Lemma find_app_none {A} (p : A -> bool) (l l' : list A) :
  find p l = None -> find p (l ++ l') = find p l'.
Proof.
  induction l as [|x l IH]; simpl; [reflexivity|].
  destruct (p x); [discriminate|exact IH].
Qed.





(** X2 (the roster keeps distinct identifiers). Whatever their arguments,
    [add_student], [update_student] and [delete_student] leave a roster
    without two rows of one identifier when they start from one. *)
Theorem roster_stays_distinct (clk : clock) (student_id name class_ : pyval) (w : world) :
  roster_distinct (w_db w) ->
  roster_distinct (w_db (snd (add_student clk student_id name class_ w))) /\
  roster_distinct (w_db (snd (update_student student_id name class_ w))) /\
  roster_distinct (w_db (snd (delete_student student_id w))).
Proof.
  intros H. split; [|split].
  - now apply add_student_roster_distinct.
  - now apply update_student_roster_distinct.
  - now apply delete_student_roster_distinct.
Qed.

Lemma roster_stays_distinct_witness :
  roster_distinct
    (w_db (snd (add_student example_clock (PStr "202301") (PStr "Zhang San") (PStr "2023班")
                  example_world))).
Proof.
  apply (roster_stays_distinct example_clock (PStr "202301") (PStr "Zhang San") (PStr "2023班")
           example_world).
  exact example_roster_distinct.
Defined.












(** *** Listings of the roster *)




(** *** Tasks and dates *)

Lemma string_compare_lt_trans : forall a b c : string,
  String.compare a b = Lt -> String.compare b c = Lt -> String.compare a c = Lt.
Proof.
  induction a as [|x a IH]; intros [|y b] [|z c]; cbn [String.compare]; try discriminate;
    try reflexivity.
  unfold Ascii.compare.
  destruct (N.compare (N_of_ascii x) (N_of_ascii y)) eqn:Exy; try discriminate;
    destruct (N.compare (N_of_ascii y) (N_of_ascii z)) eqn:Eyz; try discriminate; intros H1 H2.
  - apply N.compare_eq_iff in Exy, Eyz. rewrite Exy, Eyz, N.compare_refl. now apply (IH b c).
  - apply N.compare_eq_iff in Exy. now rewrite Exy, Eyz.
  - apply N.compare_eq_iff in Eyz. now rewrite <- Eyz, Exy.
  - assert (E : N.compare (N_of_ascii x) (N_of_ascii z) = Lt).
    { apply N.compare_lt_iff.
      apply (N.lt_trans _ (N_of_ascii y)); apply N.compare_lt_iff; assumption. }
    now rewrite E.
Qed.

Lemma string_leb_trans (a b c : string) :
  String.leb a b = true -> String.leb b c = true -> String.leb a c = true.
Proof.
  unfold String.leb. intros H1 H2.
  destruct (String.compare a b) eqn:Eab; try discriminate.
  - apply String.compare_eq_iff in Eab. now subst.
  - destruct (String.compare b c) eqn:Ebc; try discriminate.
    + apply String.compare_eq_iff in Ebc. subst. now rewrite Eab.
    + now rewrite (string_compare_lt_trans a b c Eab Ebc).
Qed.

Lemma sorted_head_first {A} (le : A -> A -> bool) (x : A) (l : list A) :
  (forall a b c, le a b = true -> le b c = true -> le a c = true) ->
  Sorted (fun a b => le a b = true) (x :: l) ->
  forall y, In y l -> le x y = true.
Proof.
  intros Htr Hs y Hy.
  apply Sorted_StronglySorted in Hs; [|intros a b c; apply Htr].
  inversion Hs as [|? ? _ Hall]; subst. rewrite Forall_forall in Hall. now apply Hall.
Qed.

(** X6 ([get_current_task] returns the latest task). When [tasks] is not
    empty, [get_current_task] reads only and returns a task of the table
    whose date no other task exceeds, in the order of the bytes of the
    dates. *)
Theorem get_current_task_latest (clk : clock) (w : world) :
  tasks (w_db w) <> [] ->
  exists t,
    get_current_task clk w = (inr (task_of_row t), w) /\
    In t (tasks (w_db w)) /\
    forall t', In t' (tasks (w_db w)) -> String.leb (tk_date t') (tk_date t) = true.
Proof.
  intros Hne. unfold get_current_task. run_method.
  pose proof (order_by_perm task_date_ge (tasks (w_db w))) as Hperm.
  pose proof (order_by_sorted task_date_ge
                (fun a b => string_leb_total (tk_date b) (tk_date a)) (tasks (w_db w))) as Hs.
  destruct (order_by task_date_ge (tasks (w_db w))) as [|t ts] eqn:E.
  - apply Permutation_sym, Permutation_nil in Hperm. contradiction.
  - exists t. split; [now destruct w|]. split.
    + eapply Permutation_in; [apply Permutation_sym, Hperm|now left].
    + intros t' Ht'. apply (Permutation_in _ Hperm) in Ht'. destruct Ht' as [<-|Ht'].
      * destruct (String.leb_total (tk_date t) (tk_date t)); assumption.
      * apply (sorted_head_first task_date_ge t ts); [|exact Hs|exact Ht'].
        intros a b c H1 H2. unfold task_date_ge in *.
        exact (string_leb_trans _ _ _ H2 H1).
Qed.

Lemma get_current_task_latest_witness :
  exists t,
    get_current_task example_clock example_world = (inr (task_of_row t), example_world) /\
    In t (tasks (w_db example_world)) /\
    forall t', In t' (tasks (w_db example_world)) -> String.leb (tk_date t') (tk_date t) = true.
Proof.
  apply (get_current_task_latest example_clock example_world). simpl. discriminate.
Defined.

Definition has_date (date : string) (t : task_row) : bool := String.eqb (tk_date t) date.

Lemma get_or_create_today_task_run clk w :
  get_or_create_today_task clk w
  = let today := date_today clk (w_tick w) in
    match find (has_date today) (tasks (w_db w)) with
    | Some t => (inr (task_of_row t), mkWorld (w_db w) (S (w_tick w)))
    | None =>
        let id := next_rowid (seq_tasks (w_db w)) (map tk_id (tasks (w_db w))) in
        let name := ("作业-" ++ today)%string in
        (inr (mkTaskDict id name today None),
         mkWorld (set_tasks (w_db w)
                    (tasks (w_db w)
                       ++ [mkTask id name today (current_timestamp clk (S (w_tick w)))]) id)
           (S (S (w_tick w))))
    end.
Proof.
  unfold get_or_create_today_task. run_method. cbn [w_db w_tick]. unfold has_date.
  destruct (find _ (tasks (w_db w))); reflexivity.
Qed.

(** X7 (one task a day). [get_or_create_today_task] never raises and writes
    to [tasks] only; the task it returns carries the date of today and is a
    row of the table afterwards. A second call while the date is the same
    returns the task of the same id and writes nothing. The table never gets
    a second task of one date from it. *)
Theorem get_or_create_today_task_per_day (clk : clock) (w : world) :
  let r1 := get_or_create_today_task clk w in
  let r2 := get_or_create_today_task clk (snd r1) in
  students (w_db (snd r1)) = students (w_db w) /\
  task_details (w_db (snd r1)) = task_details (w_db w) /\
  (exists task row,
      fst r1 = inr task /\ task_date_of task = date_today clk (w_tick w) /\
      In row (tasks (w_db (snd r1))) /\
      tk_id row = task_id_of task /\ tk_date row = task_date_of task /\
      tk_name row = task_name_of task /\
      (date_today clk (w_tick (snd r1)) = date_today clk (w_tick w) ->
       exists task2,
         fst r2 = inr task2 /\ task_id_of task2 = task_id_of task /\
         w_db (snd r2) = w_db (snd r1))) /\
  (NoDup (map tk_date (tasks (w_db w))) -> NoDup (map tk_date (tasks (w_db (snd r1))))).
Proof.
  intros r1 r2. subst r1 r2. rewrite (get_or_create_today_task_run clk w). cbv zeta.
  set (today := date_today clk (w_tick w)).
  destruct (find (has_date today) (tasks (w_db w))) as [t|] eqn:Ef; cbn [fst snd w_db w_tick].
  - split; [reflexivity|split; [reflexivity|split]]; [|auto].
    pose proof (find_some _ _ Ef) as [Hin Hd]. unfold has_date in Hd. apply String.eqb_eq in Hd.
    exists (task_of_row t), t. cbn [task_of_row task_date_of task_id_of task_name_of].
    split; [reflexivity|]. split; [exact Hd|]. split; [exact Hin|].
    split; [reflexivity|]. split; [reflexivity|]. split; [reflexivity|].
    intros Hsame. rewrite get_or_create_today_task_run. cbv zeta. cbn [w_db w_tick].
    rewrite Hsame. fold today. rewrite Ef. cbn. eexists. repeat split.
  - split; [reflexivity|split; [reflexivity|split]].
    + eexists. eexists. split; [reflexivity|]. cbn [task_date_of task_id_of task_name_of].
      split; [reflexivity|]. split; [|split; [|split; [|split]]].
      * cbn. apply in_or_app. right. now left.
      * reflexivity.
      * reflexivity.
      * reflexivity.
      * intros Hsame. rewrite get_or_create_today_task_run. cbv zeta. cbn [w_db w_tick].
        rewrite Hsame. fold today. cbn [set_tasks tasks].
        rewrite (find_app_none _ _ _ Ef). unfold has_date. cbn [find tk_date].
        rewrite String.eqb_refl. cbn [fst snd w_db]. eexists. repeat split.
    + intros Hnd. cbn. rewrite map_app. cbn.
      apply NoDup_app; [exact Hnd|repeat constructor; intros []|].
      intros x Hx [<-|[]]. apply in_map_iff in Hx. destruct Hx as (t & Ht & Hin).
      pose proof (find_none _ _ Ef t Hin) as Hf. unfold has_date in Hf.
      rewrite Ht, String.eqb_refl in Hf. discriminate.
Qed.

(** X8 ([clear_all_data]). [clear_all_data] never raises and leaves the
    three tables empty and the AUTOINCREMENT counters forgotten: the task
    that [get_or_create_today_task] creates next has id 1 and an empty
    listing, it is the task [get_task_by_id(1)] finds, and the next student
    added gets rowid 1. *)
Theorem clear_all_data_resets (clk : clock) (w : world) :
  let w1 := snd (clear_all_data w) in
  fst (clear_all_data w) = inr tt /\
  w_db w1 = empty_db /\
  (exists task,
      fst (get_or_create_today_task clk w1) = inr task /\ task_id_of task = 1 /\
      fst (get_task_details clk (PInt 1) (snd (get_or_create_today_task clk w1))) = inr [] /\
      exists row,
        fst (get_task_by_id (PInt 1) (snd (get_or_create_today_task clk w1))) = inr (Some row) /\
        tk_date row = task_date_of task /\ tk_name row = task_name_of task) /\
  (forall sid name cls, fst (add_student clk (PStr sid) (PStr name) (PStr cls) w1) = inr 1).
Proof.
  intros w1. subst w1. unfold clear_all_data. run_method. cbn [fst snd w_db w_tick].
  unfold set_task_details, set_tasks, set_students.
  cbn [students tasks task_details seq_students seq_tasks seq_task_details].
  split; [reflexivity|split; [reflexivity|split]].
  - rewrite get_or_create_today_task_run. cbn. eexists. repeat split.
    eexists. repeat split.
  - intros sid name cls. rewrite add_student_run. reflexivity.
Qed.

(** X9 ([get_tasks_in_date_range]). For bounds that are texts SQLite does
    not read as numbers, as ISO dates are, the call reads only and returns
    exactly the tasks whose date lies between the bounds, both included, in
    the order of the bytes, sorted by ascending date. A bound that reads as
    an integer comes before every date: as the upper bound it selects
    nothing. *)
Theorem get_tasks_in_date_range_spec (start_date end_date : string) (w : world) :
  integer_affinity (SqlText start_date) = SqlText start_date ->
  (exists rows,
      (integer_affinity (SqlText end_date) = SqlText end_date ->
       get_tasks_in_date_range (PStr start_date) (PStr end_date) w = (inr rows, w) /\
       (forall t, In t rows <->
                  In t (tasks (w_db w)) /\
                  String.leb start_date (tk_date t) = true /\
                  String.leb (tk_date t) end_date = true) /\
       Sorted (fun a b => String.leb (tk_date a) (tk_date b) = true) rows)) /\
  (forall z, integer_affinity (SqlText end_date) = SqlInt z ->
             get_tasks_in_date_range (PStr start_date) (PStr end_date) w = (inr [], w)).
Proof.
  intros Hs. split.
  - exists (order_by task_date_le
              (filter (fun t => String.leb start_date (tk_date t)
                                && String.leb (tk_date t) end_date) (tasks (w_db w)))).
    intros He. split; [|split].
    + unfold get_tasks_in_date_range. cbn [bind_params bind_param]. run_method.
      cbn [nth]. rewrite Hs, He. cbn [date_ge date_le]. now destruct w.
    + intros t. rewrite order_by_In, filter_In, andb_true_iff. tauto.
    + apply (order_by_sorted task_date_le). intros a b. apply string_leb_total.
  - intros z He. unfold get_tasks_in_date_range. cbn [bind_params bind_param]. run_method.
    cbn [nth]. rewrite Hs, He. cbn [date_ge date_le].
    assert (Hnil : filter (fun t : task_row => String.leb start_date (tk_date t) && false)
                     (tasks (w_db w)) = []).
    { apply filter_none. intros t _. apply andb_false_r. }
    rewrite Hnil. now destruct w.
Qed.

Lemma get_tasks_in_date_range_spec_witness :
  get_tasks_in_date_range (PStr "2024-01-01") (PStr "2025") example_world
  = (inr [], example_world).
Proof.
  apply (proj2 (get_tasks_in_date_range_spec "2024-01-01" "2025" example_world eq_refl) 2025).
  reflexivity.
Defined.

(* ================================================================== *)
(** ** Further properties of the ledger *)
(* ================================================================== *)

(** The constraints SQLite keeps on [task_details]: [task_id] is NOT NULL and
    [(task_id, student_id)] is UNIQUE. *)
Definition keys_distinct (d : db) : Prop :=
  NoDup (map detail_key (task_details d)) /\
  Forall (fun r => td_task_id r <> SqlNull) (task_details d).

Lemma same_key_refl r : td_task_id r <> SqlNull ->
  same_key (td_task_id r) (td_student_id r) r = true.
Proof. intros H. unfold same_key. now rewrite (sql_eqb_refl _ H), String.eqb_refl. Qed.

Lemma key_in_existsb tid sid (l : list detail_row) :
  tid <> SqlNull -> In (tid, sid) (map detail_key l) -> existsb (same_key tid sid) l = true.
Proof.
  intros Hnn Hin. apply in_map_iff in Hin. destruct Hin as (r & Hk & Hr).
  apply existsb_exists. exists r. split; [exact Hr|].
  unfold detail_key in Hk. inversion Hk; subst. now apply same_key_refl.
Qed.

Lemma keys_distinct_append d rows seq :
  keys_distinct d ->
  NoDup (map detail_key rows) ->
  Forall (fun r => td_task_id r <> SqlNull) rows ->
  (forall r, In r rows ->
     existsb (same_key (td_task_id r) (td_student_id r)) (task_details d) = false) ->
  keys_distinct (set_task_details d (task_details d ++ rows) seq).
Proof.
  intros [Hnd Hnn] Hrows Hrnn Hfresh. split; cbn [set_task_details task_details].
  - rewrite map_app. apply NoDup_app; [exact Hnd|exact Hrows|].
    intros [tid sid] Hin Hin'. apply in_map_iff in Hin'. destruct Hin' as (r & Hk & Hr).
    inversion Hk; subst. rewrite Forall_forall in Hrnn.
    specialize (Hfresh r Hr).
    rewrite (key_in_existsb _ _ _ (Hrnn r Hr) Hin) in Hfresh. discriminate.
  - apply Forall_app. now split.
Qed.

Lemma insert_missing_keys clk tid sids : forall w w',
  insert_missing clk tid sids w = (inr tt, w') ->
  keys_distinct (w_db w) -> keys_distinct (w_db w').
Proof.
  induction sids as [|sid sids IH]; intros w w' H Hk; cbn [insert_missing] in H.
  - unfold ret in H. inversion H. now subst.
  - unfold bind in H.
    destruct (insert_detail clk tid (Some sid) (Some "missing") w) as [[e|[]] w1] eqn:E1;
      [discriminate|].
    apply insert_detail_ok in E1. destruct E1 as (Hnn & Hfresh & ->).
    apply IH in H; [exact H|]. cbn [w_db].
    apply keys_distinct_append; [exact Hk| | |].
    + repeat constructor. intros [].
    + repeat constructor. exact Hnn.
    + intros r [<-|[]]. exact Hfresh.
Qed.

Lemma ensure_task_students_keys clk task_id w :
  keys_distinct (w_db w) -> keys_distinct (w_db (snd (ensure_task_students clk task_id w))).
Proof.
  intros Hk. rewrite ensure_task_students_unfold.
  destruct (bind_param task_id) as [e|p]; [exact Hk|]. cbv zeta.
  destruct (Nat.ltb _ _); [|exact Hk].
  destruct (missing_ids_of (integer_affinity p) (w_db w)) as [|m ms]; [exact Hk|].
  destruct (insert_missing clk (integer_affinity p) (m :: ms) w) as [[e|[]] w1] eqn:E;
    [exact Hk|].
  now apply (insert_missing_keys _ _ _ _ _ E).
Qed.

Lemma upsert_detail_keys clk tid sid st g f w :
  (forall now r, td_task_id (f now r) = td_task_id r /\
                 td_student_id (f now r) = td_student_id r) ->
  keys_distinct (w_db w) ->
  keys_distinct (w_db (snd (upsert_detail clk tid sid st g f w))).
Proof.
  intros Hf Hk. unfold upsert_detail. run_method.
  destruct tid as [|z|x|t]; [exact Hk| | |];
    (destruct sid as [sid|]; [|exact Hk]); cbn [w_db w_tick snd];
    (destruct (existsb _ (task_details (w_db w))) eqn:E; cbn [snd w_db];
     [ destruct Hk as [Hnd Hnn]; split; cbn [set_task_details task_details];
       [ rewrite map_map;
         rewrite (map_ext _ detail_key); [exact Hnd|];
         intros r; unfold detail_key;
         match goal with |- context [if ?c then _ else _] => destruct c end;
         [destruct (Hf (current_timestamp clk (w_tick w)) r) as [-> ->]; reflexivity|reflexivity]
       | rewrite Forall_map; rewrite Forall_forall in *; intros r Hr;
         match goal with |- context [if ?c then _ else _] => destruct c end;
         [destruct (Hf (current_timestamp clk (w_tick w)) r) as [-> _]|]; now apply Hnn ]
     | apply keys_distinct_append;
       [ exact Hk
       | repeat constructor; intros []
       | repeat constructor; discriminate
       | intros r [<-|[]]; exact E ] ]).
Qed.

(** X10 (the UNIQUE constraint of the records). [ensure_task_students],
    [submit_student], [set_grade] and [delete_student], whatever their
    arguments, leave a table of records without two rows of one
    [(task_id, student_id)] and without a NULL [task_id] when they start from
    one. *)
Theorem records_stay_distinct (clk : clock) (task_id student_id grade : pyval) (w : world) :
  keys_distinct (w_db w) ->
  keys_distinct (w_db (snd (ensure_task_students clk task_id w))) /\
  keys_distinct (w_db (snd (submit_student clk task_id student_id w))) /\
  keys_distinct (w_db (snd (set_grade clk task_id student_id grade w))) /\
  keys_distinct (w_db (snd (delete_student student_id w))).
Proof.
  intros Hk. split; [|split; [|split]].
  - now apply ensure_task_students_keys.
  - unfold submit_student, get_connection, bind, lift.
    destruct (bind_params [task_id; student_id]) as [e|ps]; [exact Hk|]. unfold ret.
    pose proof (upsert_detail_keys clk (integer_affinity (nth 0 ps SqlNull))
                  (text_affinity (nth 1 ps SqlNull)) (Some "submitted") None
                  (fun now r => mkDetail (td_id r) (td_task_id r) (td_student_id r)
                                  (Some "submitted") (td_grade r) now) w
                  (fun _ _ => conj eq_refl eq_refl) Hk) as H.
    destruct (upsert_detail _ _ _ _ _ _ w) as [[e|[]] w1]; [exact Hk|exact H].
  - unfold set_grade, get_connection, bind, lift.
    destruct (bind_params [task_id; student_id; grade]) as [e|ps]; [exact Hk|]. unfold ret.
    cbv zeta.
    pose proof (upsert_detail_keys clk (integer_affinity (nth 0 ps SqlNull))
                  (text_affinity (nth 1 ps SqlNull)) (Some "submitted")
                  (text_affinity (nth 2 ps SqlNull))
                  (fun now r => mkDetail (td_id r) (td_task_id r) (td_student_id r)
                                  (Some "submitted") (text_affinity (nth 2 ps SqlNull)) now) w
                  (fun _ _ => conj eq_refl eq_refl) Hk) as H.
    destruct (upsert_detail _ _ _ _ _ _ w) as [[e|[]] w1]; [exact Hk|exact H].
  - unfold delete_student. run_method.
    destruct (bind_param student_id) as [e|p]; [exact Hk|].
    cbn [snd w_db]. unfold set_students, set_task_details. destruct Hk as [Hnd Hnn].
    split; cbn [task_details].
    + now apply NoDup_map_filter.
    + rewrite Forall_forall in *. intros r Hr. apply filter_In in Hr. now apply Hnn.
Qed.

Lemma example_keys_distinct : keys_distinct (w_db submitted_world).
Proof.
  split; cbn.
  - repeat constructor. intros [].
  - repeat constructor. discriminate.
Defined.

Lemma records_stay_distinct_witness :
  keys_distinct
    (w_db (snd (submit_student example_clock (PInt 1) (PStr "202302") submitted_world))).
Proof.
  apply (records_stay_distinct example_clock (PInt 1) (PStr "202302") PNone submitted_world).
  exact example_keys_distinct.
Defined.

(** The records of a task all belong to students of the roster. Nothing in
    the schema that is enforced says so: [submit_student] on an unknown
    identifier and [delete_student] on a roster with duplicates break it. *)
Definition no_orphans (tid : sqlval) (d : db) : Prop :=
  forall r, In r (task_details d) -> td_task_id r = tid ->
            In (td_student_id r) (map st_student_id (students d)).

Lemma of_task_eq tid r : of_task tid r = true -> td_task_id r = tid.
Proof. apply sql_eqb_eq. Qed.

Lemma task_ids_NoDup tid (l : list detail_row) :
  NoDup (map detail_key l) -> NoDup (map td_student_id (filter (of_task tid) l)).
Proof.
  induction l as [|r l IH]; cbn [map filter]; intros H; [constructor|].
  inversion H as [|k ks Hnotin Hnd]; subst.
  destruct (of_task tid r) eqn:E; [|now apply IH].
  cbn [map]. constructor; [|now apply IH].
  intros Hin. apply Hnotin. apply in_map_iff in Hin. destruct Hin as (r' & Hs & Hr').
  apply filter_In in Hr'. destruct Hr' as [Hr' E'].
  apply in_map_iff. exists r'. split; [|exact Hr'].
  unfold detail_key. now rewrite Hs, (of_task_eq _ _ E), (of_task_eq _ _ E').
Qed.

Lemma task_ids_In tid sid (l : list detail_row) :
  tid <> SqlNull ->
  In sid (map td_student_id (filter (of_task tid) l)) <->
  exists r, In r l /\ td_task_id r = tid /\ td_student_id r = sid.
Proof.
  intros Hnn. rewrite in_map_iff. split.
  - intros (r & Hs & Hr). apply filter_In in Hr. destruct Hr as [Hr E].
    exists r. split; [exact Hr|]. split; [now apply of_task_eq|exact Hs].
  - intros (r & Hr & Ht & Hs). exists r. split; [exact Hs|]. apply filter_In.
    split; [exact Hr|]. unfold of_task. rewrite Ht. now apply sql_eqb_refl.
Qed.

(** When every record of the task belongs to a student of the roster and
    every student has a record, the number of records of the task is the
    size of the roster. *)
Lemma covered_count tid d :
  tid <> SqlNull ->
  roster_distinct d -> keys_distinct d -> no_orphans tid d ->
  (forall s, In s (students d) ->
     exists r, In r (task_details d) /\ td_task_id r = tid /\
               td_student_id r = st_student_id s) ->
  List.length (filter (of_task tid) (task_details d)) = List.length (students d).
Proof.
  intros Hnn Hnd [Hk _] Hno Hcov.
  rewrite <- (length_map td_student_id), <- (length_map st_student_id (students d)).
  apply Nat.le_antisymm; apply NoDup_incl_length.
  - now apply task_ids_NoDup.
  - intros sid Hin. apply (task_ids_In _ _ _ Hnn) in Hin.
    destruct Hin as (r & Hr & Ht & <-). now apply Hno.
  - exact Hnd.
  - intros sid Hin. apply in_map_iff in Hin. destruct Hin as (s & <- & Hs).
    apply (task_ids_In _ _ _ Hnn). now apply Hcov.
Qed.

(** X11 (the backfill is complete). For a task id [T] (a 64-bit integer), a
    roster of distinct identifiers and records that respect the UNIQUE
    constraint and all belong, for this task, to students of the roster:
    [ensure_task_students(T)] returns, and afterwards every student of the
    roster has a record under [T], exactly one, so that the task has as many
    records as the roster has students. The comparison of the two counts, by
    which the method decides whether to look for missing students at all, is
    then exact. *)
Theorem ensure_task_students_covers (clk : clock) (T : Z) (w : world) :
  int64 T = true ->
  roster_distinct (w_db w) ->
  keys_distinct (w_db w) ->
  no_orphans (SqlInt T) (w_db w) ->
  let d' := w_db (snd (ensure_task_students clk (PInt T) w)) in
  fst (ensure_task_students clk (PInt T) w) = inr tt /\
  students d' = students (w_db w) /\
  (forall s, In s (students d') ->
     exists r, In r (task_details d') /\ td_task_id r = SqlInt T /\
               td_student_id r = st_student_id s /\
               forall r', In r' (task_details d') -> td_task_id r' = SqlInt T ->
                          td_student_id r' = st_student_id s -> r' = r) /\
  List.length (filter (of_task (SqlInt T)) (task_details d')) = List.length (students d') /\
  no_orphans (SqlInt T) d'.
Proof.
  intros HT Hnd Hk Hno d'.
  assert (Hnn : SqlInt T <> SqlNull) by discriminate.
  pose proof (ensure_task_students_succeeds clk T w HT Hnd) as Hok.
  pose proof (ensure_task_students_keys clk (PInt T) w Hk) as Hk'. fold d' in Hk'.
  destruct (ensure_task_students_frame clk (PInt T) w) as (rows & seq' & Hdb & Hrows).
  fold d' in Hdb.
  assert (Hst : students d' = students (w_db w)) by now rewrite Hdb.
  assert (Hno' : no_orphans (SqlInt T) d').
  { intros r Hr Ht. rewrite Hst. rewrite Hdb in Hr. cbn [set_task_details task_details] in Hr.
    apply in_app_or in Hr. destruct Hr as [Hr|Hr]; [now apply Hno|].
    rewrite Forall_forall in Hrows. now destruct (Hrows r Hr) as (_ & Hin & _). }
  assert (Hcov : forall s, In s (students d') ->
            exists r, In r (task_details d') /\ td_task_id r = SqlInt T /\
                      td_student_id r = st_student_id s).
  { intros s Hs. rewrite Hst in Hs. apply (task_ids_In _ _ _ Hnn).
    subst d'. revert Hok. rewrite ensure_task_students_unfold. cbn [bind_param].
    rewrite HT. cbv zeta. cbn [integer_affinity].
    assert (Hs' : In (st_student_id s) (map st_student_id (students (w_db w))))
      by now apply in_map.
    destruct (Nat.ltb _ _) eqn:El.
    - destruct (missing_ids_of (SqlInt T) (w_db w)) as [|m ms] eqn:Em.
      + intros _. cbn [snd].
        destruct (existsb (String.eqb (st_student_id s))
                    (map td_student_id (filter (of_task (SqlInt T)) (task_details (w_db w)))))
          eqn:Ee; [now apply existsb_eqb_In|].
        exfalso. assert (Hin : In (st_student_id s) (missing_ids_of (SqlInt T) (w_db w))).
        { apply filter_In. split; [exact Hs'|]. now rewrite Ee. }
        rewrite Em in Hin. destruct Hin.
      + destruct (insert_missing clk (SqlInt T) (m :: ms) w) as [[e|[]] w1] eqn:Ei;
          cbn [fst snd]; [discriminate|]. intros _.
        apply insert_missing_ok in Ei.
        destruct Ei as (rows1 & seq1 & Hdb1 & Hids & Hrows1 & _ & _).
        rewrite Hdb1. cbn [set_task_details task_details].
        rewrite filter_app, map_app. apply in_or_app.
        destruct (existsb (String.eqb (st_student_id s))
                    (map td_student_id (filter (of_task (SqlInt T)) (task_details (w_db w)))))
          eqn:Ee; [left; now apply existsb_eqb_In|].
        right. assert (Hin : In (st_student_id s) (map td_student_id rows1)).
        { rewrite Hids, <- Em. apply filter_In. split; [exact Hs'|]. now rewrite Ee. }
        apply in_map_iff in Hin. destruct Hin as (r & Hsid & Hr).
        apply in_map_iff. exists r. split; [exact Hsid|]. apply filter_In.
        split; [exact Hr|]. rewrite Forall_forall in Hrows1.
        destruct (Hrows1 r Hr) as (Ht & _). unfold of_task. rewrite Ht.
        now apply sql_eqb_refl.
    - intros _. cbn [snd]. apply Nat.ltb_ge in El.
      apply (@NoDup_length_incl _
               (map td_student_id (filter (of_task (SqlInt T)) (task_details (w_db w))))
               (map st_student_id (students (w_db w)))).
      + apply task_ids_NoDup. now destruct Hk.
      + now rewrite !length_map.
      + intros sid Hin. apply (task_ids_In _ _ _ Hnn) in Hin.
        destruct Hin as (r & Hr & Ht & <-). now apply Hno.
      + exact Hs'. }
  split; [exact Hok|]. split; [exact Hst|]. split; [|split; [|exact Hno']].
  - intros s Hs. destruct (Hcov s Hs) as (r & Hr & Ht & Hsid).
    exists r. repeat split; try assumption.
    intros r' Hr' Ht' Hsid'. destruct Hk' as [Hkd _].
    assert (Hkey : detail_key r' = detail_key r).
    { unfold detail_key. now rewrite Ht, Ht', Hsid, Hsid'. }
    clear - Hkd Hr Hr' Hkey. induction (task_details d') as [|x l IH]; [destruct Hr|].
    cbn [map] in Hkd. inversion Hkd as [|k ks Hnotin Hkd']; subst.
    destruct Hr as [->|Hr], Hr' as [->|Hr']; [reflexivity| | |now apply IH].
    + exfalso. apply Hnotin. rewrite <- Hkey. now apply in_map.
    + exfalso. apply Hnotin. rewrite Hkey. now apply in_map.
  - apply covered_count; try assumption. unfold roster_distinct. now rewrite Hst.
Qed.

Lemma example_no_orphans : no_orphans (SqlInt 1) (w_db submitted_world).
Proof. intros r [<-|[]] _. cbn. tauto. Defined.

Lemma ensure_task_students_covers_witness :
  List.length
    (filter (of_task (SqlInt 1))
       (task_details (w_db (snd (ensure_task_students example_clock (PInt 1) submitted_world)))))
  = List.length
      (students (w_db (snd (ensure_task_students example_clock (PInt 1) submitted_world)))).
Proof.
  apply (ensure_task_students_covers example_clock 1 submitted_world).
  - reflexivity.
  - exact example_roster_distinct.
  - exact example_keys_distinct.
  - exact example_no_orphans.
Defined.

(** *** The counts of a task *)

Definition is_submitted (r : detail_row) : bool :=
  match td_status r with
  | Some st => String.eqb st "submitted"
  | None => false
  end.

(** The student has a record under the task whose status is [submitted]. *)
Definition has_submitted (tid : sqlval) (l : list detail_row) (s : student_row) : bool :=
  existsb (fun r => same_key tid (st_student_id s) r && is_submitted r) l.

Definition join_test (tid : sqlval) (s : student_row) (r : detail_row) : bool :=
  String.eqb (st_student_id s) (td_student_id r) && of_task tid r.

Lemma join_test_key tid s r :
  join_test tid s r = true -> detail_key r = (tid, st_student_id s).
Proof.
  unfold join_test. intros H. apply andb_true_iff in H. destruct H as [H1 H2].
  apply String.eqb_eq in H1. apply of_task_eq in H2. unfold detail_key. now rewrite H1, H2.
Qed.

Lemma join_test_same_key tid s r : join_test tid s r = same_key tid (st_student_id s) r.
Proof.
  unfold join_test, same_key, of_task. rewrite String.eqb_sym. apply andb_comm.
Qed.

Lemma filter_at_most_one {A B} (f : A -> B) (k : B) (p : A -> bool) (l : list A) :
  NoDup (map f l) -> (forall x, p x = true -> f x = k) ->
  forall x xs, filter p l = x :: xs -> xs = [].
Proof.
  induction l as [|a l IH]; cbn [map filter]; intros Hnd Hp x xs E; [discriminate|].
  inversion Hnd as [|b bs Hnotin Hnd']; subst.
  destruct (p a) eqn:Ea; [|now apply (IH Hnd' Hp x xs)].
  injection E as _ <-. destruct (filter p l) as [|y ys] eqn:Ef; [reflexivity|].
  exfalso. apply Hnotin. assert (Hy : In y (filter p l)) by (rewrite Ef; now left).
  apply filter_In in Hy. destruct Hy as [Hy Hpy].
  rewrite (Hp a Ea), <- (Hp y Hpy). now apply in_map.
Qed.

Lemma length_filter_map {A B} (q : B -> bool) (g : A -> B) (l : list A) :
  List.length (filter q (map g l)) = List.length (filter (fun x => q (g x)) l).
Proof.
  induction l as [|x l IH]; cbn [map filter]; [reflexivity|].
  destruct (q (g x)); cbn [List.length]; now rewrite IH.
Qed.

Lemma length_filter_perm {A} (q : A -> bool) (l l' : list A) :
  Permutation l l' -> List.length (filter q l) = List.length (filter q l').
Proof.
  induction 1 as [|x l l' _ IH|x y l|l l' l'' _ IH1 _ IH2]; cbn [filter].
  - reflexivity.
  - destruct (q x); cbn [List.length]; now rewrite IH.
  - destruct (q x), (q y); reflexivity.
  - now rewrite IH1.
Qed.

Lemma length_filter_chunks {A B} (chunk : A -> list B) (Q : B -> bool) (P : A -> bool)
    (l : list A) :
  (forall s, In s l ->
     List.length (filter Q (chunk s)) = if P s then 1%nat else 0%nat) ->
  List.length (filter Q (flat_map chunk l)) = List.length (filter P l).
Proof.
  induction l as [|s l IH]; intros H; cbn [flat_map filter]; [reflexivity|].
  rewrite filter_app, length_app, (H s (or_introl eq_refl)), IH.
  - now destruct (P s).
  - intros x Hx. apply H. now right.
Qed.

Lemma length_single_chunks {A B} (chunk : A -> list B) (l : list A) :
  (forall s, In s l -> List.length (chunk s) = 1%nat) ->
  List.length (flat_map chunk l) = List.length l.
Proof.
  induction l as [|s l IH]; intros H; cbn [flat_map]; [reflexivity|].
  rewrite length_app, (H s (or_introl eq_refl)), IH; [reflexivity|].
  intros x Hx. apply H. now right.
Qed.

(** Under the UNIQUE constraint the join has one row for each student. *)
Lemma left_join_length tid d :
  keys_distinct d -> List.length (left_join_details tid d) = List.length (students d).
Proof.
  intros [Hk _]. unfold left_join_details. apply length_single_chunks. intros s _.
  fold (join_test tid s).
  destruct (filter (join_test tid s) (task_details d)) as [|r rs] eqn:E; [reflexivity|].
  rewrite (filter_at_most_one detail_key (tid, st_student_id s) _ _ Hk
             (join_test_key tid s) r rs E). reflexivity.
Qed.

Lemma get_task_details_run clk T w :
  int64 T = true ->
  roster_distinct (w_db w) ->
  get_task_details clk (PInt T) w
  = (inr (map detail_view_of
            (order_by joined_le
               (left_join_details (SqlInt T)
                  (w_db (snd (ensure_task_students clk (PInt T) w)))))),
     snd (ensure_task_students clk (PInt T) w)).
Proof.
  intros HT Hnd. pose proof (ensure_task_students_succeeds clk T w HT Hnd) as Hok.
  unfold get_task_details, bind.
  destruct (ensure_task_students clk (PInt T) w) as [[e|[]] w1]; cbn [fst] in Hok;
    [discriminate|].
  cbn [bind_param]. rewrite HT. run_method. cbn [integer_affinity snd]. now destruct w1.
Qed.

Lemma get_current_task_run clk w :
  tasks (w_db w) <> [] ->
  exists t, In t (tasks (w_db w)) /\ get_current_task clk w = (inr (task_of_row t), w).
Proof.
  intros Hne. unfold get_current_task. run_method.
  pose proof (order_by_perm task_date_ge (tasks (w_db w))) as Hperm.
  destruct (order_by task_date_ge (tasks (w_db w))) as [|t ts] eqn:E.
  - apply Permutation_sym, Permutation_nil in Hperm. contradiction.
  - exists t. split; [|now destruct w].
    eapply Permutation_in; [apply Permutation_sym, Hperm|now left].
Qed.

(** The listing of a task counts, as submitted, the students that have a
    submitted record under it. *)
Lemma submitted_count clk T w :
  int64 T = true ->
  keys_distinct (w_db w) ->
  let d1 := w_db (snd (ensure_task_students clk (PInt T) w)) in
  List.length
    (filter (fun v => String.eqb (dv_status v) "submitted")
       (map detail_view_of (order_by joined_le (left_join_details (SqlInt T) d1))))
  = List.length (filter (has_submitted (SqlInt T) (task_details (w_db w))) (students (w_db w))).
Proof.
  intros HT Hk d1.
  pose proof (ensure_task_students_keys clk (PInt T) w Hk) as [Hk1 _]. fold d1 in Hk1.
  destruct (ensure_task_students_frame clk (PInt T) w) as (rows & seq' & Hdb & Hrows).
  fold d1 in Hdb.
  rewrite length_filter_map.
  rewrite <- (length_filter_perm _ _ _ (order_by_perm joined_le _)).
  unfold left_join_details.
  assert (Hst : students d1 = students (w_db w)) by now rewrite Hdb.
  rewrite Hst. apply length_filter_chunks. intros s _. fold (join_test (SqlInt T) s).
  assert (Hsub : forall r, In r (task_details d1) -> is_submitted r = true ->
                           In r (task_details (w_db w))).
  { intros r Hr Hs. rewrite Hdb in Hr. cbn [set_task_details task_details] in Hr.
    apply in_app_or in Hr. destruct Hr as [Hr|Hr]; [exact Hr|].
    rewrite Forall_forall in Hrows. destruct (Hrows r Hr) as ((p & _ & _ & Hm & _) & _).
    unfold is_submitted in Hs. rewrite Hm in Hs. discriminate. }
  assert (Hin : forall r, In r (task_details (w_db w)) -> In r (task_details d1)).
  { intros r Hr. rewrite Hdb. cbn [set_task_details task_details]. apply in_or_app. now left. }
  destruct (filter (join_test (SqlInt T) s) (task_details d1)) as [|r rs] eqn:E.
  - cbn [filter detail_view_of joined_status snd dv_status String.eqb Ascii.eqb Bool.eqb].
    cbn [List.length].
    destruct (has_submitted (SqlInt T) (task_details (w_db w)) s) eqn:Eh; [|reflexivity].
    exfalso. apply existsb_exists in Eh. destruct Eh as (r & Hr & Hc).
    apply andb_true_iff in Hc. destruct Hc as [Hkey _].
    assert (Hf : In r (filter (join_test (SqlInt T) s) (task_details d1))).
    { apply filter_In. split; [now apply Hin|]. now rewrite join_test_same_key. }
    rewrite E in Hf. destruct Hf.
  - pose proof (filter_at_most_one detail_key (SqlInt T, st_student_id s) _ _ Hk1
                  (join_test_key (SqlInt T) s) r rs E) as Hrs.
    subst rs.
    assert (Hr : In r (filter (join_test (SqlInt T) s) (task_details d1)))
      by (rewrite E; now left).
    apply filter_In in Hr. destruct Hr as [Hr Hjt].
    cbn [map filter detail_view_of joined_status snd dv_status].
    assert (Hq : (match td_status r with Some st => st | None => "missing" end =? "submitted")%string
                 = is_submitted r).
    { unfold is_submitted. now destruct (td_status r). }
    rewrite Hq.
    assert (Hiff : has_submitted (SqlInt T) (task_details (w_db w)) s = is_submitted r).
    { destruct (is_submitted r) eqn:Es.
      - apply existsb_exists. exists r. split; [now apply Hsub|].
        now rewrite <- join_test_same_key, Hjt, Es.
      - destruct (has_submitted (SqlInt T) (task_details (w_db w)) s) eqn:Eh; [|reflexivity].
        apply existsb_exists in Eh. destruct Eh as (r' & Hr' & Hc).
        apply andb_true_iff in Hc. destruct Hc as [Hkey Hs'].
        assert (Hf : In r' (filter (join_test (SqlInt T) s) (task_details d1))).
        { apply filter_In. split; [now apply Hin|]. now rewrite join_test_same_key. }
        rewrite E in Hf. destruct Hf as [<-|[]]. congruence. }
    rewrite Hiff. now destruct (is_submitted r).
Qed.

(** X12 ([get_today_stats] counts the roster). With at least one task, task
    ids that are 64-bit integers, distinct identifiers in the roster and
    records that respect the UNIQUE constraint, [get_today_stats] returns
    for the current task [(total, submitted, total - submitted)] where
    [total] is the number of students of the roster and [submitted] the
    number of them that have a record of status [submitted] under the task;
    the third component is not negative. *)
Theorem get_today_stats_counts (clk : clock) (w : world) :
  tasks (w_db w) <> [] ->
  Forall (fun t => int64 (tk_id t) = true) (tasks (w_db w)) ->
  roster_distinct (w_db w) ->
  keys_distinct (w_db w) ->
  exists t,
    In t (tasks (w_db w)) /\
    fst (get_current_task clk w) = inr (task_of_row t) /\
    let total := List.length (students (w_db w)) in
    let submitted :=
      List.length (filter (has_submitted (SqlInt (tk_id t)) (task_details (w_db w)))
                     (students (w_db w))) in
    fst (get_today_stats clk w)
    = inr (total, submitted, Z.of_nat total - Z.of_nat submitted) /\
    0 <= Z.of_nat total - Z.of_nat submitted.
Proof.
  intros Hne Hids Hnd Hk.
  destruct (get_current_task_run clk w Hne) as (t & Ht & Hrun).
  exists t. split; [exact Ht|]. rewrite Hrun. split; [reflexivity|].
  rewrite Forall_forall in Hids. pose proof (Hids t Ht) as HT.
  cbv zeta. split.
  - unfold get_today_stats, bind. rewrite Hrun.
    change (task_id_of (task_of_row t)) with (tk_id t).
    rewrite (get_task_details_run clk (tk_id t) w HT Hnd). unfold ret. cbn [fst].
    rewrite (submitted_count clk (tk_id t) w HT Hk).
    rewrite length_map.
    rewrite <- (Permutation_length (order_by_perm joined_le _)).
    rewrite (left_join_length _ _ (ensure_task_students_keys clk (PInt (tk_id t)) w Hk)).
    destruct (ensure_task_students_frame clk (PInt (tk_id t)) w) as (rows & seq' & Hdb & _).
    rewrite Hdb. reflexivity.
  - pose proof (filter_length_le
                  (has_submitted (SqlInt (tk_id t)) (task_details (w_db w)))
                  (students (w_db w))) as Hle.
    lia.
Qed.

Lemma get_today_stats_counts_witness :
  fst (get_today_stats example_clock submitted_world) = inr (3%nat, 1%nat, 2).
Proof.
  destruct (get_today_stats_counts example_clock submitted_world) as (t & Ht & Hcur & Hstats & _).
  - cbn. discriminate.
  - repeat constructor.
  - exact example_roster_distinct.
  - exact example_keys_distinct.
  - destruct Ht as [<-|[]]. exact Hstats.
Defined.

(** *** Submitted and missing *)

(** The statuses the methods write: [submitted] and [missing] (NULL is read
    as missing). *)
Definition statuses_known (tid : sqlval) (d : db) : Prop :=
  forall r, In r (task_details d) -> td_task_id r = tid ->
            td_status r = Some "submitted" \/ td_status r = Some "missing" \/
            td_status r = None.

Lemma NoDup_map_inj {A B} (f : A -> B) (l : list A) x y :
  NoDup (map f l) -> In x l -> In y l -> f x = f y -> x = y.
Proof.
  induction l as [|a l IH]; cbn [map]; intros Hnd Hx Hy E; [destruct Hx|].
  inversion Hnd as [|b bs Hnotin Hnd']; subst.
  destruct Hx as [->|Hx], Hy as [->|Hy]; [reflexivity| | |now apply IH].
  - exfalso. apply Hnotin. rewrite E. now apply in_map.
  - exfalso. apply Hnotin. rewrite <- E. now apply in_map.
Qed.

Lemma view_of_student_id s s' :
  view_of_student s = view_of_student s' -> st_student_id s = st_student_id s'.
Proof. unfold view_of_student. congruence. Qed.

(** Under the UNIQUE constraint, the join pairs a student with the record of
    the task, if there is one. *)
Lemma left_join_unique tid d j :
  keys_distinct d ->
  In j (left_join_details tid d) <->
  In (fst j) (students d) /\
  snd j = hd_error (filter (join_test tid (fst j)) (task_details d)).
Proof.
  intros [Hk _]. unfold left_join_details. rewrite in_flat_map. split.
  - intros (s & Hs & Hj). fold (join_test tid s) in Hj.
    destruct (filter (join_test tid s) (task_details d)) as [|r rs] eqn:E.
    + destruct Hj as [<-|[]]. cbn [fst snd]. rewrite E. now split.
    + pose proof (filter_at_most_one detail_key (tid, st_student_id s) _ _ Hk
                    (join_test_key tid s) r rs E) as Hrs.
      subst rs. destruct Hj as [<-|[]]. cbn [fst snd]. rewrite E. now split.
  - destruct j as [s o]. cbn [fst snd]. intros [Hs Ho]. exists s. split; [exact Hs|].
    fold (join_test tid s).
    destruct (filter (join_test tid s) (task_details d)) as [|r rs] eqn:E;
      cbn [hd_error] in Ho; subst o; now left.
Qed.

Lemma has_submitted_unique tid d s :
  keys_distinct d ->
  has_submitted tid (task_details d) s
  = match hd_error (filter (join_test tid s) (task_details d)) with
    | Some r => is_submitted r
    | None => false
    end.
Proof.
  intros [Hk _]. unfold has_submitted.
  assert (G : forall l,
             existsb (fun r => same_key tid (st_student_id s) r && is_submitted r) l
             = existsb is_submitted (filter (join_test tid s) l)).
  { induction l as [|r l IH]; cbn [existsb filter]; [reflexivity|].
    rewrite join_test_same_key.
    destruct (same_key tid (st_student_id s) r); cbn [andb orb existsb]; now rewrite IH. }
  rewrite G.
  destruct (filter (join_test tid s) (task_details d)) as [|r rs] eqn:E; [reflexivity|].
  rewrite (filter_at_most_one detail_key (tid, st_student_id s) _ _ Hk
             (join_test_key tid s) r rs E).
  cbn [existsb hd_error]. apply orb_false_r.
Qed.

Lemma has_submitted_backfill tid l rows s :
  Forall (fun r => td_status r = Some "missing") rows ->
  has_submitted tid (l ++ rows) s = has_submitted tid l s.
Proof.
  intros H. unfold has_submitted. rewrite existsb_app.
  assert (E : existsb (fun r => same_key tid (st_student_id s) r && is_submitted r) rows = false).
  { induction H as [|r rows Hr _ IH]; cbn [existsb]; [reflexivity|].
    rewrite IH. unfold is_submitted. rewrite Hr. cbn. now rewrite andb_false_r. }
  rewrite E. apply orb_false_r.
Qed.

Lemma get_submitted_students_run clk T w :
  int64 T = true ->
  roster_distinct (w_db w) ->
  fst (get_submitted_students clk (PInt T) w)
  = inr (map view_of_student
           (order_by student_le
              (submitted_join (SqlInt T)
                 (w_db (snd (ensure_task_students clk (PInt T) w)))))).
Proof.
  intros HT Hnd. pose proof (ensure_task_students_succeeds clk T w HT Hnd) as Hok.
  unfold get_submitted_students, bind.
  destruct (ensure_task_students clk (PInt T) w) as [[e|[]] w1]; cbn [fst] in Hok;
    [discriminate|].
  cbn [bind_param]. rewrite HT. run_method. reflexivity.
Qed.

Lemma get_missing_students_run clk T w :
  int64 T = true ->
  roster_distinct (w_db w) ->
  fst (get_missing_students clk (PInt T) PNone w)
  = inr (map (fun j => view_of_student (fst j))
           (order_by joined_le
              (filter is_missing
                 (left_join_details (SqlInt T)
                    (w_db (snd (ensure_task_students clk (PInt T) w))))))).
Proof.
  intros HT Hnd. pose proof (ensure_task_students_succeeds clk T w HT Hnd) as Hok.
  unfold get_missing_students, bind.
  destruct (ensure_task_students clk (PInt T) w) as [[e|[]] w1]; cbn [fst] in Hok;
    [discriminate|].
  cbn [truthy bind_param]. rewrite HT. run_method. reflexivity.
Qed.

(** X13 (submitted and missing split the roster). For a task id [T] (a 64-bit
    integer), a roster of distinct identifiers and records that respect the
    UNIQUE constraint and carry, under [T], only the statuses the methods
    write: in one state, [get_submitted_students(T)] and
    [get_missing_students(T)] both return, every entry of either list is a
    student of the roster, and a student of the roster is in the first list
    exactly when a record of status [submitted] exists for them under [T],
    and in the second list exactly when none does. No student is in both,
    none is left out. *)
Theorem submitted_missing_partition (clk : clock) (T : Z) (w : world) :
  int64 T = true ->
  roster_distinct (w_db w) ->
  keys_distinct (w_db w) ->
  statuses_known (SqlInt T) (w_db w) ->
  exists submitted missing,
    fst (get_submitted_students clk (PInt T) w) = inr submitted /\
    fst (get_missing_students clk (PInt T) PNone w) = inr missing /\
    (forall v, In v submitted \/ In v missing ->
       exists s, In s (students (w_db w)) /\ v = view_of_student s) /\
    (forall s, In s (students (w_db w)) ->
       (In (view_of_student s) submitted <->
        has_submitted (SqlInt T) (task_details (w_db w)) s = true) /\
       (In (view_of_student s) missing <->
        has_submitted (SqlInt T) (task_details (w_db w)) s = false)).
Proof.
  intros HT Hnd Hk Hst.
  rewrite (get_submitted_students_run clk T w HT Hnd).
  rewrite (get_missing_students_run clk T w HT Hnd).
  pose proof (ensure_task_students_keys clk (PInt T) w Hk) as Hk1.
  destruct (ensure_task_students_frame clk (PInt T) w) as (rows & seq' & Hdb & Hrows).
  set (d1 := w_db (snd (ensure_task_students clk (PInt T) w))) in *.
  assert (Hs1 : students d1 = students (w_db w)) by now rewrite Hdb.
  assert (Hmiss : Forall (fun r => td_status r = Some "missing") rows).
  { rewrite Forall_forall in *. intros r Hr.
    now destruct (Hrows r Hr) as ((p & _ & _ & Hm & _) & _). }
  assert (Hsubeq : forall s, has_submitted (SqlInt T) (task_details d1) s
                             = has_submitted (SqlInt T) (task_details (w_db w)) s).
  { intros s. rewrite Hdb. cbn [set_task_details task_details].
    now apply has_submitted_backfill. }
  assert (Hst1 : statuses_known (SqlInt T) d1).
  { intros r Hr Ht. rewrite Hdb in Hr. cbn [set_task_details task_details] in Hr.
    apply in_app_or in Hr. destruct Hr as [Hr|Hr]; [now apply Hst|].
    rewrite Forall_forall in Hmiss. right. left. now apply Hmiss. }
  assert (Hsj : forall s, In s (submitted_join (SqlInt T) d1) <->
                          In s (students d1) /\ has_submitted (SqlInt T) (task_details d1) s = true).
  { intros s. unfold submitted_join, has_submitted. rewrite in_flat_map, existsb_exists.
    split.
    - intros (r & Hr & Hin). fold (is_submitted r) in Hin.
      destruct (of_task (SqlInt T) r && is_submitted r) eqn:E; [|destruct Hin].
      apply filter_In in Hin. destruct Hin as [Hs Heq]. split; [exact Hs|].
      apply andb_true_iff in E. destruct E as [E1 E2].
      exists r. split; [exact Hr|]. unfold same_key. unfold of_task in E1.
      now rewrite E1, Heq, E2.
    - intros (Hs & r & Hr & E). apply andb_true_iff in E. destruct E as [E1 E2].
      unfold same_key in E1. apply andb_true_iff in E1. destruct E1 as [E0 E1].
      exists r. split; [exact Hr|]. fold (is_submitted r). unfold of_task.
      rewrite E0, E2. cbn [andb]. apply filter_In. now split. }
  assert (Hmj : forall s, In s (students d1) ->
             (In (s, hd_error (filter (join_test (SqlInt T) s) (task_details d1)))
                 (filter is_missing (left_join_details (SqlInt T) d1)) <->
              has_submitted (SqlInt T) (task_details d1) s = false)).
  { intros s Hs. rewrite filter_In, (left_join_unique _ _ _ Hk1). cbn [fst snd].
    rewrite (has_submitted_unique _ _ _ Hk1).
    destruct (filter (join_test (SqlInt T) s) (task_details d1)) as [|r rs] eqn:E;
      cbn [hd_error]; unfold is_missing, joined_status; cbn [snd].
    - tauto.
    - assert (Hr : In r (filter (join_test (SqlInt T) s) (task_details d1)))
        by (rewrite E; now left).
      apply filter_In in Hr. destruct Hr as [Hr Hjt].
      apply join_test_key in Hjt. unfold detail_key in Hjt. injection Hjt as Ht _.
      unfold is_submitted.
      destruct (Hst1 r Hr Ht) as [-> | [-> | ->]]; cbn; intuition congruence. }
  do 2 eexists. split; [reflexivity|]. split; [reflexivity|]. split; [|intros s Hs; split].
  - intros v [Hv|Hv]; apply in_map_iff in Hv.
    + destruct Hv as (s & <- & Hs). apply order_by_In in Hs. apply Hsj in Hs.
      exists s. split; [|reflexivity]. rewrite <- Hs1. tauto.
    + destruct Hv as (j & <- & Hj). apply order_by_In in Hj. apply filter_In in Hj.
      destruct Hj as [Hj _]. apply left_join_fst in Hj.
      exists (fst j). split; [|reflexivity]. now rewrite <- Hs1.
  - rewrite <- Hsubeq. rewrite <- Hs1 in Hs. split.
    + intros Hv. apply in_map_iff in Hv. destruct Hv as (s' & Hview & Hs').
      apply order_by_In in Hs'. apply Hsj in Hs'. destruct Hs' as [Hin Hsub].
      assert (s' = s) as <-; [|exact Hsub].
      apply (NoDup_map_inj st_student_id (students d1)); try assumption.
      * unfold roster_distinct in Hnd. now rewrite Hs1.
      * now apply view_of_student_id.
    + intros Hsub. apply in_map. apply order_by_In. apply Hsj. now split.
  - rewrite <- Hsubeq. rewrite <- Hs1 in Hs. rewrite <- (Hmj s Hs). split.
    + intros Hv. apply in_map_iff in Hv. destruct Hv as (j & Hview & Hj).
      apply order_by_In in Hj.
      assert (Hj' := Hj). apply filter_In in Hj'. destruct Hj' as [Hlj _].
      apply (left_join_unique _ _ _ Hk1) in Hlj. destruct Hlj as [Hin Hsnd].
      assert (fst j = s) as Hfst.
      { apply (NoDup_map_inj st_student_id (students d1)); try assumption.
        - unfold roster_distinct in Hnd. now rewrite Hs1.
        - now apply view_of_student_id. }
      destruct j as [s0 o]. cbn [fst snd] in *. subst s0 o. exact Hj.
    + intros Hj. apply in_map_iff. eexists. split; [|apply order_by_In; exact Hj].
      reflexivity.
Qed.

Lemma example_statuses_known : statuses_known (SqlInt 1) (w_db submitted_world).
Proof. intros r [<-|[]] _. now left. Defined.

Lemma submitted_missing_partition_witness :
  exists submitted missing,
    fst (get_submitted_students example_clock (PInt 1) submitted_world) = inr submitted /\
    fst (get_missing_students example_clock (PInt 1) PNone submitted_world) = inr missing /\
    (forall v, In v submitted \/ In v missing ->
       exists s, In s (students (w_db submitted_world)) /\ v = view_of_student s) /\
    (forall s, In s (students (w_db submitted_world)) ->
       (In (view_of_student s) submitted <->
        has_submitted (SqlInt 1) (task_details (w_db submitted_world)) s = true) /\
       (In (view_of_student s) missing <->
        has_submitted (SqlInt 1) (task_details (w_db submitted_world)) s = false)).
Proof.
  apply (submitted_missing_partition example_clock 1 submitted_world).
  - reflexivity.
  - exact example_roster_distinct.
  - exact example_keys_distinct.
  - exact example_statuses_known.
Defined.

(** *** Resetting the task of today *)






(* ================================================================== *)
(** ** Further properties of the assistant session *)
(* ================================================================== *)

(** The answers of a tool round: one [tool] turn for each call, in the order
    of the calls, under the id of the call. *)
Definition answers (tcs : list tool_call) (results : list string) : list message :=
  map (fun p => ToolMsg (tc_id (fst p)) (snd p)) (combine tcs results).

(** Whole tool rounds: an assistant turn with calls, then the answers to all
    of them. *)
Inductive tool_rounds : list message -> Prop :=
| tool_rounds_nil : tool_rounds []
| tool_rounds_cons tcs results rest :
    tcs <> [] -> List.length results = List.length tcs -> tool_rounds rest ->
    tool_rounds (AssistantToolCalls tcs :: answers tcs results ++ rest).

Definition is_update (sg : signal) : Prop :=
  match sg with
  | UpdateMessage _ => True
  | FinishMessage _ _ => False
  end.

Section SessionShape.

Context (clk : clock) (refresh_all_pages : M unit) (current_task : option task_dict).
Context (system_prompt : string) (include_context : bool) (cancel_at : option nat).

Lemma run_tools_answers tcs : forall w msgs w',
  run_tools clk refresh_all_pages current_task tcs w = (inr msgs, w') ->
  exists results, List.length results = List.length tcs /\ msgs = answers tcs results.
Proof.
  induction tcs as [|tc tcs IH]; intros w msgs w' H; cbn [run_tools] in H.
  - inversion H. now exists [].
  - unfold bind, ret in H.
    destruct (_execute_tool clk refresh_all_pages current_task tc w) as [[e|res] w1];
      [discriminate|].
    destruct (run_tools clk refresh_all_pages current_task tcs w1) as [[e|rest] w2] eqn:E;
      [discriminate|].
    inversion H. subst. destruct (IH _ _ _ E) as (results & Hlen & ->).
    exists (res :: results). split; [cbn [List.length]; now rewrite Hlen|reflexivity].
Qed.

Lemma rounds_history responses : forall s w,
  let r := rounds clk refresh_all_pages current_task system_prompt include_context cancel_at
             responses s w in
  exists turns tail,
    messages (snd (fst r)) = messages s ++ turns ++ tail /\ tool_rounds turns /\
    match fst (fst r) with
    | Completed => exists answer, tail = [AssistantMsg answer]
    | Cancelled | Blocked => tail = []
    | Crashed _ => tail = [] \/ exists tcs, tcs <> [] /\ tail = [AssistantToolCalls tcs]
    | NotStarted | ImportFailed => False
    end.
Proof.
  induction responses as [|[e|items] more IH]; intros s w; cbn [rounds]; cbv zeta.
  - exists [], []. cbn. rewrite app_nil_r. repeat split. constructor.
  - exists [], []. cbn. rewrite app_nil_r. repeat split; [constructor|now left].
  - destruct (consume cancel_at items (mkAcc "" [] None)
                (send_request system_prompt include_context s)) as [[e|acc] s2] eqn:Ec;
      apply consume_messages in Ec; cbn [send_request messages] in Ec.
    + exists [], []. cbn [fst snd]. rewrite Ec, app_nil_r. repeat split; [constructor|now left].
    + pose proof (read_cancelled_messages cancel_at s2) as Hm.
      destruct (read_cancelled cancel_at s2) as [stop s3]. cbn [snd] in Hm.
      destruct stop.
      * exists [], []. cbn [fst snd]. rewrite emit_messages, Hm, Ec, app_nil_r.
        repeat split. constructor.
      * destruct (acc_tool_calls acc) as [|tc tcs] eqn:Etc.
        -- exists [], [AssistantMsg (full_response acc)]. cbn [fst snd set_messages messages].
           rewrite emit_messages, Hm, Ec. repeat split; [constructor|now eexists].
        -- destruct (run_tools clk refresh_all_pages current_task (map snd (tc :: tcs)) w)
             as [[e|msgs] w1] eqn:Et.
           ++ exists [], [AssistantToolCalls (map snd (tc :: tcs))].
              cbn [fst snd set_messages messages]. rewrite Hm, Ec.
              repeat split; [constructor|]. right. eexists. split; [|reflexivity].
              discriminate.
           ++ apply run_tools_answers in Et. destruct Et as (results & Hlen & ->).
              match goal with
              | |- context [rounds _ _ _ _ _ _ more ?s4 w1] =>
                  destruct (IH s4 w1) as (turns & tail & Hmsg & Hturns & Hout)
              end.
              cbv zeta in Hmsg, Hout.
              exists (AssistantToolCalls (map snd (tc :: tcs))
                        :: answers (map snd (tc :: tcs)) results ++ turns), tail.
              split; [|split; [|exact Hout]].
              ** rewrite Hmsg. cbn [set_messages messages]. rewrite Hm, Ec.
                 rewrite <- !app_assoc. cbn [app]. rewrite <- !app_assoc. reflexivity.
              ** constructor; [discriminate|exact Hlen|exact Hturns].
Qed.


Lemma read_cancelled_flags s :
  let r := read_cancelled cancel_at s in
  emitted (snd r) = emitted s /\ requests (snd r) = requests s /\
  cancelled (snd r) = fst r /\
  (fst r = false -> cancelled s = false /\ is_generating (snd r) = is_generating s) /\
  (cancelled s = true -> fst r = true).
Proof.
  unfold read_cancelled. destruct cancel_at as [k|]; [destruct (Nat.eqb k (flag_reads s))|];
    cbn; repeat split; auto; discriminate.
Qed.

Lemma process_chunk_signals c acc s :
  let r := process_chunk c acc s in
  cancelled (snd r) = cancelled s /\ is_generating (snd r) = is_generating s /\
  exists pre, emitted (snd r) = emitted s ++ pre /\ Forall is_update pre.
Proof.
  assert (Hsame : forall x : exn + stream_acc,
             cancelled (snd (x, s)) = cancelled s /\
             is_generating (snd (x, s)) = is_generating s /\
             exists pre, emitted (snd (x, s)) = emitted s ++ pre /\ Forall is_update pre).
  { intros x. repeat split. exists []. now rewrite app_nil_r. }
  assert (Hupd : forall (x : exn + stream_acc) t,
             cancelled (snd (x, emit (UpdateMessage t) s)) = cancelled s /\
             is_generating (snd (x, emit (UpdateMessage t) s)) = is_generating s /\
             exists pre, emitted (snd (x, emit (UpdateMessage t) s)) = emitted s ++ pre /\
                         Forall is_update pre).
  { intros x t. repeat split. exists [UpdateMessage t]. split; [reflexivity|].
    repeat constructor. }
  unfold process_chunk. destruct (choices c) as [|ch l]; [apply Hsame|].
  destruct (choice_delta ch) as [d|]; [|apply Hsame].
  destruct (delta_content d) as [t|].
  - destruct (String.eqb t "");
      (destruct (delta_tool_calls d) as [[|tc tcs]|];
       [|destruct (merge_tool_calls _ _)|]); first [apply Hsame|apply Hupd].
  - destruct (delta_tool_calls d) as [[|tc tcs]|];
      [|destruct (merge_tool_calls _ _)|]; apply Hsame.
Qed.

Lemma consume_signals items : forall acc s,
  let r := consume cancel_at items acc s in
  (exists pre, emitted (snd r) = emitted s ++ pre /\ Forall is_update pre) /\
  (cancelled s = false ->
   (cancelled (snd r) = false /\ is_generating (snd r) = is_generating s) \/
   (cancelled (snd r) = true /\ exists acc', fst r = inr acc')).
Proof.
  induction items as [|[c|e] items IH]; intros acc s; cbn [consume]; cbv zeta.
  - split; [exists []; now rewrite app_nil_r|]. intros Hc. now left.
  - pose proof (read_cancelled_flags s) as Hr. cbv zeta in Hr.
    destruct (read_cancelled cancel_at s) as [stop s1]. cbn [fst snd] in Hr.
    destruct Hr as (He & _ & Hc1 & Hgo & _).
    destruct stop.
    + cbn [fst snd]. split; [exists []; now rewrite app_nil_r, He|].
      intros _. right. split; [exact Hc1|now eexists].
    + destruct (Hgo eq_refl) as [_ Hg1].
      pose proof (process_chunk_signals c acc s1) as Hp. cbv zeta in Hp.
      destruct (process_chunk c acc s1) as [[e|acc'] s2]; cbn [fst snd] in Hp |- *;
        destruct Hp as (Hc2 & Hg2 & pre & He2 & Hpre).
      * split; [exists pre; split; [congruence|exact Hpre]|].
        intros Hc. left. split; congruence.
      * specialize (IH acc' s2). cbv zeta in IH.
        destruct IH as ((pre' & He3 & Hpre') & Hflags). split.
        -- exists (pre ++ pre'). split; [|now apply Forall_app].
           rewrite He3, He2, He. now rewrite app_assoc.
        -- intros Hc. assert (Hc2' : cancelled s2 = false) by congruence.
           destruct (Hflags Hc2') as [[H1 H2]|H]; [left|now right].
           split; [exact H1|congruence].
  - cbn [fst snd]. split; [exists []; now rewrite app_nil_r|]. intros Hc. now left.
Qed.


End SessionShape.

(** X15 (what a request adds to the history). Whatever the streams deliver
    and whenever the user cancels, [send_message] followed by its worker only
    appends to [self.messages]: nothing when there is no API key; otherwise
    the user turn, then whole tool rounds (an assistant turn with calls, then
    one [tool] turn for each call, in order, under the id of the call), then
    the final answer when the request completes. A worker that dies on an
    exception may leave, as last turn, an assistant turn with calls that has
    no answers: the exception of a tool is raised after the turn is
    appended. *)
Theorem request_history_shape
    (clk : clock) (refresh_all_pages : M unit) (current_task : option task_dict)
    (system_prompt : string) (include_context : bool) (cancel_at : option nat)
    (api_key user_input : string) (openai_available : bool)
    (responses : list (exn + list stream_item)) (s : session) (w : world) :
  let r := request clk refresh_all_pages current_task system_prompt include_context cancel_at
             api_key user_input openai_available responses s w in
  let s' := snd (fst r) in
  match fst (fst r) with
  | NotStarted => api_key = "" /\ s' = s /\ snd r = w
  | ImportFailed => messages s' = messages s ++ [UserMsg user_input] /\ snd r = w
  | Completed =>
      exists turns answer,
        messages s' = messages s ++ UserMsg user_input :: turns ++ [AssistantMsg answer] /\
        tool_rounds turns
  | Cancelled | Blocked =>
      exists turns,
        messages s' = messages s ++ UserMsg user_input :: turns /\ tool_rounds turns
  | Crashed _ =>
      exists turns,
        tool_rounds turns /\
        (messages s' = messages s ++ UserMsg user_input :: turns \/
         exists tcs, tcs <> [] /\
           messages s' = messages s ++ UserMsg user_input :: turns ++ [AssistantToolCalls tcs])
  end.
Proof.
  cbv zeta. unfold request, send_message.
  destruct (String.eqb api_key "") eqn:Ekey.
  { cbn [fst snd]. apply String.eqb_eq in Ekey. now repeat split. }
  unfold _call_deepseek_api. destruct openai_available.
  2:{ cbn [fst snd]. rewrite emit_messages. now split. }
  set (s1 := mkSession (messages s ++ [UserMsg user_input]) false true (emitted s)
               (requests s) 0).
  destruct (rounds_history clk refresh_all_pages current_task system_prompt include_context
              cancel_at responses s1 w) as (turns & tail & Hmsg & Hturns & Hout).
  cbv zeta in Hmsg, Hout. cbn [s1 messages] in Hmsg.
  rewrite <- app_assoc in Hmsg. cbn [app] in Hmsg.
  destruct (fst (fst (rounds clk refresh_all_pages current_task system_prompt include_context
                        cancel_at responses s1 w))); try contradiction.
  - destruct Hout as (answer & ->). now exists turns, answer.
  - subst tail. rewrite app_nil_r in Hmsg. now exists turns.
  - exists turns. split; [exact Hturns|].
    destruct Hout as [->|(tcs & Hne & ->)].
    + left. now rewrite app_nil_r in Hmsg.
    + right. now exists tcs.
  - subst tail. rewrite app_nil_r in Hmsg. now exists turns.
Qed.


(** *** The text of an answer and the arguments of a call *)

Definition concat_all (l : list string) : string := fold_right String.append "" l.

(** The text a stream item carries: [chunk.choices[0].delta.content]. *)
Definition fragment_of (it : stream_item) : string :=
  match it with
  | Chunk c =>
      match choices c with
      | ch :: _ =>
          match choice_delta ch with
          | Some d => match delta_content d with Some t => t | None => "" end
          | None => ""
          end
      | [] => ""
      end
  | StreamError _ => ""
  end.

(** A chunk that brings no tool call. *)
Definition plain_item (it : stream_item) : bool :=
  match it with
  | Chunk c =>
      match choices c with
      | ch :: _ =>
          match choice_delta ch with
          | Some d => match delta_tool_calls d with Some (_ :: _) => false | _ => true end
          | None => true
          end
      | [] => true
      end
  | StreamError _ => false
  end.

(** The arguments a fragment of a tool call carries. *)
Definition argument_of (tc : tool_call) : string :=
  match tc_function tc with
  | Some (mkFunction _ (Some a)) => a
  | _ => ""
  end.

Lemma append_nil_r (s : string) : (s ++ "")%string = s.
Proof. induction s as [|a s IH]; cbn; [reflexivity|now rewrite IH]. Qed.

Lemma append_assoc (a b c : string) : ((a ++ b) ++ c)%string = (a ++ (b ++ c))%string.
Proof. induction a as [|x a IH]; cbn; [reflexivity|now rewrite IH]. Qed.

Lemma process_chunk_plain c acc s :
  plain_item (Chunk c) = true ->
  exists acc' s',
    process_chunk c acc s = (inr acc', s') /\
    full_response acc' = (full_response acc ++ fragment_of (Chunk c))%string /\
    acc_tool_calls acc' = acc_tool_calls acc /\
    requests s' = requests s.
Proof.
  unfold plain_item, fragment_of, process_chunk.
  destruct (choices c) as [|ch l].
  { intros _. exists acc, s. now rewrite append_nil_r. }
  destruct (choice_delta ch) as [d|].
  2:{ intros _. eexists _, s. split; [reflexivity|].
      destruct (choice_finish_reason ch) as [r|]; [destruct (String.eqb r "")|];
        cbn; now rewrite append_nil_r. }
  intros Hp.
  assert (Hfin : forall a : stream_acc,
            full_response
              match choice_finish_reason ch with
              | Some r => if String.eqb r ""
                          then a else mkAcc (full_response a) (acc_tool_calls a) (Some r)
              | None => a
              end = full_response a /\
            acc_tool_calls
              match choice_finish_reason ch with
              | Some r => if String.eqb r ""
                          then a else mkAcc (full_response a) (acc_tool_calls a) (Some r)
              | None => a
              end = acc_tool_calls a).
  { intros a. destruct (choice_finish_reason ch) as [r|]; [destruct (String.eqb r "")|];
      now split. }
  destruct (delta_content d) as [t|].
  - destruct (String.eqb t "") eqn:Et.
    + apply String.eqb_eq in Et. subst t.
      destruct (delta_tool_calls d) as [[|tc tcs]|]; [|discriminate|];
        (eexists _, s; split; [reflexivity|]; destruct (Hfin acc) as [-> ->];
         now rewrite append_nil_r).
    + destruct (delta_tool_calls d) as [[|tc tcs]|]; [|discriminate|];
        (eexists _, _; split; [reflexivity|];
         match goal with |- context [full_response (match _ with _ => _ end)] => idtac end;
         match goal with
         | |- full_response ?x = _ /\ _ =>
             match x with
             | context [mkAcc ?f ?t ?r] => destruct (Hfin (mkAcc f t r)) as [-> ->]
             end
         end; now repeat split).
  - destruct (delta_tool_calls d) as [[|tc tcs]|]; [|discriminate|];
      (eexists _, s; split; [reflexivity|]; destruct (Hfin acc) as [-> ->];
       now rewrite append_nil_r).
Qed.

Lemma consume_plain items : forall acc s,
  cancelled s = false ->
  forallb plain_item items = true ->
  exists acc' s',
    consume None items acc s = (inr acc', s') /\
    full_response acc' = (full_response acc ++ concat_all (map fragment_of items))%string /\
    acc_tool_calls acc' = acc_tool_calls acc /\
    cancelled s' = false /\ requests s' = requests s /\ messages s' = messages s.
Proof.
  induction items as [|[c|e] items IH]; intros acc s Hc Hp; cbn [forallb] in Hp.
  - exists acc, s. cbn. now rewrite append_nil_r.
  - apply andb_true_iff in Hp. destruct Hp as [Hp1 Hp2].
    cbn [consume]. unfold read_cancelled. rewrite Hc.
    match goal with
    | |- context [process_chunk c acc ?s1] =>
        destruct (process_chunk_plain c acc s1 Hp1) as (acc1 & s2 & E & Hf & Ht & Hr);
        pose proof (process_chunk_session _ _ _ _ _ E) as (Hm2 & Hc2 & _)
    end.
    rewrite E. cbn [cancelled messages requests] in Hm2, Hc2, Hr.
    destruct (IH acc1 s2) as (acc' & s' & E' & Hf' & Ht' & Hc' & Hr' & Hm');
      [congruence|exact Hp2|].
    exists acc', s'. split; [exact E'|]. unfold concat_all; cbn [map fold_right].
    fold (concat_all (map fragment_of items)).
    rewrite Hf', Hf, append_assoc. repeat split; congruence.
  - discriminate.
Qed.

(** X17 (a plain answer). With an API key and the [openai] module, when the
    user does not cancel and the first stream brings no tool call and no
    fault, the request completes after that one call of the endpoint: the
    call was sent the history with the user turn (after the system prompt,
    if the context is included), the answer is the concatenation of the
    texts of the chunks, in order, and it is appended after the user turn;
    the store is not touched. *)
Theorem plain_answer_is_concatenation
    (clk : clock) (refresh_all_pages : M unit) (current_task : option task_dict)
    (system_prompt : string) (include_context : bool)
    (api_key user_input : string) (items : list stream_item)
    (more : list (exn + list stream_item)) (s : session) (w : world) :
  api_key <> "" ->
  forallb plain_item items = true ->
  let answer := concat_all (map fragment_of items) in
  exists s',
    request clk refresh_all_pages current_task system_prompt include_context None
      api_key user_input true (inr items :: more) s w = (Completed, s', w) /\
    messages s' = messages s ++ [UserMsg user_input; AssistantMsg answer] /\
    requests s'
    = requests s
        ++ [(if include_context then [SystemMsg system_prompt] else [])
              ++ messages s ++ [UserMsg user_input]] /\
    exists updates, emitted s' = emitted s ++ updates ++ [FinishMessage answer false].
Proof.
  intros Hkey Hp answer. unfold request, send_message.
  apply String.eqb_neq in Hkey. rewrite Hkey.
  unfold _call_deepseek_api. cbn [rounds].
  set (s1 := send_request _ _ _).
  destruct (consume_plain items (mkAcc "" [] None) s1 eq_refl Hp)
    as (acc & s2 & E & Hf & Ht & Hc & Hr & Hm).
  rewrite E. unfold read_cancelled. rewrite Hc, Ht.
  pose proof (consume_signals None items (mkAcc "" [] None) s1) as Hs. cbv zeta in Hs.
  rewrite E in Hs. cbn [fst snd] in Hs. destruct Hs as ((pre & He & _) & _).
  cbn [full_response] in Hf. fold answer in Hf. rewrite Hf.
  eexists. split; [reflexivity|].
  cbn [set_messages messages emit _finish_message_ui requests emitted].
  rewrite Hm, Hr, He. cbn [s1 send_request messages requests emitted]. split; [|split].
  - now rewrite <- app_assoc.
  - now destruct include_context.
  - exists pre. now rewrite <- app_assoc.
Qed.

Lemma plain_answer_is_concatenation_witness :
  exists s',
    request example_clock (ret tt) None "prompt" true None "sk-test" "hi" true
      [inr two_chunks] idle_session example_world = (Completed, s', example_world) /\
    messages s' = [UserMsg "hi"; AssistantMsg "Hello"].
Proof.
  destruct (plain_answer_is_concatenation example_clock (ret tt) None "prompt" true
              "sk-test" "hi" two_chunks [] idle_session example_world)
    as (s' & H1 & H2 & _).
  - discriminate.
  - reflexivity.
  - exists s'. split; [exact H1|exact H2].
Defined.

Lemma lookup_index_app_none i tcs x :
  lookup_index i tcs = None -> lookup_index i (tcs ++ [(i, x)]) = Some x.
Proof.
  induction tcs as [|[j y] tcs IH]; cbn [lookup_index app]; intros H.
  - now rewrite Z.eqb_refl.
  - destruct (Z.eqb j i); [discriminate|now apply IH].
Qed.

Lemma set_index_app_none i tcs x y :
  lookup_index i tcs = None -> set_index i y (tcs ++ [(i, x)]) = tcs ++ [(i, y)].
Proof.
  induction tcs as [|[j z] tcs IH]; cbn [lookup_index set_index app]; intros H.
  - now rewrite Z.eqb_refl.
  - destruct (Z.eqb j i); [discriminate|]. now rewrite IH.
Qed.

Lemma merge_fragments_stored i id n tcs frags : forall a0,
  lookup_index i tcs = None ->
  Forall (fun tc => tc_index tc = i) frags ->
  merge_tool_calls (tcs ++ [(i, mkToolCall i id (Some (mkFunction n (Some a0))))]) frags
  = inr (tcs ++ [(i, mkToolCall i id
                       (Some (mkFunction n (Some (a0 ++ concat_all (map argument_of frags))%string))))]).
Proof.
  induction frags as [|tc frags IH]; intros a0 Hnone Hall.
  - cbn. now rewrite append_nil_r.
  - inversion Hall as [|x l Hi Hall']; subst.
    cbn [merge_tool_calls]. unfold merge_tool_call.
    rewrite (lookup_index_app_none _ _ _ Hnone).
    unfold concat_all; cbn [map fold_right]. fold (concat_all (map argument_of frags)).
    unfold argument_of at 1.
    destruct (tc_function tc) as [[fname [a|]]|].
    + destruct (String.eqb a "") eqn:Ea.
      * apply String.eqb_eq in Ea. subst a. cbn [String.append]. now apply IH.
      * cbn [tc_function tc_index tc_id].
        rewrite (set_index_app_none _ _ _ _ Hnone), <- append_assoc. now apply IH.
    + cbn [String.append]. now apply IH.
    + cbn [String.append]. now apply IH.
Qed.

(** X18 (the arguments of a tool call are put together). A tool call comes
    in fragments that share an index. When the first fragment of an index
    opens the call with its id, its name and the beginning of the arguments,
    the fragments of this index that follow only extend the arguments, in
    order of arrival: the call keeps the index, the id and the name of the
    first fragment, whatever the later ones carry there, it keeps its place
    after the calls that arrived before, and merging does not raise. *)
Theorem merge_tool_calls_fragments
    (tcs : list (Z * tool_call)) (first : tool_call) (frags : list tool_call)
    (n : option string) (a0 : string) :
  lookup_index (tc_index first) tcs = None ->
  tc_function first = Some (mkFunction n (Some a0)) ->
  Forall (fun tc => tc_index tc = tc_index first) frags ->
  merge_tool_calls tcs (first :: frags)
  = inr (tcs ++ [(tc_index first,
                  mkToolCall (tc_index first) (tc_id first)
                    (Some (mkFunction n (Some (a0 ++ concat_all (map argument_of frags))%string))))]).
Proof.
  intros Hnone Hf Hall. cbn [merge_tool_calls]. unfold merge_tool_call. rewrite Hnone.
  destruct first as [i id f]. cbn [tc_index tc_id tc_function] in *. subst f.
  now apply merge_fragments_stored.
Qed.

Lemma merge_tool_calls_fragments_witness :
  merge_tool_calls []
    [mkToolCall 0 (Some "call_0") (Some (mkFunction (Some "get_student_info") (Some "")));
     mkToolCall 0 None (Some (mkFunction None (Some "{'student_id': ")));
     mkToolCall 0 None (Some (mkFunction None (Some "'202301'}")))]
  = inr [(0, mkToolCall 0 (Some "call_0")
               (Some (mkFunction (Some "get_student_info")
                        (Some "{'student_id': '202301'}"))))].
Proof.
  apply (merge_tool_calls_fragments []
           (mkToolCall 0 (Some "call_0") (Some (mkFunction (Some "get_student_info") (Some ""))))
           [mkToolCall 0 None (Some (mkFunction None (Some "{'student_id': ")));
            mkToolCall 0 None (Some (mkFunction None (Some "'202301'}")))]
           (Some "get_student_info") "").
  - reflexivity.
  - reflexivity.
  - repeat constructor.
Defined.

(* ================================================================== *)
(** ** Further properties of the tool dispatcher *)
(* ================================================================== *)

(** A method that leaves the state as it found it, whether it returns or
    raises. *)
Definition read_only {A} (m : M A) : Prop := forall w, snd (m w) = w.

Lemma read_only_ret {A} (a : A) : read_only (ret a).
Proof. intros w. reflexivity. Qed.

Lemma read_only_lift {A} (r : exn + A) : read_only (lift r).
Proof. intros w. now destruct r. Qed.

Lemma read_only_get_db : read_only get_db.
Proof. intros w. reflexivity. Qed.

Lemma read_only_bind {A B} (m : M A) (k : A -> M B) :
  read_only m -> (forall a, read_only (k a)) -> read_only (bind m k).
Proof.
  intros Hm Hk w. unfold bind. specialize (Hm w).
  destruct (m w) as [[e|a] w1]; cbn [snd] in Hm; subst w1; [reflexivity|apply Hk].
Qed.

Lemma read_only_bind_inr {A B} (a : A) (k : A -> M B) :
  read_only (k a) -> read_only (bind (lift (inr a)) k).
Proof. intros Hk w. apply Hk. Qed.

Lemma read_only_get_connection {A} (body : M A) : read_only body -> read_only (get_connection body).
Proof.
  intros Hb w. unfold get_connection. specialize (Hb w).
  destruct (body w) as [[e|a] w1]; cbn [snd] in Hb |- *; subst w1; [now destruct w|reflexivity].
Qed.

Lemma read_only_on_error name (body : M string) : read_only body -> read_only (on_error name body).
Proof.
  intros Hb w. unfold on_error. specialize (Hb w).
  destruct (body w) as [[e|a] w1]; exact Hb.
Qed.

Ltac read_only_steps :=
  repeat first
    [ apply read_only_get_connection
    | apply read_only_on_error
    | apply read_only_ret
    | apply read_only_lift
    | apply read_only_get_db
    | apply read_only_bind; [|intros ?] ].

(** The tools that may write to the store. *)
Definition writing_tools : list string :=
  ["get_today_stats"; "mark_student_submitted"; "set_student_grade"; "add_student";
   "update_student"; "delete_student"; "get_task_details"].

(** X19 (the tools that only read). A tool call whose name is not one of
    [get_today_stats], [mark_student_submitted], [set_student_grade],
    [add_student], [update_student], [delete_student] and [get_task_details]
    leaves the store as it is, whatever its arguments, whether the dispatcher
    returns a text or raises; and it does not refresh the views (the property
    holds whatever the refresh does). This covers the six tools that query
    the roster, the tasks and the history of a student, the export tool,
    unknown names, and calls without a function or a name. *)
Theorem other_tools_write_nothing
    (clk : clock) (refresh_all_pages : M unit) (current_task : option task_dict)
    (tc : tool_call) (w : world) :
  (forall f n, tc_function tc = Some f -> fn_name f = Some n -> ~ In n writing_tools) ->
  snd (_execute_tool clk refresh_all_pages current_task tc w) = w.
Proof.
  intros Hname. revert w. change (read_only (_execute_tool clk refresh_all_pages current_task tc)).
  unfold _execute_tool. destruct (tc_function tc) as [f|]; [|read_only_steps].
  specialize (Hname f). apply read_only_bind_inr.
  apply read_only_bind; [apply read_only_lift|intros args].
  apply read_only_on_error. unfold dispatch.
  destruct (fn_name f) as [n|]; [|cbn; read_only_steps].
  specialize (Hname n eq_refl eq_refl). cbn [opt_str name_is].
  assert (Hw : forall s, In s writing_tools -> String.eqb n s = false).
  { intros s Hs. apply String.eqb_neq. intros ->. contradiction. }
  rewrite (Hw "get_today_stats"), (Hw "mark_student_submitted"), (Hw "set_student_grade"),
    (Hw "add_student"), (Hw "update_student"), (Hw "delete_student"), (Hw "get_task_details")
    by (cbn; tauto).
  repeat match goal with
         | |- read_only (if ?c then _ else _) => destruct c
         end;
    unfold get_student, get_students_by_class, get_students_by_id_range, get_all_classes,
      get_all_tasks, get_student_history;
    read_only_steps.
Qed.

Lemma other_tools_write_nothing_witness :
  snd (_execute_tool example_clock (ret tt) (Some (task_of_row task1)) truncated_call
         submitted_world) = submitted_world.
Proof.
  apply (other_tools_write_nothing example_clock (ret tt) (Some (task_of_row task1))
           truncated_call submitted_world).
  intros f n Hf Hn. injection Hf as <-. injection Hn as <-.
  cbn. intros H. repeat (destruct H as [H|H]; [discriminate|]). exact H.
Defined.

(* ================================================================== *)
(** ** Properties of [compare_versions] *)
(* ================================================================== *)

Lemma first_difference_spec n : forall i p1 p2,
  let z := first_difference n i p1 p2 in
  (z = 0 /\ forall j, (i <= j < i + n)%nat -> nth j p1 0 = nth j p2 0) \/
  (z <> 0 /\
   exists k, (i <= k < i + n)%nat /\
             (forall j, (i <= j < k)%nat -> nth j p1 0 = nth j p2 0) /\
             z = nth k p1 0 - nth k p2 0).
Proof.
  induction n as [|n IH]; intros i p1 p2; cbn [first_difference]; cbv zeta.
  - left. split; [reflexivity|]. intros j Hj. lia.
  - destruct (Z.eqb (nth i p1 0) (nth i p2 0)) eqn:E.
    + apply Z.eqb_eq in E. specialize (IH (S i) p1 p2). cbv zeta in IH.
      destruct IH as [[Hz Hall]|(Hz & k & Hk & Hbefore & Hval)].
      * left. split; [exact Hz|]. intros j Hj.
        destruct (Nat.eq_dec j i) as [->|Hne]; [exact E|]. apply Hall. lia.
      * right. split; [exact Hz|]. exists k. split; [lia|]. split; [|exact Hval].
        intros j Hj. destruct (Nat.eq_dec j i) as [->|Hne]; [exact E|]. apply Hbefore. lia.
    + apply Z.eqb_neq in E. right. split; [lia|]. exists i. split; [lia|].
      split; [|reflexivity]. intros j Hj. lia.
Qed.

Lemma first_difference_opp n : forall i p1 p2,
  first_difference n i p2 p1 = - first_difference n i p1 p2.
Proof.
  induction n as [|n IH]; intros i p1 p2; cbn [first_difference]; [reflexivity|].
  rewrite (Z.eqb_sym (nth i p2 0)). destruct (Z.eqb (nth i p1 0) (nth i p2 0)); [apply IH|lia].
Qed.

(** X20 ([compare_versions]). For two version strings whose parts between
    the dots all read as integers, [compare_versions] returns the difference
    of the parts at the first position where the two versions differ, a
    missing part counting as 0, and 0 when there is no such position: so
    [1.0] and [1.0.0] compare equal, the sign of the result orders the
    versions part by part, not as texts, and exchanging the arguments
    changes the sign. *)
Theorem compare_versions_first_difference (v1 v2 : string) (p1 p2 : list Z) :
  normalize v1 = inr p1 ->
  normalize v2 = inr p2 ->
  exists z,
    compare_versions v1 v2 = inr z /\
    compare_versions v2 v1 = inr (- z) /\
    ((z = 0 /\ forall i, nth i p1 0 = nth i p2 0) \/
     (z <> 0 /\
      exists k, (forall i, (i < k)%nat -> nth i p1 0 = nth i p2 0) /\
                z = nth k p1 0 - nth k p2 0)).
Proof.
  intros H1 H2. unfold compare_versions. rewrite H1, H2.
  eexists. split; [reflexivity|]. split.
  - now rewrite Nat.max_comm, first_difference_opp.
  - pose proof (first_difference_spec (Nat.max (List.length p1) (List.length p2)) 0 p1 p2) as H.
    cbv zeta in H. destruct H as [[Hz Hall]|(Hz & k & Hk & Hbefore & Hval)].
    + left. split; [exact Hz|]. intros i.
      destruct (Nat.lt_ge_cases i (Nat.max (List.length p1) (List.length p2))) as [Hlt|Hge].
      * apply Hall. lia.
      * rewrite !nth_overflow by lia. reflexivity.
    + right. split; [exact Hz|]. exists k. split; [|exact Hval].
      intros i Hi. apply Hbefore. lia.
Qed.

Lemma compare_versions_first_difference_witness :
  exists z,
    compare_versions "1.10.0" "1.9" = inr z /\
    compare_versions "1.9" "1.10.0" = inr (- z) /\
    ((z = 0 /\ forall i, nth i [1; 10; 0] 0 = nth i [1; 9] 0) \/
     (z <> 0 /\
      exists k, (forall i, (i < k)%nat -> nth i [1; 10; 0] 0 = nth i [1; 9] 0) /\
                z = nth k [1; 10; 0] 0 - nth k [1; 9] 0)).
Proof.
  apply (compare_versions_first_difference "1.10.0" "1.9" [1; 10; 0] [1; 9]); reflexivity.
Defined.

(* ================================================================== *)
(** ** Properties of the pages *)
(* ================================================================== *)

Ltac run_page :=
  cbv beta iota zeta delta [page_bind page_ret call field assign].

(** What the queries of a page may do to the store: add, at the end of
    [task_details], records of status [missing] without a grade for students
    of the roster. *)
Definition backfilled (d d' : db) : Prop :=
  students d' = students d /\ tasks d' = tasks d /\
  exists rows,
    task_details d' = task_details d ++ rows /\
    Forall (fun r => In (td_student_id r) (map st_student_id (students d)) /\
                     td_status r = Some "missing" /\ td_grade r = None) rows.

Lemma backfilled_refl d : backfilled d d.
Proof. repeat split. exists []. now rewrite app_nil_r. Qed.

Lemma backfilled_trans d1 d2 d3 : backfilled d1 d2 -> backfilled d2 d3 -> backfilled d1 d3.
Proof.
  intros (Hs1 & Ht1 & rows1 & Hd1 & Hr1) (Hs2 & Ht2 & rows2 & Hd2 & Hr2).
  split; [congruence|]. split; [congruence|].
  exists (rows1 ++ rows2). split; [now rewrite Hd2, Hd1, app_assoc|].
  apply Forall_app. split; [exact Hr1|]. now rewrite <- Hs1.
Qed.

Lemma ensure_task_students_backfilled clk task_id w :
  backfilled (w_db w) (w_db (snd (ensure_task_students clk task_id w))).
Proof.
  destruct (ensure_task_students_frame clk task_id w) as (rows & seq' & Hdb & Hrows).
  rewrite Hdb. repeat split. exists rows. split; [reflexivity|].
  rewrite Forall_forall in *. intros r Hr.
  destruct (Hrows r Hr) as ((p & _ & _ & Hm & Hg) & Hin & _). now repeat split.
Qed.

Lemma get_students_by_class_pure class_name : read_only (get_students_by_class class_name).
Proof. unfold get_students_by_class. read_only_steps. Qed.

Lemma get_student_pure student_id : read_only (get_student student_id).
Proof. unfold get_student. read_only_steps. Qed.

Lemma missing_of_backfilled clk tid classes : forall missing w,
  backfilled (w_db w) (w_db (snd (SubmitPage.missing_of clk tid classes missing w))).
Proof.
  induction classes as [|cls r IH]; intros missing w; cbn [SubmitPage.missing_of].
  - apply backfilled_refl.
  - unfold bind.
    pose proof (get_missing_students_db clk tid (PStr cls) w) as Hdb.
    pose proof (ensure_task_students_backfilled clk tid w) as Hb. rewrite <- Hdb in Hb.
    destruct (get_missing_students clk tid (PStr cls) w) as [[e|l] w1]; cbn [snd] in Hb |- *;
      [exact Hb|].
    eapply backfilled_trans; [exact Hb|apply IH].
Qed.

Lemma total_of_pure classes : forall total, read_only (SubmitPage.total_of classes total).
Proof.
  induction classes as [|cls r IH]; intros total; cbn [SubmitPage.total_of].
  - apply read_only_ret.
  - apply read_only_bind; [apply get_students_by_class_pure|intros sts; apply IH].
Qed.

Lemma submit_refresh_data_frame clk task p w :
  let r := SubmitPage.refresh_data clk (Some task) p w in
  SubmitPage.unknown_items (snd (fst r)) = SubmitPage.unknown_items p /\
  SubmitPage.display_classes (snd (fst r)) = SubmitPage.display_classes p /\
  SubmitPage.status_bar (snd (fst r)) = SubmitPage.status_bar p /\
  SubmitPage.task_id (snd (fst r)) = PInt (task_id_of task) /\
  backfilled (w_db w) (w_db (snd r)).
Proof.
  cbv zeta. unfold SubmitPage.refresh_data. run_page.
  unfold SubmitPage.set_task_id.
  cbn [SubmitPage.display_classes SubmitPage.task_id SubmitPage.unknown_items].
  destruct (SubmitPage.display_classes p) as [|c cs] eqn:Ec.
  { cbn. rewrite ?Ec. repeat (split; [reflexivity|]). apply backfilled_refl. }
  cbv beta iota. cbn [SubmitPage.task_id].
  pose proof (get_submitted_students_db clk (PInt (task_id_of task)) w) as Hdb.
  pose proof (ensure_task_students_backfilled clk (PInt (task_id_of task)) w) as Hb.
  rewrite <- Hdb in Hb.
  destruct (get_submitted_students clk (PInt (task_id_of task)) w) as [[e|l] w1];
    cbn [snd] in Hb.
  { cbn. rewrite ?Ec. repeat (split; [reflexivity|]). exact Hb. }
  pose proof (missing_of_backfilled clk (PInt (task_id_of task)) (c :: cs) [] w1) as Hb2.
  destruct (SubmitPage.missing_of clk (PInt (task_id_of task)) (c :: cs) [] w1)
    as [[e|m] w2]; cbn [snd] in Hb2.
  { cbn. rewrite ?Ec. repeat (split; [reflexivity|]).
    eapply backfilled_trans; eassumption. }
  pose proof (total_of_pure (c :: cs) 0%nat w2) as Hp.
  destruct (SubmitPage.total_of (c :: cs) 0%nat w2) as [[e|t] w3]; cbn [snd] in Hp; subst w3;
    cbn; rewrite ?Ec; repeat (split; [reflexivity|]);
    eapply backfilled_trans; eassumption.
Qed.

Lemma get_connection_rollback {A} (body : M A) w e w1 :
  get_connection body w = (inl e, w1) -> w_db w1 = w_db w.
Proof.
  unfold get_connection. destruct (body w) as [[e'|a] w2]; intros H; inversion H; reflexivity.
Qed.

(** [submit_student] and [set_grade] write to [task_details] only. *)
Lemma upsert_tables clk task_id student_id grade w :
  (students (w_db (snd (submit_student clk task_id student_id w))) = students (w_db w) /\
   tasks (w_db (snd (submit_student clk task_id student_id w))) = tasks (w_db w)) /\
  (students (w_db (snd (set_grade clk task_id student_id grade w))) = students (w_db w) /\
   tasks (w_db (snd (set_grade clk task_id student_id grade w))) = tasks (w_db w)).
Proof.
  split.
  - unfold submit_student, get_connection, bind, lift.
    destruct (bind_params _) as [e'|ps]; [now split|].
    unfold upsert_detail. run_method.
    destruct (integer_affinity (nth 0 ps SqlNull)); [now split| | |];
      (destruct (text_affinity (nth 1 ps SqlNull)); [|now split]);
      cbn [w_db w_tick]; destruct (existsb _ _); now split.
  - unfold set_grade, get_connection, bind, lift.
    destruct (bind_params _) as [e'|ps]; [now split|]. cbv zeta.
    unfold upsert_detail. run_method.
    destruct (integer_affinity (nth 0 ps SqlNull)); [now split| | |];
      (destruct (text_affinity (nth 1 ps SqlNull)); [|now split]);
      cbn [w_db w_tick]; destruct (existsb _ _); now split.
Qed.

Lemma get_student_find sid w :
  get_student (PStr sid) w
  = (inr (find (fun s => String.eqb (st_student_id s) sid) (students (w_db w))), w).
Proof. unfold get_student. run_method. cbn [bind_param]. now destruct w. Qed.

(** X21 ([SubmitPage.handle_input]). With a current task, an identifier that
    is typed on the submit page is looked up in the roster first. When it is
    not there, no record is written for it: the identifier is put on the
    list of unknown ones, once, the status bar says so, and the store only
    gets the records the queries of the refresh add for students of the
    roster. When it is there, its class joins the classes on display and the
    student is submitted under the task id of the page: afterwards a record
    of status [submitted] exists for them under that id. Neither case
    touches the roster or the tasks. *)
Theorem submit_page_handle_input
    (clk : clock) (task : task_dict) (student_id : string)
    (p : SubmitPage.page) (w : world) :
  let r := SubmitPage.handle_input clk (Some task) student_id p w in
  let p' := snd (fst r) in
  let d' := w_db (snd r) in
  students d' = students (w_db w) /\ tasks d' = tasks (w_db w) /\
  match find (fun s => String.eqb (st_student_id s) student_id) (students (w_db w)) with
  | None =>
      SubmitPage.unknown_items p'
      = (if existsb (String.eqb student_id) (SubmitPage.unknown_items p)
         then SubmitPage.unknown_items p
         else SubmitPage.unknown_items p ++ [student_id]) /\
      SubmitPage.display_classes p' = SubmitPage.display_classes p /\
      SubmitPage.status_bar p' = Some (("学号 " ++ student_id ++ " 不在花名册")%string, true) /\
      backfilled (w_db w) d' /\
      (forall r, In r (task_details d') -> td_student_id r = student_id ->
                 In r (task_details (w_db w)))
  | Some s =>
      SubmitPage.unknown_items p' = SubmitPage.unknown_items p /\
      SubmitPage.display_classes p'
      = SubmitPage.add_class (st_class s) (SubmitPage.display_classes p) /\
      forall T, SubmitPage.task_id p = PInt T -> int64 T = true ->
        SubmitPage.status_bar p' = Some (("已记录: " ++ st_name s)%string, false) /\
        exists r, In r (task_details d') /\ td_task_id r = SqlInt T /\
                  td_student_id r = student_id /\ td_status r = Some "submitted"
  end.
Proof.
  cbv zeta. unfold SubmitPage.handle_input. run_page. rewrite get_student_find.
  destruct (find (fun s => String.eqb (st_student_id s) student_id) (students (w_db w)))
    as [s|] eqn:Ef.
  - unfold SubmitPage.set_display_classes.
    cbn [SubmitPage.task_id SubmitPage.display_classes].
    destruct (submit_student clk (SubmitPage.task_id p) (PStr student_id) w)
      as [[e|[]] w1] eqn:Es.
    + pose proof (get_connection_rollback _ _ _ _ Es) as Hdb.
      cbn [fst snd]. rewrite Hdb. do 4 (split; [reflexivity|]).
      intros T HT Hint. exfalso. rewrite HT, (submit_student_run clk T student_id w Hint) in Es.
      destruct (upsert_detail_rows clk T student_id (Some "submitted") None
                  (fun now r => mkDetail (td_id r) (td_task_id r) (td_student_id r)
                                  (Some "submitted") (td_grade r) now) w) as (Hok & _);
        [intros; now split|].
      rewrite Es in Hok. discriminate.
    + match goal with
      | |- context [SubmitPage.refresh_data clk (Some task) ?p1 w1] =>
          destruct (submit_refresh_data_frame clk task p1 w1)
            as (Hu & Hc & Hsb & _ & Hs & Ht & rows & Hd & _)
      end.
      cbv zeta in *. unfold SubmitPage.set_status in Hu, Hc, Hsb.
      cbn [SubmitPage.unknown_items SubmitPage.display_classes SubmitPage.status_bar]
        in Hu, Hc, Hsb.
      pose proof (upsert_tables clk (SubmitPage.task_id p) (PStr student_id) PNone w) as Hst.
      rewrite Es in Hst. cbn [snd] in Hst. destruct Hst as [Hst _].
      destruct Hst as [Hst Htk].
      split; [congruence|]. split; [congruence|].
      split; [exact Hu|]. split; [exact Hc|].
      intros T HT Hint. split; [exact Hsb|].
      rewrite HT, (submit_student_run clk T student_id w Hint) in Es.
      destruct (upsert_detail_rows clk T student_id (Some "submitted") None
                  (fun now r => mkDetail (td_id r) (td_task_id r) (td_student_id r)
                                  (Some "submitted") (td_grade r) now) w)
        as (_ & _ & _ & (r & Hr & Hk) & Hrows & _); [intros; now split|].
      cbv zeta in *. rewrite Es in Hr, Hrows. cbn [snd] in Hr, Hrows.
      exists r. split; [rewrite Hd; apply in_or_app; now left|].
      pose proof (same_key_eq _ _ _ Hk) as [Hkt Hks]. split; [exact Hkt|]. split; [exact Hks|].
      destruct (Hrows r Hr Hk) as [(r0 & _ & _ & ->)|(_ & ->)]; reflexivity.
  - cbn [SubmitPage.unknown_items].
    assert (Hroster : ~ In student_id (map st_student_id (students (w_db w)))).
    { intros Hin. apply in_map_iff in Hin. destruct Hin as (s & Hs & Hin).
      apply (find_none _ _ Ef) in Hin. rewrite Hs, String.eqb_refl in Hin. discriminate. }
    destruct (existsb (String.eqb student_id) (SubmitPage.unknown_items p)) eqn:Eu;
      match goal with
      | |- context [SubmitPage.refresh_data clk (Some task) ?p1 w] =>
          destruct (submit_refresh_data_frame clk task p1 w)
            as (Hu & Hc & Hsb & _ & Hb)
      end;
      cbv zeta in *;
      unfold SubmitPage.set_status, SubmitPage.set_unknown_items in Hu, Hc, Hsb;
      cbn [SubmitPage.unknown_items SubmitPage.display_classes SubmitPage.status_bar]
        in Hu, Hc, Hsb;
      pose proof Hb as (Hs & Ht & rows & Hd & Hrows);
      (split; [exact Hs|]); (split; [exact Ht|]);
      (split; [exact Hu|]); (split; [exact Hc|]); (split; [exact Hsb|]);
      (split; [exact Hb|]);
      intros r Hr Hsid; rewrite Hd in Hr; apply in_app_or in Hr;
      (destruct Hr as [Hr|Hr]; [exact Hr|]);
      exfalso; rewrite Forall_forall in Hrows; destruct (Hrows r Hr) as [Hin _];
      rewrite Hsid in Hin; contradiction.
Qed.







(** *** The numbers of the submit page *)

Lemma get_students_by_class_run class_name w :
  get_students_by_class (PStr class_name) w
  = (inr (order_by student_id_le
            (filter (fun s => String.eqb (st_class s) class_name) (students (w_db w)))), w).
Proof. unfold get_students_by_class. run_method. cbn [bind_param]. now destruct w. Qed.

Lemma fold_right_ext_in {A B} (f g : A -> B -> B) (b : B) (l : list A) :
  (forall x n, In x l -> f x n = g x n) -> fold_right f b l = fold_right g b l.
Proof.
  induction l as [|x l IH]; intros H; cbn [fold_right]; [reflexivity|].
  rewrite IH by (intros y n Hy; apply H; now right). apply H. now left.
Qed.

Lemma length_filter_split {A} (P Q : A -> bool) (l : list A) :
  List.length (filter P l)
  = (List.length (filter (fun x => P x && Q x) l)
     + List.length (filter (fun x => P x && negb (Q x)) l))%nat.
Proof.
  induction l as [|x l IH]; cbn [filter]; [reflexivity|].
  destruct (P x), (Q x); cbn [andb negb List.length]; lia.
Qed.

Lemma filter_filter {A} (F G : A -> bool) (l : list A) :
  filter F (filter G l) = filter (fun x => G x && F x) l.
Proof.
  induction l as [|x l IH]; cbn [filter]; [reflexivity|].
  destruct (G x); cbn [andb filter]; [destruct (F x)|]; now rewrite IH.
Qed.

Lemma filter_if {A} (c : bool) (f : A -> bool) (l : list A) :
  (if c then filter f l else []) = filter (fun x => c && f x) l.
Proof.
  destruct c; cbn [andb]; [reflexivity|]. symmetry. now apply filter_none.
Qed.

Lemma length_chunks {A B} (chunk : A -> list B) (P : A -> bool) (l : list A) :
  (forall s, In s l -> List.length (chunk s) = if P s then 1%nat else 0%nat) ->
  List.length (flat_map chunk l) = List.length (filter P l).
Proof.
  induction l as [|s l IH]; intros H; cbn [flat_map filter]; [reflexivity|].
  rewrite length_app, (H s (or_introl eq_refl)), IH.
  - now destruct (P s).
  - intros x Hx. apply H. now right.
Qed.

(** Counting the pairs of a relation by rows or by columns. *)
Lemma length_flat_map_swap {A B} (P : A -> B -> bool) (la : list A) (lb : list B) :
  List.length (flat_map (fun a => filter (P a) lb) la)
  = List.length (flat_map (fun b => filter (fun a => P a b) la) lb).
Proof.
  induction la as [|a la IH]; cbn [flat_map filter].
  - induction lb as [|b lb IHb]; [reflexivity|exact IHb].
  - rewrite length_app, IH. clear IH.
    induction lb as [|b lb IHb]; cbn [flat_map filter]; [reflexivity|].
    rewrite !length_app. cbn [filter].
    destruct (P a b); cbn [List.length]; lia.
Qed.

(** The students on display, class by class: the classes are distinct. *)
Lemma length_filter_classes (Q : student_row -> bool) (l : list student_row) :
  forall classes, NoDup classes ->
  List.length (filter (fun s => existsb (String.eqb (st_class s)) classes && Q s) l)
  = fold_right (fun c n =>
                  (List.length (filter (fun s => String.eqb (st_class s) c && Q s) l) + n)%nat)
      0%nat classes.
Proof.
  induction classes as [|c cs IH]; intros Hnd; cbn [existsb fold_right].
  - rewrite filter_none; [reflexivity|]. intros x _. reflexivity.
  - inversion Hnd as [|x xs Hnotin Hnd']; subst. rewrite <- (IH Hnd'). clear IH.
    induction l as [|s l IHl]; cbn [filter]; [reflexivity|].
    destruct (String.eqb (st_class s) c) eqn:Ec.
    + apply String.eqb_eq in Ec.
      assert (En : existsb (String.eqb (st_class s)) cs = false).
      { destruct (existsb (String.eqb (st_class s)) cs) eqn:E; [|reflexivity].
        apply existsb_eqb_In in E. rewrite Ec in E. contradiction. }
      rewrite En. cbn [orb andb]. destruct (Q s); cbn [List.length]; lia.
    + cbn [orb andb].
      destruct (existsb (String.eqb (st_class s)) cs && Q s); cbn [List.length]; lia.
Qed.

(** The submitted students that a predicate on students keeps. *)
Lemma submitted_join_count (F : student_row -> bool) tid d :
  roster_distinct d -> keys_distinct d ->
  List.length (filter F (submitted_join tid d))
  = List.length (filter (fun s => F s && has_submitted tid (task_details d) s) (students d)).
Proof.
  intros Hnd [Hk _]. unfold submitted_join.
  set (P := fun (r : detail_row) (s : student_row) =>
              (of_task tid r && is_submitted r)
                && (String.eqb (td_student_id r) (st_student_id s) && F s)).
  assert (E : filter F
                (flat_map
                   (fun r =>
                      if of_task tid r
                         && match td_status r with
                            | Some st => String.eqb st "submitted"
                            | None => false
                            end
                      then filter (fun s => String.eqb (td_student_id r) (st_student_id s))
                             (students d)
                      else []) (task_details d))
              = flat_map (fun r => filter (P r) (students d)) (task_details d)).
  { clear Hk Hnd. induction (task_details d) as [|r l IH]; cbn [flat_map filter]; [reflexivity|].
    rewrite filter_app, IH. f_equal. fold (is_submitted r).
    rewrite filter_if, filter_filter. apply filter_ext. intros s. unfold P.
    now destruct (of_task tid r && is_submitted r). }
  rewrite E, length_flat_map_swap. apply length_chunks. intros s Hs.
  unfold has_submitted.
  assert (Hf : filter (fun r => P r s) (task_details d)
               = filter (fun r => F s && is_submitted r)
                   (filter (join_test tid s) (task_details d))).
  { rewrite filter_filter. apply filter_ext. intros r. unfold P, join_test.
    rewrite (String.eqb_sym (td_student_id r)).
    destruct (of_task tid r), (is_submitted r), (String.eqb (st_student_id s) (td_student_id r)),
      (F s); reflexivity. }
  rewrite Hf.
  assert (Hex : existsb (fun r => same_key tid (st_student_id s) r && is_submitted r)
                  (task_details d)
                = existsb is_submitted (filter (join_test tid s) (task_details d))).
  { clear. induction (task_details d) as [|r l IH]; cbn [existsb filter]; [reflexivity|].
    rewrite join_test_same_key.
    destruct (same_key tid (st_student_id s) r); cbn [andb orb existsb]; now rewrite IH. }
  rewrite Hex.
  destruct (filter (join_test tid s) (task_details d)) as [|r rs] eqn:Ej.
  - cbn. now rewrite andb_false_r.
  - rewrite (filter_at_most_one detail_key (tid, st_student_id s) _ _ Hk
               (join_test_key tid s) r rs Ej).
    cbn [filter existsb]. rewrite orb_false_r.
    destruct (F s), (is_submitted r); reflexivity.
Qed.

(** The missing students of a class. *)
Lemma missing_count tid c d :
  tid <> SqlNull ->
  keys_distinct d -> statuses_known tid d ->
  List.length
    (filter (fun j => is_missing j && text_eqb (st_class (fst j)) (Some c))
       (left_join_details tid d))
  = List.length
      (filter (fun s => String.eqb (st_class s) c
                        && negb (has_submitted tid (task_details d) s)) (students d)).
Proof.
  intros Hnn Hkd Hst. pose proof Hkd as [Hk _]. unfold left_join_details.
  apply length_filter_chunks. intros s _. fold (join_test tid s).
  rewrite (has_submitted_unique tid d s Hkd).
  destruct (filter (join_test tid s) (task_details d)) as [|r rs] eqn:Ej.
  - cbn [filter hd_error negb]. unfold is_missing, joined_status.
    cbn [snd fst text_eqb andb]. rewrite andb_true_r.
    now destruct (String.eqb (st_class s) c).
  - pose proof (filter_at_most_one detail_key (tid, st_student_id s) _ _ Hk
                  (join_test_key tid s) r rs Ej) as Hrs.
    subst rs.
    assert (Hr : In r (filter (join_test tid s) (task_details d))) by (rewrite Ej; now left).
    apply filter_In in Hr. destruct Hr as [Hr Hjt]. apply join_test_key in Hjt.
    unfold detail_key in Hjt. injection Hjt as Ht _.
    cbn [map filter hd_error]. unfold is_missing, joined_status, is_submitted.
    cbn [snd fst text_eqb].
    destruct (Hst r Hr Ht) as [-> | [-> | ->]]; cbn;
      now destruct (String.eqb (st_class s) c).
Qed.

(** After a backfill that went through, another one changes nothing. *)
Lemma ensure_task_students_stable clk T w w1 :
  int64 T = true ->
  fst (ensure_task_students clk (PInt T) w) = inr tt ->
  w_db w1 = w_db (snd (ensure_task_students clk (PInt T) w)) ->
  w_db (snd (ensure_task_students clk (PInt T) w1)) = w_db w1.
Proof.
  intros HT Hok Hdb. revert Hok Hdb. rewrite !ensure_task_students_unfold.
  cbn [bind_param]. rewrite HT. cbv zeta. cbn [integer_affinity].
  destruct (Nat.ltb _ (List.length (students (w_db w)))) eqn:El.
  - destruct (missing_ids_of (SqlInt T) (w_db w)) as [|m ms] eqn:Em.
    + intros _ Hdb. cbn [snd] in Hdb.
      replace (List.length (filter (of_task (SqlInt T)) (task_details (w_db w1))) <?
               List.length (students (w_db w1)))%nat with true by now rewrite Hdb.
      replace (missing_ids_of (SqlInt T) (w_db w1)) with (@nil string) by now rewrite Hdb.
      reflexivity.
    + destruct (insert_missing clk (SqlInt T) (m :: ms) w) as [[e|[]] w2] eqn:Ei;
        cbn [fst snd]; [discriminate|]. intros _ Hdb.
      apply insert_missing_ok in Ei.
      destruct Ei as (rows & seq' & Hdb2 & Hids & Hrows & _ & _).
      destruct (Nat.ltb _ (List.length (students (w_db w1)))); [|reflexivity].
      assert (Hnone : missing_ids_of (SqlInt T) (w_db w1) = []).
      { unfold missing_ids_of. rewrite Hdb, Hdb2. cbn [set_task_details task_details students].
        apply no_missing_ids_after; [discriminate|exact Hrows|].
        rewrite Hids. symmetry. exact Em. }
      now rewrite Hnone.
  - intros _ Hdb. cbn [snd] in Hdb.
    replace (List.length (filter (of_task (SqlInt T)) (task_details (w_db w1))) <?
             List.length (students (w_db w1)))%nat with false by now rewrite Hdb.
    reflexivity.
Qed.

Section SubmitPageCounts.

Context (clk : clock) (T : Z) (d1 : db).
Hypothesis HT : int64 T = true.
Hypothesis Hstable : forall w, w_db w = d1 ->
  fst (ensure_task_students clk (PInt T) w) = inr tt /\
  w_db (snd (ensure_task_students clk (PInt T) w)) = d1.

Lemma get_missing_students_class_run c w :
  w_db w = d1 -> c <> "" ->
  exists w',
    get_missing_students clk (PInt T) (PStr c) w
    = (inr (map (fun j => view_of_student (fst j))
              (order_by joined_id_le
                 (filter (fun j => is_missing j && text_eqb (st_class (fst j)) (Some c))
                    (left_join_details (SqlInt T) d1)))), w') /\
    w_db w' = d1.
Proof.
  intros Hw Hc. destruct (Hstable w Hw) as [Hok Hdb].
  unfold get_missing_students, bind.
  destruct (ensure_task_students clk (PInt T) w) as [[e|[]] w1]; cbn [fst snd] in Hok, Hdb;
    [discriminate|].
  cbn [truthy]. apply String.eqb_neq in Hc. rewrite Hc. cbn [negb].
  cbn [bind_params bind_param]. rewrite HT. run_method.
  cbn [nth integer_affinity text_affinity fst snd]. rewrite Hdb.
  exists w1. split; [reflexivity|exact Hdb].
Qed.

Lemma missing_of_run classes : forall missing w,
  w_db w = d1 -> ~ In "" classes ->
  exists l w',
    SubmitPage.missing_of clk (PInt T) classes missing w = (inr (missing ++ l), w') /\
    w_db w' = d1 /\
    List.length l
    = fold_right
        (fun c n =>
           (List.length
              (filter (fun j => is_missing j && text_eqb (st_class (fst j)) (Some c))
                 (left_join_details (SqlInt T) d1)) + n)%nat) 0%nat classes.
Proof.
  induction classes as [|c cs IH]; intros missing w Hw Hne; cbn [SubmitPage.missing_of].
  - exists [], w. rewrite app_nil_r. now repeat split.
  - destruct (get_missing_students_class_run c w Hw) as (w1 & Hrun & Hw1).
    { intros ->. apply Hne. now left. }
    unfold bind. rewrite Hrun.
    match goal with
    | |- context [SubmitPage.missing_of clk (PInt T) cs ?m w1] =>
        destruct (IH m w1 Hw1) as (l & w2 & Hrun2 & Hw2 & Hlen)
    end.
    { intros Hin. apply Hne. now right. }
    rewrite Hrun2. eexists. exists w2. split; [now rewrite <- app_assoc|].
    split; [exact Hw2|]. rewrite length_app, length_map, Hlen. cbn [fold_right].
    now rewrite <- (Permutation_length (order_by_perm joined_id_le _)).
Qed.

Lemma total_of_run classes : forall total w,
  w_db w = d1 ->
  SubmitPage.total_of classes total w
  = (inr (total
          + fold_right
              (fun c n =>
                 (List.length (filter (fun s => String.eqb (st_class s) c) (students d1)) + n)%nat)
              0%nat classes)%nat, w).
Proof.
  induction classes as [|c cs IH]; intros total w Hw; cbn [SubmitPage.total_of fold_right].
  - unfold ret. now rewrite Nat.add_0_r.
  - unfold bind. rewrite get_students_by_class_run, (IH _ w Hw), Hw.
    rewrite <- (Permutation_length (order_by_perm student_id_le _)).
    now rewrite Nat.add_assoc.
Qed.

End SubmitPageCounts.

(** X23 (the numbers of the submit page add up). For a current task with a
    64-bit id, a roster of distinct identifiers, records that respect the
    UNIQUE constraint and carry, under the task, only the statuses the
    methods write, and a set of displayed classes that is not empty and does
    not hold the empty class: [SubmitPage.refresh_data] returns and sets the
    labels so that the total is the number of students of the displayed
    classes, the number of submitted students is the number of those that
    have a record of status [submitted] under the task, and the number of
    missing students is the rest. *)
Theorem submit_page_counts (clk : clock) (task : task_dict) (p : SubmitPage.page) (w : world) :
  int64 (task_id_of task) = true ->
  roster_distinct (w_db w) ->
  keys_distinct (w_db w) ->
  statuses_known (SqlInt (task_id_of task)) (w_db w) ->
  NoDup (SubmitPage.display_classes p) ->
  SubmitPage.display_classes p <> [] ->
  ~ In "" (SubmitPage.display_classes p) ->
  let r := SubmitPage.refresh_data clk (Some task) p w in
  let shown := fun s => existsb (String.eqb (st_class s)) (SubmitPage.display_classes p) in
  exists total submitted missing,
    fst (fst r) = inr tt /\
    SubmitPage.labels (snd (fst r))
    = (total, submitted, missing, List.length (SubmitPage.unknown_items p)) /\
    total = List.length (filter shown (students (w_db w))) /\
    submitted
    = List.length
        (filter (fun s => shown s
                          && has_submitted (SqlInt (task_id_of task)) (task_details (w_db w)) s)
           (students (w_db w))) /\
    total = (submitted + missing)%nat.
Proof.
  intros HT Hnd Hk Hst Hcls Hne Hempty. cbv zeta.
  set (T := task_id_of task) in *.
  set (d1 := w_db (snd (ensure_task_students clk (PInt T) w))).
  pose proof (ensure_task_students_succeeds clk T w HT Hnd) as Hok.
  pose proof (ensure_task_students_keys clk (PInt T) w Hk) as Hk1. fold d1 in Hk1.
  destruct (ensure_task_students_frame clk (PInt T) w) as (rows & seq' & Hdb & Hrows).
  fold d1 in Hdb.
  assert (Hs1 : students d1 = students (w_db w)) by now rewrite Hdb.
  assert (Hnd1 : roster_distinct d1) by (unfold roster_distinct; now rewrite Hs1).
  assert (Hmiss : Forall (fun r => td_status r = Some "missing") rows).
  { rewrite Forall_forall in *. intros r Hr.
    now destruct (Hrows r Hr) as ((q & _ & _ & Hm & _) & _). }
  assert (Hsubeq : forall s, has_submitted (SqlInt T) (task_details d1) s
                             = has_submitted (SqlInt T) (task_details (w_db w)) s).
  { intros s. rewrite Hdb. cbn [set_task_details task_details].
    now apply has_submitted_backfill. }
  assert (Hst1 : statuses_known (SqlInt T) d1).
  { intros r Hr Ht. rewrite Hdb in Hr. cbn [set_task_details task_details] in Hr.
    apply in_app_or in Hr. destruct Hr as [Hr|Hr]; [now apply Hst|].
    rewrite Forall_forall in Hmiss. right. left. now apply Hmiss. }
  assert (Hstable : forall w0, w_db w0 = d1 ->
            fst (ensure_task_students clk (PInt T) w0) = inr tt /\
            w_db (snd (ensure_task_students clk (PInt T) w0)) = d1).
  { intros w0 Hw0. split.
    - apply ensure_task_students_succeeds; [exact HT|]. now rewrite Hw0.
    - rewrite (ensure_task_students_stable clk T w w0 HT Hok Hw0). exact Hw0. }
  unfold SubmitPage.refresh_data. run_page.
  unfold SubmitPage.set_task_id.
  cbn [SubmitPage.display_classes SubmitPage.task_id SubmitPage.unknown_items].
  destruct (SubmitPage.display_classes p) as [|c cs] eqn:Ec; [contradiction|].
  cbv beta iota. cbn [SubmitPage.task_id]. fold T.
  pose proof (get_submitted_students_run clk T w HT Hnd) as Hsub. fold d1 in Hsub.
  pose proof (get_submitted_students_db clk (PInt T) w) as Hsdb. fold d1 in Hsdb.
  destruct (get_submitted_students clk (PInt T) w) as [[e|sub] w1]; cbn [fst snd] in Hsub, Hsdb;
    [discriminate|]. injection Hsub as ->.
  destruct (missing_of_run clk T d1 HT Hstable (c :: cs) [] w1 Hsdb Hempty)
    as (l & w2 & Hmrun & Hw2 & Hlen).
  rewrite Hmrun. rewrite (total_of_run d1 (c :: cs) 0%nat w2 Hw2).
  cbn [app Nat.add]. unfold SubmitPage.set_labels.
  cbn [fst snd SubmitPage.labels SubmitPage.unknown_items].
  do 3 eexists. split; [reflexivity|]. split; [reflexivity|].
  set (shown := fun s : student_row => existsb (String.eqb (st_class s)) (c :: cs)).
  assert (Htotal : fold_right
                     (fun c0 n =>
                        (List.length
                           (filter (fun s => String.eqb (st_class s) c0) (students d1)) + n)%nat)
                     0%nat (c :: cs)
                   = List.length (filter shown (students (w_db w)))).
  { rewrite <- Hs1.
    rewrite (filter_ext shown (fun s => shown s && true)) by (intros s; now rewrite andb_true_r).
    unfold shown. rewrite (length_filter_classes (fun _ => true) _ _ Hcls).
    apply fold_right_ext_in. intros c0 n _. f_equal. f_equal. apply filter_ext.
    intros s. now rewrite andb_true_r. }
  assert (Hsubmitted :
            List.length
              (filter (fun s => existsb (String.eqb (sv_class s)) (c :: cs))
                 (map view_of_student (order_by student_le (submitted_join (SqlInt T) d1))))
            = List.length
                (filter (fun s => shown s
                                  && has_submitted (SqlInt T) (task_details (w_db w)) s)
                   (students (w_db w)))).
  { rewrite length_filter_map.
    rewrite <- (length_filter_perm _ _ _ (order_by_perm student_le _)).
    change (fun x : student_row => existsb (String.eqb (sv_class (view_of_student x))) (c :: cs))
      with shown.
    rewrite (submitted_join_count shown _ _ Hnd1 Hk1), Hs1.
    f_equal. apply filter_ext. intros s. now rewrite Hsubeq. }
  assert (Hmissing :
            List.length l
            = List.length
                (filter (fun s => shown s
                                  && negb (has_submitted (SqlInt T) (task_details (w_db w)) s))
                   (students (w_db w)))).
  { rewrite Hlen. unfold shown.
    rewrite (length_filter_classes
               (fun s => negb (has_submitted (SqlInt T) (task_details (w_db w)) s)) _ _ Hcls).
    apply fold_right_ext_in. intros c0 n _. f_equal.
    rewrite (missing_count (SqlInt T) c0 d1); [|discriminate|exact Hk1|exact Hst1].
    rewrite Hs1. f_equal. apply filter_ext. intros s. now rewrite Hsubeq. }
  split; [exact Htotal|]. split; [exact Hsubmitted|].
  rewrite Htotal, Hsubmitted, Hmissing. apply length_filter_split.
Qed.

Definition example_submit_page : SubmitPage.page :=
  SubmitPage.mkPage (PInt 1) ["2023班"] ["999999"] (0, 0, 0, 0)%nat None.

Lemma submit_page_counts_witness :
  exists total submitted missing,
    fst (fst (SubmitPage.refresh_data example_clock (Some (task_of_row task1))
                example_submit_page submitted_world)) = inr tt /\
    SubmitPage.labels
      (snd (fst (SubmitPage.refresh_data example_clock (Some (task_of_row task1))
                   example_submit_page submitted_world)))
    = (total, submitted, missing, 1%nat) /\
    total = 2%nat /\ submitted = 1%nat /\ total = (submitted + missing)%nat.
Proof.
  destruct (submit_page_counts example_clock (task_of_row task1) example_submit_page
              submitted_world) as (total & submitted & missing & H1 & H2 & H3 & H4 & H5).
  - reflexivity.
  - exact example_roster_distinct.
  - exact example_keys_distinct.
  - exact example_statuses_known.
  - repeat constructor. intros [].
  - discriminate.
  - intros [H|[]]. discriminate.
  - exists total, submitted, missing.
    split; [exact H1|]. split; [exact H2|]. split; [rewrite H3; reflexivity|].
    split; [rewrite H4; reflexivity|exact H5].
Defined.

(** *** The preview of the export *)

(** What the preview shows for a student and a task, read from the record of
    the student under the task. *)
Definition record_text (d : db) (sid : string) (T : Z) : string :=
  match find (same_key (SqlInt T) sid) (task_details d) with
  | None => "已交"
  | Some r =>
      if match td_status r with Some st => String.eqb st "missing" | None => false end
      then "未交"
      else match td_grade r with
           | Some g => if String.eqb g "" then "已交" else g
           | None => "已交"
           end
  end.

Definition history_test (T : Z) (sid : string) (r : detail_row) : bool :=
  sql_eqb (SqlInt T) (td_task_id r) && text_eqb (td_student_id r) (Some sid).

Lemma history_test_key T sid r :
  history_test T sid r = true -> detail_key r = (SqlInt T, sid).
Proof.
  unfold history_test, detail_key. intros H. apply andb_true_iff in H. destruct H as [H1 H2].
  apply sql_eqb_eq in H1. cbn in H2. apply String.eqb_eq in H2. now rewrite <- H1, H2.
Qed.

Lemma history_test_same_key T sid r : history_test T sid r = same_key (SqlInt T) sid r.
Proof.
  unfold history_test, same_key. cbn [text_eqb]. f_equal.
  destruct (td_task_id r); cbn; try reflexivity. apply Z.eqb_sym.
Qed.

Lemma find_ext {A} (f g : A -> bool) (l : list A) :
  (forall x, f x = g x) -> find f l = find g l.
Proof.
  intros H. induction l as [|x l IH]; cbn [find]; [reflexivity|]. now rewrite H, IH.
Qed.

Lemma find_hd_filter {A} (f : A -> bool) (l : list A) : find f l = hd_error (filter f l).
Proof.
  induction l as [|x l IH]; cbn [find filter]; [reflexivity|]. now destruct (f x).
Qed.

Lemma history_get_fold T : forall l acc,
  (fold_left (fun found h => if Z.eqb (hv_task_id h) T then Some h else found) l acc = acc /\
   forall h, In h l -> hv_task_id h <> T) \/
  (exists h,
     fold_left (fun found h => if Z.eqb (hv_task_id h) T then Some h else found) l acc = Some h /\
     In h l /\ hv_task_id h = T).
Proof.
  induction l as [|x l IH]; intros acc; cbn [fold_left].
  - left. split; [reflexivity|]. intros h [].
  - destruct (Z.eqb (hv_task_id x) T) eqn:E.
    + apply Z.eqb_eq in E. right.
      destruct (IH (Some x)) as [[Hf Hno]|(h & Hf & Hin & Hid)].
      * exists x. split; [exact Hf|]. split; [now left|exact E].
      * exists h. split; [exact Hf|]. split; [now right|exact Hid].
    + apply Z.eqb_neq in E.
      destruct (IH acc) as [[Hf Hno]|(h & Hf & Hin & Hid)].
      * left. split; [exact Hf|]. intros h [<-|Hh]; [exact E|now apply Hno].
      * right. exists h. split; [exact Hf|]. split; [now right|exact Hid].
Qed.

Lemma get_student_history_run sid w :
  get_student_history (PStr sid) w
  = (inr (map history_view_of
            (order_by (fun a b => task_date_ge (fst a) (fst b))
               (history_join (Some sid) (w_db w)))), w).
Proof. unfold get_student_history. run_method. cbn [bind_param]. now destruct w. Qed.

(** Under the constraints of the schema, the history of a student has one
    entry for each task, and the cell of the preview is read from the record
    of the student under the task. *)
Lemma preview_cell d sid t :
  NoDup (map tk_id (tasks d)) ->
  keys_distinct d ->
  In t (tasks d) ->
  ExportPage.cell_text
    (ExportPage.history_get
       (map history_view_of
          (order_by (fun a b => task_date_ge (fst a) (fst b)) (history_join (Some sid) d)))
       (tk_id t))
  = record_text d sid (tk_id t).
Proof.
  intros Hids [Hk _] Ht.
  set (H := map history_view_of _).
  set (o := hd_error (filter (history_test (tk_id t) sid) (task_details d))).
  assert (Hentry : forall j, In j (history_join (Some sid) d) -> tk_id (fst j) = tk_id t ->
                             j = (t, o)).
  { intros j Hj Hid. unfold history_join in Hj. apply in_flat_map in Hj.
    destruct Hj as (t' & Ht' & Hj). fold (history_test (tk_id t') sid) in Hj.
    assert (Hfst : fst j = t').
    { revert Hj. destruct (filter (history_test (tk_id t') sid) (task_details d)) as [|m ms];
        intros Hj.
      - now destruct Hj as [<-|[]].
      - apply in_map_iff in Hj. now destruct Hj as (r & <- & _). }
    assert (t' = t) as ->.
    { apply (NoDup_map_inj tk_id (tasks d)); try assumption. now rewrite <- Hfst. }
    subst o. revert Hj.
    destruct (filter (history_test (tk_id t) sid) (task_details d)) as [|m ms] eqn:E;
      intros Hj.
    - now destruct Hj as [<-|[]].
    - pose proof (filter_at_most_one detail_key (SqlInt (tk_id t), sid) _ _ Hk
                    (history_test_key (tk_id t) sid) m ms E) as Hms.
      subst ms. now destruct Hj as [<-|[]]. }
  assert (Hin : In (t, o) (history_join (Some sid) d)).
  { unfold history_join. apply in_flat_map. exists t. split; [exact Ht|].
    fold (history_test (tk_id t) sid). subst o.
    destruct (filter (history_test (tk_id t) sid) (task_details d)) as [|m ms]; now left. }
  assert (Hget : ExportPage.history_get H (tk_id t) = Some (history_view_of (t, o))).
  { unfold ExportPage.history_get.
    destruct (history_get_fold (tk_id t) H None) as [[_ Hno]|(h & Hf & Hh & Hid)].
    - exfalso. apply (Hno (history_view_of (t, o))); [|reflexivity].
      subst H. apply in_map. now apply order_by_In.
    - rewrite Hf. f_equal. subst H. apply in_map_iff in Hh. destruct Hh as (j & <- & Hj).
      apply order_by_In in Hj. now rewrite (Hentry j Hj Hid). }
  rewrite Hget. unfold record_text.
  rewrite (find_ext (same_key (SqlInt (tk_id t)) sid) (history_test (tk_id t) sid))
    by (intros r; symmetry; apply history_test_same_key).
  rewrite find_hd_filter. fold o. unfold ExportPage.cell_text, history_view_of.
  cbn [snd hv_status hv_grade]. now destruct o as [r|].
Qed.

Lemma fill_rows_run d tasks0 : forall students0 p w,
  w_db w = d ->
  NoDup (map tk_id (tasks d)) ->
  keys_distinct d ->
  (forall t, In t tasks0 -> In t (tasks d)) ->
  ExportPage.fill_rows tasks0 students0 p w
  = (inr tt,
     ExportPage.mkPage (ExportPage.preview_headers p)
       (ExportPage.preview_data p
          ++ map (fun stu => [st_student_id stu; st_name stu]
                               ++ map (fun t => record_text d (st_student_id stu) (tk_id t)) tasks0)
                 students0),
     w).
Proof.
  induction students0 as [|stu r IH]; intros p w Hw Hids Hk Hsub; cbn [ExportPage.fill_rows].
  - cbn. rewrite app_nil_r. now destruct p.
  - run_page. rewrite get_student_history_run. rewrite (IH _ w Hw Hids Hk Hsub).
    cbn [ExportPage.preview_headers ExportPage.preview_data map].
    rewrite <- app_assoc. cbn [app].
    rewrite (map_ext_in
               (fun t => ExportPage.cell_text
                           (ExportPage.history_get
                              (map history_view_of
                                 (order_by (fun a b => task_date_ge (fst a) (fst b))
                                    (history_join (Some (st_student_id stu)) (w_db w))))
                              (tk_id t)))
               (fun t => record_text d (st_student_id stu) (tk_id t))); [reflexivity|].
    intros t Ht. rewrite Hw. apply preview_cell; auto.
Qed.

Lemma get_tasks_in_date_range_run start_date end_date w :
  get_tasks_in_date_range (PStr start_date) (PStr end_date) w
  = (inr (order_by task_date_le
            (filter (fun t => date_ge (tk_date t) (integer_affinity (SqlText start_date))
                              && date_le (tk_date t) (integer_affinity (SqlText end_date)))
                    (tasks (w_db w)))), w).
Proof.
  unfold get_tasks_in_date_range. cbn [bind_params bind_param]. run_method. cbn [nth].
  now destruct w.
Qed.

(** X24 ([ExportPage.update_preview]). When the list of classes is not
    empty, on a store that respects the primary key of [tasks] and the
    UNIQUE constraint of the records, the preview reads only and does not
    raise. Its headers are the two fixed ones, then the dates of the tasks of
    the range; it has one row for each student of the class, in the order of
    [get_students_by_class]: the identifier, the name, then a cell for each
    task. The cell reads "未交" when the record of the student under the task
    has status [missing]; otherwise it is the grade of the record when there
    is one that is not empty, and "已交" when there is none. A student that
    has no record at all under a task gets "已交" as well: the entry of the
    history has a null status, which is not [missing]. *)
Theorem update_preview_cells
    (class_combo : list string) (class_name : string) (date_range : string * string)
    (p : ExportPage.page) (w : world) :
  class_combo <> [] ->
  NoDup (map tk_id (tasks (w_db w))) ->
  keys_distinct (w_db w) ->
  exists tasks0 students0,
    get_tasks_in_date_range (PStr (fst date_range)) (PStr (snd date_range)) w
    = (inr tasks0, w) /\
    get_students_by_class (PStr class_name) w = (inr students0, w) /\
    ExportPage.update_preview class_combo class_name date_range p w
    = (inr tt,
       ExportPage.mkPage
         ("学号" :: "姓名" :: map tk_date tasks0)
         (map (fun stu =>
                 [st_student_id stu; st_name stu]
                   ++ map (fun t => record_text (w_db w) (st_student_id stu) (tk_id t)) tasks0)
              students0),
       w).
Proof.
  intros Hne Hids Hk. do 2 eexists.
  split; [apply get_tasks_in_date_range_run|]. split; [apply get_students_by_class_run|].
  unfold ExportPage.update_preview. destruct class_combo as [|c cs]; [contradiction|].
  run_page. rewrite get_tasks_in_date_range_run, get_students_by_class_run.
  rewrite (fill_rows_run (w_db w)); auto.
  intros t Ht. apply order_by_In in Ht. now apply filter_In in Ht.
Qed.

(** A student added after the task was handed in by the others: the preview
    shows them as having handed in. *)
Definition late_world : world :=
  snd (add_student example_clock (PStr "202303") (PStr "Zhao") (PStr "2023班") submitted_world).

Lemma update_preview_cells_witness :
  ExportPage.update_preview ["2023班"] "2023班" ("2024-01-01", "2024-12-31")
    (ExportPage.mkPage [] []) late_world
  = (inr tt,
     ExportPage.mkPage ["学号"; "姓名"; "2024-03-01"]
       [["202301"; "Zhang"; "已交"]; ["202302"; "Li"; "已交"]; ["202303"; "Zhao"; "已交"]],
     late_world).
Proof.
  destruct (update_preview_cells ["2023班"] "2023班" ("2024-01-01", "2024-12-31")
              (ExportPage.mkPage [] []) late_world) as (tasks0 & students0 & H1 & H2 & H3).
  - discriminate.
  - repeat constructor. intros [].
  - exact example_keys_distinct.
  - rewrite H3. vm_compute in H1, H2.
    injection H1 as <-. injection H2 as <-. reflexivity.
Defined.


(** *** Undoing a submission *)





(* ================================================================== *)
(** ** The declared tools and the dispatcher *)
(* ================================================================== *)

(** A method that does not raise [KeyError]. *)
Definition no_key_error {A} (m : M A) : Prop :=
  forall w e, fst (m w) = inl e -> exn_kind_of e <> KeyError.

Lemma nke_ret {A} (a : A) : no_key_error (ret a).
Proof. intros w e H. discriminate. Qed.

Lemma nke_get_db : no_key_error get_db.
Proof. intros w e H. discriminate. Qed.

Lemma nke_put_db d : no_key_error (put_db d).
Proof. intros w e H. discriminate. Qed.

Lemma nke_statement_time clk : no_key_error (statement_time clk).
Proof. intros w e H. discriminate. Qed.

Lemma nke_today_iso clk : no_key_error (today_iso clk).
Proof. intros w e H. discriminate. Qed.

Lemma nke_integrity_error {A} msg : no_key_error (@integrity_error A msg).
Proof. intros w e H. cbn in H. injection H as <-. discriminate. Qed.

Lemma nke_not_null {A} column (v : option A) : no_key_error (not_null column v).
Proof. destruct v; [apply nke_ret|apply nke_integrity_error]. Qed.

Lemma nke_not_null_val column v : no_key_error (not_null_val column v).
Proof. destruct v; first [apply nke_ret|apply nke_integrity_error]. Qed.

Lemma nke_bind {A B} (m : M A) (k : A -> M B) :
  no_key_error m -> (forall a, no_key_error (k a)) -> no_key_error (bind m k).
Proof.
  intros Hm Hk w e. unfold bind. specialize (Hm w).
  destruct (m w) as [[e'|a] w1]; cbn [fst] in *.
  - intros H. injection H as <-. now apply Hm.
  - apply Hk.
Qed.

Lemma nke_get_connection {A} (body : M A) : no_key_error body -> no_key_error (get_connection body).
Proof.
  intros Hb w e. unfold get_connection. specialize (Hb w).
  destruct (body w) as [[e'|a] w1]; cbn [fst] in *; [|discriminate].
  intros H. injection H as <-. now apply Hb.
Qed.

Lemma nke_on_error name (body : M string) : no_key_error (on_error name body).
Proof. intros w e. unfold on_error. destruct (body w) as [[e'|a] w1]; discriminate. Qed.

Lemma nke_lift {A} (r : exn + A) :
  (forall e, r = inl e -> exn_kind_of e <> KeyError) -> no_key_error (lift r).
Proof. intros H w e. destruct r as [e'|a]; cbn; [|discriminate]. intros E. apply H. congruence. Qed.

Lemma bind_param_kind v e : bind_param v = inl e -> exn_kind_of e <> KeyError.
Proof.
  destruct v; cbn; try discriminate.
  - destruct (int64 z); [discriminate|]. intros H. injection H as <-. discriminate.
  - intros H. injection H as <-. discriminate.
  - intros H. injection H as <-. discriminate.
Qed.

Lemma bind_params_kind vs : forall e, bind_params vs = inl e -> exn_kind_of e <> KeyError.
Proof.
  induction vs as [|v vs IH]; intros e; cbn [bind_params]; [discriminate|].
  destruct (bind_param v) as [e1|x] eqn:E1.
  - intros H. injection H as <-. now apply (bind_param_kind v).
  - destruct (bind_params vs) as [e2|xs]; [|discriminate].
    intros H. injection H as <-. now apply IH.
Qed.

Lemma int_of_kind v e : int_of v = inl e -> exn_kind_of e <> KeyError.
Proof.
  destruct v; cbn [int_of]; try discriminate;
    try (intros H; injection H as <-; discriminate).
  - destruct (unsign lexeme) as [neg body]. destruct (span_digits body) as [ip r].
    destruct ip; [intros H; injection H as <-; discriminate|].
    destruct r as [|c fr]; [intros H; injection H as <-; discriminate|].
    destruct (Ascii.eqb c ".") eqn:Ec.
    + apply Ascii.eqb_eq in Ec. subst c. destruct (all_digits fr); [discriminate|].
      intros H. injection H as <-. discriminate.
    + intros H.
      assert (exn_kind_of e = ValueError) as ->; [|discriminate].
      destruct c as [[] [] [] [] [] [] [] []]; cbn in Ec; try discriminate;
        injection H as <-; reflexivity.
  - destruct (py_int s); [discriminate|]. intros H. injection H as <-. discriminate.
Qed.

Lemma class_from_id_kind v e : class_from_id v = inl e -> exn_kind_of e <> KeyError.
Proof.
  destruct v; cbn; try discriminate; intros H; injection H as <-; discriminate.
Qed.

Lemma dict_get_kind args k e : dict_get args k = inl e -> exn_kind_of e <> KeyError.
Proof.
  destruct args; cbn; try discriminate; intros H; injection H as <-; discriminate.
Qed.

Lemma nke_getitem kvs k :
  assoc k kvs <> None -> no_key_error (lift (getitem (PDict kvs) k)).
Proof.
  intros H. apply nke_lift. intros e. cbn [getitem].
  destruct (assoc k kvs); [discriminate|contradiction].
Qed.

Ltac nke_step :=
  lazymatch goal with
  | |- no_key_error (bind _ _) => apply nke_bind; [|intros ?]
  | |- no_key_error (get_connection _) => apply nke_get_connection
  | |- no_key_error (on_error _ _) => apply nke_on_error
  | |- no_key_error (ret _) => apply nke_ret
  | |- no_key_error get_db => apply nke_get_db
  | |- no_key_error (put_db _) => apply nke_put_db
  | |- no_key_error (statement_time _) => apply nke_statement_time
  | |- no_key_error (today_iso _) => apply nke_today_iso
  | |- no_key_error (integrity_error _) => apply nke_integrity_error
  | |- no_key_error (not_null _ _) => apply nke_not_null
  | |- no_key_error (not_null_val _ _) => apply nke_not_null_val
  | |- no_key_error (lift (bind_param _)) => apply nke_lift, bind_param_kind
  | |- no_key_error (lift (bind_params _)) => apply nke_lift, bind_params_kind
  | |- no_key_error (lift (int_of _)) => apply nke_lift, int_of_kind
  | |- no_key_error (lift (class_from_id _)) => apply nke_lift, class_from_id_kind
  | |- no_key_error (lift (dict_get _ _)) => apply nke_lift, dict_get_kind
  | |- no_key_error (if ?c then _ else _) => destruct c
  | |- no_key_error (match ?x with _ => _ end) => destruct x
  | |- _ => progress cbv zeta
  end.

Lemma nke_insert_missing clk tid sids : no_key_error (insert_missing clk tid sids).
Proof.
  induction sids as [|sid r IH]; cbn [insert_missing]; [apply nke_ret|].
  apply nke_bind; [|intros _; exact IH]. unfold insert_detail. repeat nke_step.
Qed.

Lemma nke_ensure_task_students clk task_id : no_key_error (ensure_task_students clk task_id).
Proof.
  unfold ensure_task_students. apply nke_get_connection.
  apply nke_bind; [apply nke_lift, bind_param_kind|intros p]. cbv zeta.
  apply nke_bind; [apply nke_get_db|intros d].
  destruct (Nat.ltb _ _); [|apply nke_ret].
  destruct (filter _ _); [apply nke_ret|apply nke_insert_missing].
Qed.

Lemma nke_get_or_create_today_task clk : no_key_error (get_or_create_today_task clk).
Proof. unfold get_or_create_today_task. repeat nke_step. Qed.

Lemma nke_get_task_details clk task_id : no_key_error (get_task_details clk task_id).
Proof.
  unfold get_task_details. apply nke_bind; [apply nke_ensure_task_students|intros _].
  repeat nke_step.
Qed.

Lemma nke_get_today_stats clk : no_key_error (get_today_stats clk).
Proof.
  unfold get_today_stats. apply nke_bind.
  - unfold get_current_task. apply nke_get_connection.
    apply nke_bind; [apply nke_get_db|intros d].
    destruct (order_by _ _); [apply nke_get_or_create_today_task|apply nke_ret].
  - intros task. apply nke_bind; [apply nke_get_task_details|intros details]. apply nke_ret.
Qed.

Lemma nke_upsert_detail clk tid sid st g f : no_key_error (upsert_detail clk tid sid st g f).
Proof. unfold upsert_detail. repeat nke_step. Qed.

Lemma nke_submit_student clk task_id student_id :
  no_key_error (submit_student clk task_id student_id).
Proof.
  unfold submit_student. apply nke_get_connection.
  apply nke_bind; [apply nke_lift, bind_params_kind|intros ps]. apply nke_upsert_detail.
Qed.

Lemma nke_set_grade clk task_id student_id grade :
  no_key_error (set_grade clk task_id student_id grade).
Proof.
  unfold set_grade. apply nke_get_connection.
  apply nke_bind; [apply nke_lift, bind_params_kind|intros ps]. cbv zeta.
  apply nke_upsert_detail.
Qed.

Lemma nke_get_student student_id : no_key_error (get_student student_id).
Proof. unfold get_student. repeat nke_step. Qed.

Lemma nke_get_students_by_class c : no_key_error (get_students_by_class c).
Proof. unfold get_students_by_class. repeat nke_step. Qed.

Lemma nke_get_students_by_id_range lo hi : no_key_error (get_students_by_id_range lo hi).
Proof. unfold get_students_by_id_range. repeat nke_step. Qed.

Lemma nke_get_all_classes : no_key_error get_all_classes.
Proof. unfold get_all_classes. repeat nke_step. Qed.

Lemma nke_get_all_tasks : no_key_error get_all_tasks.
Proof. unfold get_all_tasks. repeat nke_step. Qed.

Lemma nke_get_student_history student_id : no_key_error (get_student_history student_id).
Proof. unfold get_student_history. repeat nke_step. Qed.

Lemma nke_delete_student student_id : no_key_error (delete_student student_id).
Proof. unfold delete_student. repeat nke_step. Qed.

(** The tests of the name, on the names of the tools. *)
Ltac name_tests :=
  cbn [name_is tool_name];
  repeat match goal with
         | |- context [String.eqb ?a ?b] =>
             let v := eval vm_compute in (String.eqb a b) in
             change (String.eqb a b) with v
         end;
  cbv iota.

Ltac each_tool H :=
  unfold _get_tools in H; cbn [In] in H;
  repeat (destruct H as [H|H]; [subst|]); [..|contradiction].

(** X26 (the declared tools and the dispatcher agree on the arguments). For
    a tool that [_get_tools] declares and arguments that are a JSON object:
    when the object has every parameter the declaration lists as required,
    no handler fails on a missing key ([KeyError]), as long as the refresh of
    the pages does not; and when it lacks one of them and has the others,
    with a current task, the dispatcher returns the text that reports this
    key and changes nothing. *)
Theorem declared_arguments
    (clk : clock) (refresh_all_pages : M unit) (task : task_dict)
    (tool : tool_schema) (kvs : list (string * pyval)) :
  In tool _get_tools ->
  ((forall k, In k (tool_required tool) -> assoc k kvs <> None) ->
   no_key_error refresh_all_pages ->
   forall current_task,
     no_key_error (dispatch clk refresh_all_pages current_task (PStr (tool_name tool))
                     (PDict kvs))) /\
  (forall k a id idx w,
     In k (tool_required tool) -> assoc k kvs = None ->
     (forall k', In k' (tool_required tool) -> k' <> k -> assoc k' kvs <> None) ->
     json_loads a = inr (PDict kvs) ->
     _execute_tool clk refresh_all_pages (Some task)
       (mkToolCall idx id (Some (mkFunction (Some (tool_name tool)) (Some a)))) w
     = (inr ("执行工具 " ++ tool_name tool ++ " 时出错: " ++ repr_str k)%string, w)).
Proof.
  intros Htool. split.
  - intros Hreq Hrefresh current_task.
    assert (Hget : forall k, In k (tool_required tool) ->
                             no_key_error (lift (getitem (PDict kvs) k))).
    { intros k Hk. apply nke_getitem. now apply Hreq. }
    each_tool Htool; cbn [tool_required] in Hget; unfold dispatch; name_tests;
      repeat first
        [ apply Hget; cbn; tauto
        | exact Hrefresh
        | apply nke_get_student | apply nke_get_students_by_class
        | apply nke_get_students_by_id_range | apply nke_get_all_classes
        | apply nke_get_today_stats | apply nke_submit_student | apply nke_set_grade
        | apply nke_delete_student | apply nke_get_all_tasks | apply nke_get_task_details
        | apply nke_get_student_history
        | nke_step ].
  - intros k a id idx w Hk Hnone Hothers Hjson.
    unfold _execute_tool. run_method. cbn [tc_function fn_name fn_arguments opt_str].
    rewrite Hjson. cbv beta iota. unfold on_error.
    each_tool Htool; cbn [tool_required In] in Hk, Hothers;
      repeat (destruct Hk as [Hk|Hk]; [subst k|]); try contradiction;
      unfold dispatch; name_tests; run_method; cbn [getitem];
      repeat match goal with
             | |- context [assoc ?k0 kvs] =>
                 first
                   [ rewrite Hnone
                   | let E := fresh "E" in
                     destruct (assoc k0 kvs) eqn:E;
                     [|exfalso; apply (Hothers k0); [cbn; tauto|discriminate|exact E]] ]
             end;
      reflexivity.
Qed.

Definition set_grade_schema : tool_schema :=
  mkTool "set_student_grade" [("student_id", "string"); ("grade", "string")]
    ["student_id"; "grade"].

Lemma declared_arguments_witness :
  _execute_tool example_clock (ret tt) (Some (task_of_row task1)) incomplete_call example_world
  = (inr "执行工具 set_student_grade 时出错: 'grade'", example_world).
Proof.
  apply (proj2 (declared_arguments example_clock (ret tt) (task_of_row task1) set_grade_schema
                  [("student_id", PStr "202301")]
                  ltac:(cbn; tauto))
           "grade" (json_text "{'student_id': '202301'}") (Some "call_2") 0 example_world).
  - cbn. tauto.
  - reflexivity.
  - intros k' [<-|[<-|[]]] Hne; [discriminate|contradiction].
  - reflexivity.
Defined.
